(** * Ethos85 log-analysis engine: a shallow embedding and its properties

    The development follows [src/utils/csvParser.js] (helpers [num] and
    [lambdaToAfr]) and the log analyzer that is stored next to it
    ([getAfrThresholds], [isDemand], [isWot], the four metric analyzers,
    [buildChartData], [worstStatus] and [analyzeLog]), with [downsample] of
    [src/pages/LogViewer.jsx] for comparison with the chart builder.

    Numbers.  A JavaScript number is modelled by [number]: NaN, the two
    infinities, or a finite value.  Finite values are exact rationals, so
    the binary rounding of IEEE doubles is idealised away; the decimal
    rounding the program asks for itself ([toFixed]) is modelled exactly.
    Negative zero is not distinguished from zero.

    Rows.  A parsed CSV row is a JavaScript object from header to raw cell
    text, modelled by [gmap string string]. *)

From Stdlib Require Import ZArith QArith Qround Qabs Qminmax String Ascii List Lia Lqa Bool.
From stdpp Require Import base gmap strings.
Import ListNotations.

Open Scope string_scope.
Open Scope Q_scope.

(* ------------------------------------------------------------------------- *)
(** ** JavaScript numbers *)

Module JS.

Inductive number : Type :=
| NaN
| PosInf
| NegInf
| Fin (q : Q).

Definition isNaN (x : number) : bool :=
  match x with NaN => true | _ => false end.

Definition Qlt_bool (a b : Q) : bool := negb (Qle_bool b a).

(** [x < y]; every comparison with NaN is false. *)
Definition lt (x y : number) : bool :=
  match x, y with
  | NaN, _ | _, NaN => false
  | _, NegInf => false
  | NegInf, _ => true
  | PosInf, _ => false
  | Fin _, PosInf => true
  | Fin a, Fin b => Qlt_bool a b
  end.

(** [x <= y]. *)
Definition le (x y : number) : bool :=
  match x, y with
  | NaN, _ | _, NaN => false
  | NegInf, _ => true
  | _, PosInf => true
  | _, NegInf => false
  | PosInf, _ => false
  | Fin a, Fin b => Qle_bool a b
  end.

Definition gt (x y : number) : bool := lt y x.
Definition ge (x y : number) : bool := le y x.

Definition neg (x : number) : number :=
  match x with
  | NaN => NaN
  | PosInf => NegInf
  | NegInf => PosInf
  | Fin q => Fin (- q)
  end.

Definition add (x y : number) : number :=
  match x, y with
  | NaN, _ | _, NaN => NaN
  | PosInf, NegInf | NegInf, PosInf => NaN
  | PosInf, _ | _, PosInf => PosInf
  | NegInf, _ | _, NegInf => NegInf
  | Fin a, Fin b => Fin (a + b)
  end.

Definition sub (x y : number) : number := add x (neg y).

(** The infinity that carries the sign of [q], NaN for zero. *)
Definition signedInf (positive : bool) (q : Q) : number :=
  if Qeq_bool q 0 then NaN
  else if xorb positive (Qlt_bool q 0) then PosInf else NegInf.

Definition mul (x y : number) : number :=
  match x, y with
  | NaN, _ | _, NaN => NaN
  | PosInf, PosInf | NegInf, NegInf => PosInf
  | PosInf, NegInf | NegInf, PosInf => NegInf
  | PosInf, Fin q | Fin q, PosInf => signedInf true q
  | NegInf, Fin q | Fin q, NegInf => signedInf false q
  | Fin a, Fin b => Fin (a * b)
  end.

Definition div (x y : number) : number :=
  match x, y with
  | NaN, _ | _, NaN => NaN
  | Fin a, Fin b => if Qeq_bool b 0 then signedInf true a else Fin (a / b)
  | Fin _, _ => Fin 0
  | PosInf, Fin b => if Qlt_bool b 0 then NegInf else PosInf
  | NegInf, Fin b => if Qlt_bool b 0 then PosInf else NegInf
  | _, _ => NaN
  end.

(** [Math.max(a, b)] and [Math.min(a, b)]. *)
Definition max2 (x y : number) : number :=
  if isNaN x || isNaN y then NaN else if lt x y then y else x.

Definition min2 (x y : number) : number :=
  if isNaN x || isNaN y then NaN else if lt y x then y else x.

(** [Math.max(...xs)]. *)
Definition maxOf (xs : list number) : number := fold_left max2 xs NegInf.

(** [xs.reduce((a, b) => a + b, 0)]. *)
Definition sum (xs : list number) : number := fold_left add xs (Fin 0).

(** Truthiness of a number: NaN and zero are falsy. *)
Definition truthy (x : number) : bool :=
  match x with
  | NaN => false
  | Fin q => negb (Qeq_bool q 0)
  | _ => true
  end.

(** [x || d] on numbers. *)
Definition orElse (x d : number) : number := if truthy x then x else d.

Definition pow10 (n : nat) : Z := 10 ^ Z.of_nat n.

(** The value denoted by [q.toFixed(n)]: the multiple of [10^-n] nearest to
    [q], a tie going away from zero. *)
Definition toFixedQ (q : Q) (n : nat) : Q :=
  let s := pow10 n in
  let m := Qfloor (Qabs q * inject_Z s + 0.5) in
  Qred (inject_Z (if Qlt_bool q 0 then - m else m) / inject_Z s).

(** [Math.round(x)]: a tie goes up. *)
Definition round (x : number) : number :=
  match x with
  | Fin q => Fin (inject_Z (Qfloor (q + 0.5)))
  | _ => x
  end.

(** *** [parseFloat] on cell text *)

Definition isDigit (c : ascii) : bool :=
  let n := nat_of_ascii c in (48 <=? n)%nat && (n <=? 57)%nat.

Definition isSpace (c : ascii) : bool :=
  let n := nat_of_ascii c in
  ((9 <=? n)%nat && (n <=? 13)%nat) || (n =? 32)%nat.

Fixpoint skipSpaces (s : string) : string :=
  match s with
  | String c r => if isSpace c then skipSpaces r else s
  | EmptyString => s
  end.

(** Splits off the leading decimal digits of [s]; they are accumulated into
    [acc], and their count is returned with the rest of the text. *)
Fixpoint takeDigits (s : string) (acc : Z) (cnt : nat) : Z * nat * string :=
  match s with
  | String c r =>
      if isDigit c
      then takeDigits r (10 * acc + Z.of_nat (nat_of_ascii c - 48))%Z (S cnt)
      else (acc, cnt, s)
  | EmptyString => (acc, cnt, s)
  end.

Definition takeSign (s : string) : bool * string :=
  match s with
  | String "-" r => (true, r)
  | String "+" r => (false, r)
  | _ => (false, s)
  end.

(** The exponent part [e±ddd], taken only when at least one digit follows. *)
Definition takeExponent (s : string) : Z :=
  match s with
  | String c r =>
      if (c =? "e")%char || (c =? "E")%char then
        let '(sg, r1) := takeSign r in
        let '(v, cnt, _) := takeDigits r1 0%Z 0%nat in
        match cnt with
        | O => 0%Z
        | _ => if sg then (- v)%Z else v
        end
      else 0%Z
  | EmptyString => 0%Z
  end.

Definition scale10 (m : Z) (e : Z) : Q :=
  match e with
  | Z0 => inject_Z m
  | Zpos p => inject_Z (m * 10 ^ Zpos p)
  | Zneg p => Qred (inject_Z m / inject_Z (10 ^ Zpos p))
  end.

(** [parseFloat(s)]: the longest prefix of the trimmed text that is a decimal
    literal, NaN when there is none. *)
Definition parseFloat (s : string) : number :=
  let '(sg, r0) := takeSign (skipSpaces s) in
  if String.prefix "Infinity" r0 then (if sg then NegInf else PosInf)
  else
    let '(ip, icnt, r1) := takeDigits r0 0%Z 0%nat in
    let '(m, fcnt, r2) :=
      match r1 with
      | String "." r => let '(m', c', r') := takeDigits r ip 0%nat in (m', c', r')
      | _ => (ip, 0%nat, r1)
      end in
    match (icnt + fcnt)%nat with
    | O => NaN
    | _ =>
        let q := scale10 m (takeExponent r2 - Z.of_nat fcnt) in
        Fin (if sg then - q else q)
    end.

(** The number read back from [v.toFixed(n)]; NaN and the infinities print
    as their names and read back as themselves. *)
Definition toFixed (v : number) (n : nat) : number :=
  match v with
  | Fin q => Fin (toFixedQ q n)
  | _ => v
  end.

(** The values that reach the program as an optional numeric argument. *)
Inductive value : Type :=
| VUndefined
| VNull
| VNum (x : number).

(** [Number(v)]. *)
Definition Number (v : value) : number :=
  match v with
  | VUndefined => NaN
  | VNull => Fin 0
  | VNum x => x
  end.

(** ASCII lower-casing, [s.toLowerCase()] on the headers of the two loggers. *)
Definition lowerChar (c : ascii) : ascii :=
  let n := nat_of_ascii c in
  if (65 <=? n)%nat && (n <=? 90)%nat then ascii_of_nat (n + 32) else c.

Fixpoint toLowerCase (s : string) : string :=
  match s with
  | EmptyString => EmptyString
  | String c r => String (lowerChar c) (toLowerCase r)
  end.

(** [s.includes(sub)]. *)
Fixpoint includes (s sub : string) : bool :=
  String.prefix sub s ||
  match s with
  | EmptyString => false
  | String _ r => includes r sub
  end.

(** Two numbers denote the same value; finite values are compared as
    rationals, whatever fraction represents them. *)
Definition same (x y : number) : Prop :=
  match x, y with
  | NaN, NaN | PosInf, PosInf | NegInf, NegInf => True
  | Fin a, Fin b => a == b
  | _, _ => False
  end.

Declare Scope js_scope.
Delimit Scope js_scope with js.
Bind Scope js_scope with number.
Coercion Fin : Q >-> number.
Infix "+" := add : js_scope.
Infix "-" := sub : js_scope.
Infix "*" := mul : js_scope.
Infix "/" := div : js_scope.
Infix "==" := same (at level 70, no associativity) : js_scope.
Infix "<?" := lt (at level 70, no associativity) : js_scope.
Infix "<=?" := le (at level 70, no associativity) : js_scope.
Infix ">?" := gt (at level 70, no associativity) : js_scope.
Infix ">=?" := ge (at level 70, no associativity) : js_scope.

End JS.

Import JS.

(* ------------------------------------------------------------------------- *)
(** ** Parsed rows and the helpers of the CSV module *)

(** The resolved header of each semantic channel, [null] when none matched. *)
Record Columns : Type := mkColumns {
  time : option string;
  rpm : option string;
  load : option string;
  afr : option string;
  boost : option string;
  iat : option string;
  hpfp : option string;
  hpfp_target : option string;
  afr_target : option string;
  pedal : option string;
  throttle : option string;
}.

(** [!col] for a resolved header: [null] and the empty string are falsy. *)
Definition missing (col : option string) : bool :=
  match col with
  | None => true
  | Some c => String.eqb c ""
  end.

Definition num (row : gmap string string) (col : option string) : number :=
  match col with
  | None => NaN
  | Some c =>
      if String.eqb c "" then NaN
      else match row !! c with
           | None => NaN
           | Some cell => if String.eqb cell "" then NaN else parseFloat cell
           end
  end.

Definition lambdaToAfr (lambda : number) : number := (lambda * 14.7)%js.

Inductive BoostUnit : Type := psi | bar | kpa.

(* ------------------------------------------------------------------------- *)
(** ** Constants *)

Definition LOAD_DEMAND : number := 50.
Definition LOAD_WOT : number := 70.
Definition BOOST_DEMAND : number := 2.
Definition BOOST_WOT : number := 8.
Definition LOAD_TIMING : number := 40.

Definition AFR_LEAN_RISK : number := 13.8.
Definition AFR_LEAN_CAUTION : number := 13.0.
Definition AFR_RICH_RISK : number := 10.0.
Definition AFR_RICH_CAUTION : number := 10.8.

Definition HPFP_DROP_RISK_PCT : number := 20.
Definition HPFP_DROP_CAUTION_PCT : number := 10.

Definition IAT_RISK_F : number := 140.
Definition IAT_CAUTION_F : number := 120.

Definition TIMING_RISK_DEG : number := -4.0.
Definition TIMING_CAUTION_DEG : number := -2.0.

Definition FUEL_CUT_AFR : number := 16.5.

(* ------------------------------------------------------------------------- *)
(** ** Helpers *)

Definition STATUS_RANK : list (string * nat) :=
  [("Safe", 0%nat); ("Caution", 1%nat); ("Risk", 2%nat)].

(** [STATUS_RANK[s] ?? 0]. *)
Fixpoint rankIn (table : list (string * nat)) (s : string) : nat :=
  match table with
  | [] => 0%nat
  | (k, r) :: rest => if String.eqb k s then r else rankIn rest s
  end.

Definition statusRank (s : string) : nat := rankIn STATUS_RANK s.

(** [worstStatus(...statuses)]: the falsy entries are dropped, the rest is
    reduced from ['Safe'], a later entry winning only on a strictly higher
    rank. *)
Definition worstStatus (statuses : list string) : string :=
  fold_left
    (fun worst s => if (statusRank worst <? statusRank s)%nat then s else worst)
    (List.filter (fun s => negb (String.eqb s "")) statuses)
    "Safe".

Definition roundN (v : number) (n : nat) : number := toFixed v n.

Definition normalizeBoostToPsi (v : number) (unit : BoostUnit) : number :=
  if isNaN v then NaN
  else match unit with
       | bar => (v * 14.5038)%js
       | kpa => (v * 0.14504)%js
       | psi => v
       end.

Record Thresholds : Type := mkThresholds {
  stoich : number;
  lean_risk : number;
  lean_caution : number;
  rich_risk : number;
  rich_caution : number;
}.

(** [getAfrThresholds(ethanolPercent = 10)]: the default is taken for an
    argument that is [undefined]. *)
Definition getAfrThresholds (ethanolPercent : value) : Thresholds :=
  let ethanolPercent :=
    match ethanolPercent with VUndefined => VNum 10 | v => v end in
  let e := min2 85 (max2 0 (orElse (Number ethanolPercent) 10)) in
  let stoich := roundN (14.7 - (14.7 - 9.8) * (e / 85))%js 2 in
  let r := (stoich / 14.7)%js in
  {| stoich := stoich;
     lean_risk := roundN (AFR_LEAN_RISK * r)%js 2;
     lean_caution := roundN (AFR_LEAN_CAUTION * r)%js 2;
     rich_risk := roundN (AFR_RICH_RISK * r)%js 2;
     rich_caution := roundN (AFR_RICH_CAUTION * r)%js 2 |}.

Definition isDemand (load boost pedal throttle : number) : bool :=
  let l := if isNaN load then Fin 0 else load in
  let b := if isNaN boost then Fin 0 else boost in
  let p := if isNaN pedal then NaN else pedal in
  let t := if isNaN throttle then NaN else throttle in
  if negb (isNaN p) && (p <? 1)%js && (if negb (isNaN t) then (t <? 5)%js else true)
  then false
  else (l >=? LOAD_DEMAND)%js || (b >? BOOST_DEMAND)%js.

Definition isWot (load boost pedal throttle : number) : bool :=
  let l := if isNaN load then Fin 0 else load in
  let b := if isNaN boost then Fin 0 else boost in
  let p := if isNaN pedal then NaN else pedal in
  let t := if isNaN throttle then NaN else throttle in
  if negb (isNaN p) && (p <? 50)%js then false
  else if negb (isNaN t) && (t <? 30)%js then false
  else (l >=? LOAD_WOT)%js || (b >? BOOST_WOT)%js.

(** The length of an array as a number. *)
Definition ofNat (n : nat) : number := Fin (inject_Z (Z.of_nat n)).

(** The regime of a row as every analyzer derives it inline: the four
    readings are looked up and boost is brought to psi. *)
Definition rowIsDemand (columns : Columns) (boostUnit : BoostUnit)
    (r : gmap string string) : bool :=
  let load := num r (load columns) in
  let boost := normalizeBoostToPsi (num r (boost columns)) boostUnit in
  let pedal := num r (pedal columns) in
  let throttle := num r (throttle columns) in
  isDemand load boost pedal throttle.

Definition rowIsWot (columns : Columns) (boostUnit : BoostUnit)
    (r : gmap string string) : bool :=
  let load := num r (load columns) in
  let boost := normalizeBoostToPsi (num r (boost columns)) boostUnit in
  let pedal := num r (pedal columns) in
  let throttle := num r (throttle columns) in
  isWot load boost pedal throttle.

(** Notes and labels are template literals in the program; the templates
    are kept symbolic, with the values that fill them.  [LabelWorst deg cyl]
    is [`${deg}° on ${cyl}`]. *)
Inductive CylinderLabel : Type :=
| LabelText (s : string)
| LabelWorst (deg : number) (cyl : string).

(** [NoteText] is a constant note.  The others are, in order:
    [`${leanEvents} lean event(s) at WOT — peak ${peak}:1.`],
    [`${richEvents} rich event(s) at WOT.`],
    [`HPFP dropped ${pct}% below ${below} during engine demand.`],
    [`HPFP dipped ${pct}% under load — monitor closely.`],
    [`Peak IAT of ${rounded}°F ${context} exceeds safe operating threshold.`],
    [`Peak IAT of ${rounded}°F ${context} is elevated — consider heat soak risk.`],
    [`Worst timing pull under load: ${cylLabel}.`]. *)
Inductive Note : Type :=
| NoteText (s : string)
| NoteLeanEvents (leanEvents : nat) (peak : number)
| NoteRichEvents (richEvents : nat)
| NoteHpfpDropped (pct : number) (below : string)
| NoteHpfpDipped (pct : number)
| NoteIatExceeds (rounded : number) (context : string)
| NoteIatElevated (rounded : number) (context : string)
| NoteTimingPull (cylLabel : CylinderLabel).

(* ------------------------------------------------------------------------- *)
(** ** AFR analysis *)

Record AfrResult : Type := mkAfrResult {
  afr_actual : option number;
  afr_target_avg : option number;
  lean_events : nat;
  rich_events : nat;
  afr_status : string;
  afr_note : option Note;
}.

(** The variables the row loop of [analyzeAfr] updates. *)
Record AfrState : Type := mkAfrState {
  status : string;
  worstLean : option number;
  leanEvents : nat;
  richEvents : nat;
  demandAfrSamples : list number;
  targetSamples : list number;
}.

Definition afrInit : AfrState :=
  {| status := "Safe"; worstLean := None; leanEvents := 0; richEvents := 0;
     demandAfrSamples := []; targetSamples := [] |}.

Definition toAfr (isLambdaAfr : bool) (v : number) : number :=
  if isLambdaAfr then lambdaToAfr v else v.

(** [worstLean === null || afr > worstLean ? afr : worstLean]. *)
Definition raiseWorst (worstLean : option number) (afr : number) : option number :=
  match worstLean with
  | None => Some afr
  | Some w => if (afr >? w)%js then Some afr else Some w
  end.

(** One iteration of the loop over the rows. *)
Definition afrStep (columns : Columns) (isLambdaAfr : bool)
    (thresholds : Thresholds) (boostUnit : BoostUnit)
    (st : AfrState) (row : gmap string string) : AfrState :=
  let rawAfr := num row (afr columns) in
  if isNaN rawAfr then st
  else
    let afr := toAfr isLambdaAfr rawAfr in
    if (afr >=? FUEL_CUT_AFR)%js then st
    else
      let st1 :=
        if rowIsDemand columns boostUnit row then
          {| status := status st; worstLean := worstLean st;
             leanEvents := leanEvents st; richEvents := richEvents st;
             demandAfrSamples := demandAfrSamples st ++ [afr];
             targetSamples :=
               if missing (afr_target columns) then targetSamples st
               else
                 let rawTarget := num row (afr_target columns) in
                 if isNaN rawTarget then targetSamples st
                 else targetSamples st ++ [toAfr isLambdaAfr rawTarget] |}
        else st in
      if rowIsWot columns boostUnit row then
        if (afr >? lean_risk thresholds)%js then
          {| status := "Risk"; worstLean := raiseWorst (worstLean st1) afr;
             leanEvents := S (leanEvents st1); richEvents := richEvents st1;
             demandAfrSamples := demandAfrSamples st1;
             targetSamples := targetSamples st1 |}
        else if (afr >? lean_caution thresholds)%js
                && negb (String.eqb (status st1) "Risk") then
          {| status := "Caution"; worstLean := raiseWorst (worstLean st1) afr;
             leanEvents := S (leanEvents st1); richEvents := richEvents st1;
             demandAfrSamples := demandAfrSamples st1;
             targetSamples := targetSamples st1 |}
        else if (afr <? rich_risk thresholds)%js then
          {| status := "Risk"; worstLean := worstLean st1;
             leanEvents := leanEvents st1; richEvents := S (richEvents st1);
             demandAfrSamples := demandAfrSamples st1;
             targetSamples := targetSamples st1 |}
        else if (afr <? rich_caution thresholds)%js
                && negb (String.eqb (status st1) "Risk") then
          {| status := "Caution"; worstLean := worstLean st1;
             leanEvents := leanEvents st1; richEvents := S (richEvents st1);
             demandAfrSamples := demandAfrSamples st1;
             targetSamples := targetSamples st1 |}
        else st1
      else st1.

Definition afrLoop (columns : Columns) (isLambdaAfr : bool)
    (thresholds : Thresholds) (boostUnit : BoostUnit)
    (rows : list (gmap string string)) : AfrState :=
  fold_left (afrStep columns isLambdaAfr thresholds boostUnit) rows afrInit.

(** [xs.length ? xs.reduce((a, b) => a + b, 0) / xs.length : null]. *)
Definition average (xs : list number) : option number :=
  match xs with
  | [] => None
  | _ => Some (sum xs / ofNat (length xs))%js
  end.

Definition analyzeAfr (rows : list (gmap string string)) (columns : Columns)
    (isLambdaAfr : bool) (thresholds : Thresholds) (boostUnit : BoostUnit)
    : AfrResult :=
  if missing (afr columns) then
    {| afr_actual := None; afr_target_avg := None; lean_events := 0;
       rich_events := 0; afr_status := "Safe";
       afr_note := Some (NoteText "AFR column not found in log.") |}
  else
    let st := afrLoop columns isLambdaAfr thresholds boostUnit rows in
    let avgDemandAfr := average (demandAfrSamples st) in
    let avgTarget := average (targetSamples st) in
    let displayAfr :=
      match worstLean st with Some w => Some w | None => avgDemandAfr end in
    let note :=
      if (0 <? leanEvents st)%nat then
        Some (NoteLeanEvents (leanEvents st)
                (roundN (match worstLean st with Some w => w | None => Fin 0 end) 2))
      else if (0 <? richEvents st)%nat then Some (NoteRichEvents (richEvents st))
      else None in
    {| afr_actual := option_map (fun v => roundN v 2) displayAfr;
       afr_target_avg := option_map (fun v => roundN v 2) avgTarget;
       lean_events := leanEvents st;
       rich_events := richEvents st;
       afr_status := status st;
       afr_note := note |}.

(* ------------------------------------------------------------------------- *)
(** ** HPFP analysis *)

Record HpfpResult : Type := mkHpfpResult {
  hpfp_actual : option number;
  hpfp_target_avg : option number;
  max_drop_pct : option number;
  hpfp_status : string;
  hpfp_note : option Note;
}.

Definition demandRows (rows : list (gmap string string)) (columns : Columns)
    (boostUnit : BoostUnit) : list (gmap string string) :=
  List.filter (rowIsDemand columns boostUnit) rows.

(** [demandRows.length >= 5 ? demandRows : rows]. *)
Definition sourceRows (rows : list (gmap string string)) (columns : Columns)
    (boostUnit : BoostUnit) : list (gmap string string) :=
  let demand := demandRows rows columns boostUnit in
  if (5 <=? length demand)%nat then demand else rows.

(** [rs.map(r => num(r, col)).filter(v => !isNaN(v) && v > 0)]. *)
Definition positiveReadings (rs : list (gmap string string))
    (col : option string) : list number :=
  List.filter (fun v => negb (isNaN v) && (v >? 0)%js)
    (List.map (fun r => num r col) rs).

(** One iteration of the scan of the whole log against the target column. *)
Definition targetDropStep (actualCol targetCol : option string)
    (maxDropPct : number) (row : gmap string string) : number :=
  let a := num row actualCol in
  let t := num row targetCol in
  if isNaN a || isNaN t || (t <=? 1000)%js || (a <=? 0)%js then maxDropPct
  else
    let dropPct := (((t - a) / t) * 100)%js in
    if (dropPct >? maxDropPct)%js then dropPct else maxDropPct.

(** One iteration of the scan of the baseline readings against their peak. *)
Definition peakDropStep (peakActual : number) (maxDropPct a : number) : number :=
  let dropPct := (((peakActual - a) / peakActual) * 100)%js in
  if (dropPct >? maxDropPct)%js then dropPct else maxDropPct.

(** The value of [maxDropPct] after the scan, before it is rounded. *)
Definition hpfpMaxDropPct (rows : list (gmap string string))
    (actualCol targetCol : option string) (actuals : list number) : number :=
  if negb (missing targetCol)
  then fold_left (targetDropStep actualCol targetCol) rows (Fin 0)
  else fold_left (peakDropStep (maxOf actuals)) actuals (Fin 0).

Definition hpfpStatus (maxDropPct : number) : string :=
  if (maxDropPct >=? HPFP_DROP_RISK_PCT)%js then "Risk"
  else if (maxDropPct >=? HPFP_DROP_CAUTION_PCT)%js then "Caution"
  else "Safe".

(** Truthiness of a value that is a number or [null]. *)
Definition truthyOpt (v : option number) : bool :=
  match v with Some x => truthy x | None => false end.

Definition analyzeHpfp (rows : list (gmap string string)) (columns : Columns)
    (boostUnit : BoostUnit) : HpfpResult :=
  let actualCol := hpfp columns in
  let targetCol := hpfp_target columns in
  if missing actualCol then
    {| hpfp_actual := None; hpfp_target_avg := None; max_drop_pct := None;
       hpfp_status := "Safe";
       hpfp_note := Some (NoteText "HPFP column not found in log.") |}
  else
    let source := sourceRows rows columns boostUnit in
    let actuals := positiveReadings source actualCol in
    match actuals with
    | [] =>
        {| hpfp_actual := None; hpfp_target_avg := None; max_drop_pct := None;
           hpfp_status := "Safe";
           hpfp_note :=
             Some (NoteText "No valid HPFP readings during engine demand.") |}
    | _ =>
        let avgActual := (sum actuals / ofNat (length actuals))%js in
        let peakActual := maxOf actuals in
        let avgTarget :=
          if negb (missing targetCol)
          then average (positiveReadings source targetCol)
          else None in
        let maxDropPct := hpfpMaxDropPct rows actualCol targetCol actuals in
        let note :=
          if (maxDropPct >=? HPFP_DROP_RISK_PCT)%js then
            Some (NoteHpfpDropped (roundN maxDropPct 1)
                    (if truthyOpt avgTarget then "target" else "session peak"))
          else if (maxDropPct >=? HPFP_DROP_CAUTION_PCT)%js then
            Some (NoteHpfpDipped (roundN maxDropPct 1))
          else None in
        {| hpfp_actual := Some (roundN avgActual 0);
           hpfp_target_avg :=
             match avgTarget with
             | Some v => if truthy v then Some (roundN v 0)
                         else Some (roundN peakActual 0)
             | None => Some (roundN peakActual 0)
             end;
           max_drop_pct := Some (roundN maxDropPct 1);
           hpfp_status := hpfpStatus maxDropPct;
           hpfp_note := note |}
    end.

(* ------------------------------------------------------------------------- *)
(** ** IAT analysis *)

Inductive IatUnit : Type := F | C.

Definition detectIatUnit (colName : option string) : option IatUnit :=
  match colName with
  | None => None
  | Some name =>
      if String.eqb name "" then None
      else
        let lower := toLowerCase name in
        if includes lower "°f" || includes lower "[f]" || includes lower "(f)"
           || includes lower "_f]" || includes lower " f]"
           || includes lower "_fahrenheit" then Some F
        else if includes lower "°c" || includes lower "[c]" || includes lower "(c)"
           || includes lower "_c]" || includes lower " c]"
           || includes lower "_celsius" then Some C
        else None
  end.

Record IatResult : Type := mkIatResult {
  iat_value : option number;
  iat_unit : IatUnit;
  peak_f : option number;
  iat_status : string;
  iat_note : option Note;
}.

(** [rs.map(r => num(r, col)).filter(v => !isNaN(v))]. *)
Definition validReadings (rs : list (gmap string string))
    (col : option string) : list number :=
  List.filter (fun v => negb (isNaN v)) (List.map (fun r => num r col) rs).

Definition analyzeIat (rows : list (gmap string string)) (columns : Columns)
    (boostUnit : BoostUnit) : IatResult :=
  let iatCol := iat columns in
  if missing iatCol then
    {| iat_value := None; iat_unit := F; peak_f := None; iat_status := "Safe";
       iat_note := Some (NoteText "IAT column not found in log.") |}
  else
    let allValues := validReadings rows iatCol in
    match allValues with
    | [] =>
        {| iat_value := None; iat_unit := F; peak_f := None;
           iat_status := "Safe";
           iat_note := Some (NoteText "No valid IAT readings.") |}
    | _ =>
        let likelyCelsius :=
          match detectIatUnit iatCol with
          | Some C => true
          | Some F => false
          | None => forallb (fun v => (v <=? 100)%js) allValues
          end in
        let unit := if likelyCelsius then C else F in
        let toF := fun v : number =>
          if likelyCelsius then (v * 9 / 5 + 32)%js else v in
        let demand := demandRows rows columns boostUnit in
        let sourceValues :=
          if (5 <=? length demand)%nat then validReadings demand iatCol
          else allValues in
        match sourceValues with
        | [] =>
            {| iat_value := None; iat_unit := unit; peak_f := None;
               iat_status := "Safe";
               iat_note :=
                 Some (NoteText "No valid IAT readings during engine demand.") |}
        | _ =>
            let maxRaw := maxOf sourceValues in
            let peakF := roundN (toF maxRaw) 1 in
            let context :=
              if (5 <=? length demand)%nat then "under load" else "session peak" in
            if (peakF >=? IAT_RISK_F)%js then
              {| iat_value := Some (roundN maxRaw 1); iat_unit := unit;
                 peak_f := Some peakF; iat_status := "Risk";
                 iat_note := Some (NoteIatExceeds (round peakF) context) |}
            else if (peakF >=? IAT_CAUTION_F)%js then
              {| iat_value := Some (roundN maxRaw 1); iat_unit := unit;
                 peak_f := Some peakF; iat_status := "Caution";
                 iat_note := Some (NoteIatElevated (round peakF) context) |}
            else
              {| iat_value := Some (roundN maxRaw 1); iat_unit := unit;
                 peak_f := Some peakF; iat_status := "Safe";
                 iat_note := None |}
        end
    end.

(* ------------------------------------------------------------------------- *)
(** ** Timing-correction analysis *)

Record TimingResult : Type := mkTimingResult {
  max_correction : option number;
  cylinders : CylinderLabel;
  pull_events : nat;
  timing_status : string;
  timing_note : option Note;
}.

Record TimingState : Type := mkTimingState {
  worstDeg : number;
  worstCyl : option string;
  pullEvents : nat;
}.

Definition timingColStep (row : gmap string string) (st : TimingState)
    (col : string) : TimingState :=
  let val := num row (Some col) in
  if isNaN val then st
  else
    let st1 :=
      if (val <? worstDeg st)%js
      then {| worstDeg := val; worstCyl := Some col; pullEvents := pullEvents st |}
      else st in
    if (val <=? TIMING_CAUTION_DEG)%js
    then {| worstDeg := worstDeg st1; worstCyl := worstCyl st1;
            pullEvents := S (pullEvents st1) |}
    else st1.

Definition timingRowStep (timingColumns : list string) (columns : Columns)
    (boostUnit : BoostUnit) (st : TimingState) (row : gmap string string)
    : TimingState :=
  let load := num row (load columns) in
  let boost := normalizeBoostToPsi (num row (boost columns)) boostUnit in
  let pedal := num row (pedal columns) in
  let throttle := num row (throttle columns) in
  let l := if isNaN load then Fin 0 else load in
  let b := if isNaN boost then Fin 0 else boost in
  let p := if isNaN pedal then NaN else pedal in
  let t := if isNaN throttle then NaN else throttle in
  if negb (isNaN p) && (p <? 1)%js && (if negb (isNaN t) then (t <? 5)%js else true)
  then st
  else if (l <? LOAD_TIMING)%js && (b <=? BOOST_DEMAND)%js then st
  else fold_left (timingColStep row) timingColumns st.

Definition analyzeTimingCorrections (rows : list (gmap string string))
    (timingColumns : list string) (columns : Columns) (boostUnit : BoostUnit)
    : TimingResult :=
  match timingColumns with
  | [] =>
      {| max_correction := None;
         cylinders := LabelText "No timing correction columns found.";
         pull_events := 0; timing_status := "Safe"; timing_note := None |}
  | _ =>
      let st :=
        fold_left (timingRowStep timingColumns columns boostUnit) rows
          {| worstDeg := 0; worstCyl := None; pullEvents := 0 |} in
      let status :=
        if (worstDeg st <=? TIMING_RISK_DEG)%js then "Risk"
        else if (worstDeg st <=? TIMING_CAUTION_DEG)%js then "Caution"
        else "Safe" in
      let cylLabel :=
        match worstCyl st with
        | Some c =>
            if String.eqb c "" then LabelText "No corrections observed under load"
            else LabelWorst (roundN (worstDeg st) 1) c
        | None => LabelText "No corrections observed under load"
        end in
      {| max_correction := Some (roundN (worstDeg st) 2);
         cylinders := cylLabel;
         pull_events := pullEvents st;
         timing_status := status;
         timing_note :=
           if String.eqb status "Safe" then None
           else Some (NoteTimingPull cylLabel) |}
  end.

(* ------------------------------------------------------------------------- *)
(** ** Chart data *)

(** The [time] of a chart point: the rounded reading, or [String(i)]. *)
Inductive TimeLabel : Type :=
| TimeValue (t : number)
| TimeIndex (i : nat).

Record ChartPoint : Type := mkChartPoint {
  point_time : TimeLabel;
  afrActual : option number;
  afrTarget : option number;
  point_boost : option number;
  isLeanWarning : bool;
  isHpfpWarning : bool;
  isTimingWarning : bool;
}.

(** The session peak the chart uses when there is no target column. *)
Definition chartHpfpPeak (rows : list (gmap string string))
    (hpfpCol hpfpTargetCol : option string) : option number :=
  if negb (missing hpfpCol) && missing hpfpTargetCol then
    match positiveReadings rows hpfpCol with
    | [] => None
    | actuals => Some (maxOf actuals)
    end
  else None.

(** The drop of row [j] in the search of the worst row; [None] stands for
    the rows the loop skips. *)
Definition chartDropPct (hpfpCol hpfpTargetCol : option string)
    (hpfpPeak : option number) (row : gmap string string) : option number :=
  let a := num row hpfpCol in
  if isNaN a || (a <=? 0)%js then None
  else if negb (missing hpfpTargetCol) then
    let t := num row hpfpTargetCol in
    if negb (isNaN t) && (t >? 1000)%js then Some (((t - a) / t) * 100)%js
    else Some (Fin 0)
  else
    match hpfpPeak with
    | Some peak => Some (((peak - a) / peak) * 100)%js
    | None => Some (Fin 0)
    end.

(** One iteration of the search: [worstDrop] and [worstHpfpRowIdx], the
    latter [None] for [-1]. *)
Definition worstHpfpStep (hpfpCol hpfpTargetCol : option string)
    (hpfpPeak : option number) (st : number * option nat)
    (jr : nat * gmap string string) : number * option nat :=
  match chartDropPct hpfpCol hpfpTargetCol hpfpPeak (snd jr) with
  | None => st
  | Some dropPct =>
      if (dropPct >? fst st)%js then (dropPct, Some (fst jr)) else st
  end.

(** The rows with their indices, [(j, rows[j])]. *)
Definition indexed (rows : list (gmap string string))
    : list (nat * gmap string string) :=
  combine (seq 0 (length rows)) rows.

Definition worstHpfpSearch (rows : list (gmap string string))
    (hpfpCol hpfpTargetCol : option string) : number * option nat :=
  fold_left
    (worstHpfpStep hpfpCol hpfpTargetCol
       (chartHpfpPeak rows hpfpCol hpfpTargetCol))
    (indexed rows) (Fin 0, None).

(** [worstHpfpRowIdx] as the chart loop sees it. *)
Definition worstHpfpRowIdx (rows : list (gmap string string))
    (columns : Columns) : option nat :=
  if negb (missing (hpfp columns)) then
    let '(worstDrop, idx) :=
      worstHpfpSearch rows (hpfp columns) (hpfp_target columns) in
    if (worstDrop <? HPFP_DROP_RISK_PCT)%js then None else idx
  else None.

(** [Math.max(1, Math.floor(rows.length / maxPoints))], for a positive
    [maxPoints]. *)
Definition chartStep (rowCount maxPoints : nat) : nat :=
  Nat.max 1 (rowCount / maxPoints).

(** One iteration of the scan of the rows of a chunk: the two flags it may
    raise. *)
Definition chunkStep (columns : Columns) (isLambdaAfr : bool)
    (boostUnit : BoostUnit) (thresholds : Thresholds)
    (timingColumns : list string) (flags : bool * bool)
    (r : gmap string string) : bool * bool :=
  let '(isLeanWarning, isTimingWarning) := flags in
  let l := num r (load columns) in
  let p := num r (pedal columns) in
  let th := num r (throttle columns) in
  let bPsi := normalizeBoostToPsi (num r (boost columns)) boostUnit in
  let isLeanWarning :=
    if negb isLeanWarning then
      let a := toAfr isLambdaAfr (num r (afr columns)) in
      if isWot l bPsi p th && (a >? lean_caution thresholds)%js then true
      else isLeanWarning
    else isLeanWarning in
  let isTimingWarning :=
    if negb isTimingWarning && (0 <? length timingColumns)%nat then
      let pl := if isNaN p then NaN else p in
      let pth := if isNaN th then NaN else th in
      if (isNaN pl || (pl >=? 1)%js || (isNaN pth || (pth >=? 5)%js))
         && ((l >=? LOAD_TIMING)%js || (bPsi >? BOOST_DEMAND)%js)
      then
        fold_left
          (fun flag col =>
             let pull := num r (Some col) in
             if negb (isNaN pull) && (pull <=? -3)%js then true else flag)
          timingColumns isTimingWarning
      else isTimingWarning
    else isTimingWarning in
  (isLeanWarning, isTimingWarning).

(** The chart point emitted for the chunk that starts at row [i]. *)
Definition chartPoint (rows : list (gmap string string)) (columns : Columns)
    (isLambdaAfr : bool) (boostUnit : BoostUnit) (thresholds : Thresholds)
    (timingColumns : list string) (worstIdx : option nat) (step i : nat)
    : ChartPoint :=
  let row := nth i rows ∅ in
  let rawAfr := num row (afr columns) in
  let rawTarget := num row (afr_target columns) in
  let rawBoost := num row (boost columns) in
  let rawTime := num row (time columns) in
  let boostPsi := normalizeBoostToPsi rawBoost boostUnit in
  let afrParsed := if negb (isNaN rawAfr) then toAfr isLambdaAfr rawAfr else NaN in
  let afrDisplay :=
    if negb (isNaN afrParsed) && (afrParsed <? FUEL_CUT_AFR)%js
    then Some (roundN afrParsed 2) else None in
  let isHpfpWarning :=
    match worstIdx with
    | Some w => (i <=? w)%nat && (w <? i + step)%nat
    | None => false
    end in
  let '(isLeanWarning, isTimingWarning) :=
    fold_left (chunkStep columns isLambdaAfr boostUnit thresholds timingColumns)
      (firstn step (skipn i rows)) (false, false) in
  {| point_time :=
       if negb (isNaN rawTime) then TimeValue (roundN rawTime 2) else TimeIndex i;
     afrActual := afrDisplay;
     afrTarget :=
       if negb (isNaN rawTarget) then Some (roundN (toAfr isLambdaAfr rawTarget) 2)
       else None;
     point_boost := if negb (isNaN boostPsi) then Some (roundN boostPsi 1) else None;
     isLeanWarning := isLeanWarning;
     isHpfpWarning := isHpfpWarning;
     isTimingWarning := isTimingWarning |}.

(** [for (let i = 0; i < rows.length; i += step)]: the loop counter moves by
    [step >= 1], so [rows.length] iterations of fuel are never used up. *)
Fixpoint chartLoop (emit : nat -> ChartPoint) (rowCount step : nat)
    (fuel i : nat) : list ChartPoint :=
  match fuel with
  | O => []
  | S fuel' =>
      if (i <? rowCount)%nat
      then emit i :: chartLoop emit rowCount step fuel' (i + step)
      else []
  end.

Definition buildChartData (rows : list (gmap string string)) (columns : Columns)
    (isLambdaAfr : bool) (boostUnit : BoostUnit) (maxPoints : nat)
    (thresholds : Thresholds) (timingColumns : list string) : list ChartPoint :=
  let worstIdx := worstHpfpRowIdx rows columns in
  let step := chartStep (length rows) maxPoints in
  chartLoop
    (chartPoint rows columns isLambdaAfr boostUnit thresholds timingColumns
       worstIdx step)
    (length rows) step (length rows) 0.

(** [downsample(rows, maxPts)] of the log viewer ([pages/LogViewer.jsx]),
    the other place where rows are thinned for a chart: the stride is
    [Math.ceil(rows.length / maxPts)] and the rows at its multiples are kept. *)
Definition downsample {A : Type} (rows : list A) (maxPts : nat) : list A :=
  if (length rows <=? maxPts)%nat then rows
  else
    let step := ((length rows + maxPts - 1) / maxPts)%nat in
    List.map snd
      (List.filter (fun ir : nat * A => (fst ir mod step =? 0)%nat)
         (combine (seq 0 (length rows)) rows)).

(* ------------------------------------------------------------------------- *)
(** ** Main entry *)

(** What [parseCsv] hands to the analysis. *)
Record ParsedCsv : Type := mkParsedCsv {
  rows : list (gmap string string);
  columns : Columns;
  timingColumns : list string;
  boostUnit : BoostUnit;
}.

Record Metrics : Type := mkMetrics {
  metric_afr : AfrResult;
  metric_hpfp : HpfpResult;
  metric_iat : IatResult;
  timingCorrections : TimingResult;
}.

Record AnalysisResult : Type := mkAnalysisResult {
  row_count : nat;
  overall_status : string;
  metrics : Metrics;
  chartData : list ChartPoint;
  notes : list Note;
}.

(** [sampleAfrs.length > 0 && sampleAfrs.every(v => v < 3.0)] over the first
    30 rows. *)
Definition detectLambda (rows : list (gmap string string))
    (afrCol : option string) : bool :=
  let sampleAfrs := validReadings (firstn 30 rows) afrCol in
  (0 <? length sampleAfrs)%nat && forallb (fun v => (v <? 3.0)%js) sampleAfrs.

(** [[a, b, c, d].filter(Boolean)] on notes that are a string or [null]. *)
Definition presentNotes (ns : list (option Note)) : list Note :=
  flat_map (fun n => match n with Some x => [x] | None => [] end) ns.

(** [analyzeLog] from the parsed log on; [ethanol] is [carDetails.ethanol].
    The key-point texts are presentation strings and are left out. *)
Definition analyzeLog (parsed : ParsedCsv) (ethanol : value) : AnalysisResult :=
  let rows := rows parsed in
  let columns := columns parsed in
  let timingColumns := timingColumns parsed in
  let boostUnit := boostUnit parsed in
  let isLambdaAfr := detectLambda rows (afr columns) in
  let thresholds := getAfrThresholds ethanol in
  let afr := analyzeAfr rows columns isLambdaAfr thresholds boostUnit in
  let hpfp := analyzeHpfp rows columns boostUnit in
  let iat := analyzeIat rows columns boostUnit in
  let timing := analyzeTimingCorrections rows timingColumns columns boostUnit in
  let overall :=
    worstStatus [afr_status afr; hpfp_status hpfp; iat_status iat;
                 timing_status timing] in
  {| row_count := length rows;
     overall_status := overall;
     metrics := {| metric_afr := afr; metric_hpfp := hpfp; metric_iat := iat;
                   timingCorrections := timing |};
     chartData :=
       buildChartData rows columns isLambdaAfr boostUnit 150 thresholds
         timingColumns;
     notes := presentNotes [afr_note afr; hpfp_note hpfp; iat_note iat;
                            timing_note timing] |}.

(* ------------------------------------------------------------------------- *)
(** ** Reference definitions used by the statements *)

Definition stoichExact (e : Q) : Q := 14.7 - (14.7 - 9.8) * (e / 85).

Definition effectiveEthanol (v : value) : Q :=
  match v with
  | VNum (Fin q) =>
      if Qeq_bool q 0 then 10
      else if Qlt_bool 0 q then (if Qlt_bool q 85 then q else 85) else 0
  | VNum PosInf => 85
  | VNum NegInf => 0
  | _ => 10
  end.

Definition stoichOf (q : Q) : number := stoich (getAfrThresholds (VNum (Fin q))).


(** The status set the aggregation is specified over. *)
Definition STATUSES : list string := ["Safe"; "Caution"; "Risk"].

(** The drop a row contributes to the scan against the target column,
    [None] for the rows the scan passes over. *)
Definition targetDropOf (actualCol targetCol : option string)
    (row : gmap string string) : option number :=
  let a := num row actualCol in
  let t := num row targetCol in
  if isNaN a || isNaN t || (t <=? 1000)%js || (a <=? 0)%js then None
  else Some (((t - a) / t) * 100)%js.

(** The drop of a reading relative to a peak. *)
Definition peakDropOf (peakActual a : number) : number :=
  (((peakActual - a) / peakActual) * 100)%js.

(** A running maximum: a value replaces the current one only when it is
    strictly greater; [None] is passed over. *)
Definition keepMax (m : number) (d : option number) : number :=
  match d with
  | Some x => if (x >? m)%js then x else m
  | None => m
  end.

(** A row of the log, from its header/cell pairs. *)
Definition mkRow (cells : list (string * string)) : gmap string string :=
  list_to_map cells.

(** A column mapping with no channel resolved. *)
Definition noColumns : Columns :=
  {| time := None; rpm := None; load := None; afr := None; boost := None;
     iat := None; hpfp := None; hpfp_target := None; afr_target := None;
     pedal := None; throttle := None |}.

(** The fuel-cut test of the AFR loop on a row. *)
Definition isFuelCut (columns : Columns) (isLambdaAfr : bool)
    (row : gmap string string) : bool :=
  (toAfr isLambdaAfr (num row (afr columns)) >=? FUEL_CUT_AFR)%js.

(** Sample logs for the concrete checks. *)
Definition sampleColumns : Columns :=
  {| time := Some "Time"; rpm := None; load := Some "Engine Load";
     afr := Some "AFR"; boost := Some "Boost (psi)"; iat := None;
     hpfp := Some "HPFP Actual"; hpfp_target := Some "HPFP Target";
     afr_target := None; pedal := Some "Pedal"; throttle := None |}.

Definition pullRow : gmap string string :=
  mkRow [("Time", "1.0"); ("Engine Load", "80"); ("AFR", "15.0");
         ("Boost (psi)", "10"); ("HPFP Actual", "2000"); ("HPFP Target", "3000")].

Definition fuelCutRow : gmap string string :=
  mkRow [("Time", "2.0"); ("Engine Load", "80"); ("AFR", "17.2");
         ("Boost (psi)", "10"); ("HPFP Actual", "2900"); ("HPFP Target", "3000")].

Definition cruiseRow : gmap string string :=
  mkRow [("Time", "3.0"); ("Engine Load", "60"); ("AFR", "12.1");
         ("Boost (psi)", "4"); ("HPFP Actual", "2950"); ("HPFP Target", "3000")].


(** Demand as the specification words it, for comparison with [isDemand]:
    load >= 50 or boost > 2, forced to false only when pedal and throttle are
    both present and both lifted. *)
Definition demandAsSpecified (load boost pedal throttle : number) : bool :=
  let l := if isNaN load then Fin 0 else load in
  let b := if isNaN boost then Fin 0 else boost in
  if negb (isNaN pedal) && negb (isNaN throttle)
     && (pedal <? 1)%js && (throttle <? 5)%js
  then false
  else (l >=? 50)%js || (b >? 2)%js.

(** The maximum drop without a target column as the specification words it,
    for comparison with [hpfpMaxDropPct]: every positive reading of the whole
    log, relative to the peak of the session. *)
Definition sessionPeakMaxDrop (rows : list (gmap string string))
    (actualCol : option string) : number :=
  let actuals := positiveReadings rows actualCol in
  fold_left (peakDropStep (maxOf actuals)) actuals (Fin 0).

Definition noTargetColumns : Columns :=
  {| time := Some "Time"; rpm := None; load := Some "Engine Load";
     afr := Some "AFR"; boost := Some "Boost (psi)"; iat := None;
     hpfp := Some "HPFP Actual"; hpfp_target := None;
     afr_target := None; pedal := Some "Pedal"; throttle := None |}.

Definition steadyPullRow : gmap string string :=
  mkRow [("Engine Load", "80"); ("Boost (psi)", "10"); ("HPFP Actual", "2000")].

Definition idleDipRow : gmap string string :=
  mkRow [("Engine Load", "10"); ("Boost (psi)", "0"); ("HPFP Actual", "1000")].

(** Five rows under demand at 2000 psi and one idle row at 1000 psi. *)
Definition idleDipLog : list (gmap string string) :=
  idleDipRow :: repeat steadyPullRow 5.

(** A row with the pedal released and no throttle channel in the log. *)
Definition pedalLiftRow : gmap string string :=
  mkRow [("Engine Load", "80"); ("Boost (psi)", "10"); ("Pedal", "0")].

(** The drop the chart search assigns to a row of the log. *)
Definition chartDropOfRow (rows : list (gmap string string)) (columns : Columns)
    (row : gmap string string) : option number :=
  chartDropPct (hpfp columns) (hpfp_target columns)
    (chartHpfpPeak rows (hpfp columns) (hpfp_target columns)) row.

Definition mildDipRow : gmap string string :=
  mkRow [("Time", "4.0"); ("Engine Load", "80"); ("AFR", "12.0");
         ("Boost (psi)", "10"); ("HPFP Actual", "2550"); ("HPFP Target", "3000")].



Definition withIat (c : option string) (cols : Columns) : Columns :=
  {| time := time cols; rpm := rpm cols; load := load cols; afr := afr cols;
     boost := boost cols; iat := c; hpfp := hpfp cols;
     hpfp_target := hpfp_target cols; afr_target := afr_target cols;
     pedal := pedal cols; throttle := throttle cols |}.





(** The scenarios of the specification. *)
Definition scenarioA : ParsedCsv :=
  {| rows := [mkRow [("Time", "0.5"); ("Engine Load", "80"); ("AFR", "15.0");
                     ("Boost (psi)", "10")]];
     columns :=
       {| time := Some "Time"; rpm := None; load := Some "Engine Load";
          afr := Some "AFR"; boost := Some "Boost (psi)"; iat := None;
          hpfp := None; hpfp_target := None; afr_target := None;
          pedal := None; throttle := None |};
     timingColumns := [];
     boostUnit := psi |}.

Definition scenarioC : ParsedCsv :=
  {| rows := [mkRow [("Intake Air Temp [°F]", "118")];
              mkRow [("Intake Air Temp [°F]", "150")];
              mkRow [("Intake Air Temp [°F]", "")]];
     columns := withIat (Some "Intake Air Temp [°F]") noColumns;
     timingColumns := [];
     boostUnit := psi |}.

Definition scenarioD : ParsedCsv :=
  {| rows := [mkRow [("Load", "60"); ("Timing Correction Cyl1", "0");
                     ("Timing Correction Cyl2", "-1.5");
                     ("Timing Correction Cyl3", "-5.0");
                     ("Timing Correction Cyl4", "-2")];
              mkRow [("Load", "10"); ("Timing Correction Cyl1", "-9");
                     ("Timing Correction Cyl2", "0");
                     ("Timing Correction Cyl3", "0");
                     ("Timing Correction Cyl4", "0")]];
     columns :=
       {| time := None; rpm := None; load := Some "Load"; afr := None;
          boost := None; iat := None; hpfp := None; hpfp_target := None;
          afr_target := None; pedal := None; throttle := None |};
     timingColumns := ["Timing Correction Cyl1"; "Timing Correction Cyl2";
                       "Timing Correction Cyl3"; "Timing Correction Cyl4"];
     boostUnit := psi |}.

(* ------------------------------------------------------------------------- *)
(** ** The CSV module: rows, lines and column detection

    Text is a string of bytes in UTF-8; the characters the parser looks for
    (quote, comma, line ends) are single bytes that occur in no multi-byte
    character, so the loops run over bytes. *)

Definition COLUMN_MAP_time : list string :=
  ["time"; "timestamp"; "elapsed"; "log time"].
Definition COLUMN_MAP_rpm : list string :=
  ["rpm"; "engine speed"; "engine_speed"].
Definition COLUMN_MAP_load : list string :=
  ["load_%"; "load (%)"; "load(%)"; "load"; "engine load"; "throttle position"].
Definition COLUMN_MAP_afr : list string :=
  ["air fuel ratio"; "air_fuel_ratio"; "afr"; "lambda"].
Definition COLUMN_MAP_boost : list string :=
  ["boost pre throttle"; "boost pre-throttle"; "pre throttle boost";
   "manifold pressure pre throttle"; "hp boost pre throttle";
   "boost pressure pre throttle"; "boost act"; "boost mean";
   "manifold absolute pressure"; "boost pressure"; "boost_pressure";
   "boost (psi)"; "boost_psi"; "boost"; "manifold pressure"; "map"].
Definition COLUMN_MAP_iat : list string :=
  ["intake air temp"; "intake_air_temp"; "intake air temperature";
   "charge air temp"; "charge_air_temp"; "charge air temperature"; "^iat"].
Definition COLUMN_MAP_hpfp : list string :=
  ["hp fuel pressure actual"; "hpfp actual"; "hpfp_actual";
   "high pressure fuel pump actual"; "hpfp act"; "hpfp (psi)"; "hpfp_psi";
   "hpfp"; "high pressure fuel pump"; "fuel pressure actual";
   "fuel_pressure_actual"].
Definition COLUMN_MAP_hpfp_target : list string :=
  ["hpfp target"; "hpfp_target"; "hp fuel pressure target";
   "fuel pressure target"; "hpfp req"; "hpfp setpoint"; "hpfp_setpoint";
   "hp fuel pressure setpoint"; "fuel pressure setpoint"; "hpfp desired";
   "hp fuel pressure desired"; "fuel pressure desired"; "hpfp sp"; "hpfp set";
   "high pressure fuel pump target"; "high pressure fuel pump setpoint"].
Definition COLUMN_MAP_afr_target : list string :=
  ["afr target"; "afr_target"; "air fuel ratio target"].
Definition COLUMN_MAP_pedal : list string :=
  ["pedal"; "accel pedal"; "accelerator pedal"; "accel_pedal"; "pedal position"].
Definition COLUMN_MAP_throttle : list string :=
  ["throttle"; "throttle position"; "throttle_position"; "throttle angle";
   "throttle_angle"].

Definition TIMING_KEYWORDS : list string :=
  ["timing cor"; "timing_cor"; "ign cor"; "ign_cor"; "ignition cor"; "knock"].
Definition CYLINDER_KEYWORDS : list string := ["cyl"; "cylinder"; "cyl_"].

(** *** [String.prototype.trim] *)

(** The white space of two and three bytes: U+00A0; U+1680, U+2000 to
    U+200A, U+2028, U+2029, U+202F, U+205F, U+3000 and U+FEFF. *)
Definition isSpace2 (c1 c2 : ascii) : bool :=
  (nat_of_ascii c1 =? 194)%nat && (nat_of_ascii c2 =? 160)%nat.

Definition isSpace3 (c1 c2 c3 : ascii) : bool :=
  let a := nat_of_ascii c1 in
  let b := nat_of_ascii c2 in
  let c := nat_of_ascii c3 in
  ((a =? 225) && (b =? 154) && (c =? 128))%nat
  || ((a =? 226) && (b =? 128)
      && (((128 <=? c) && (c <=? 138)) || (c =? 168) || (c =? 169) || (c =? 175)))%nat
  || ((a =? 226) && (b =? 129) && (c =? 159))%nat
  || ((a =? 227) && (b =? 128) && (c =? 128))%nat
  || ((a =? 239) && (b =? 187) && (c =? 191))%nat.

Fixpoint trimStartBytes (l : list ascii) : list ascii :=
  match l with
  | c1 :: r1 =>
      if isSpace c1 then trimStartBytes r1
      else match r1 with
           | c2 :: r2 =>
               if isSpace2 c1 c2 then trimStartBytes r2
               else match r2 with
                    | c3 :: r3 =>
                        if isSpace3 c1 c2 c3 then trimStartBytes r3 else l
                    | [] => l
                    end
           | [] => l
           end
  | [] => l
  end.

(** The same from the end, on the reversed bytes. *)
Fixpoint trimEndReversed (l : list ascii) : list ascii :=
  match l with
  | c1 :: r1 =>
      if isSpace c1 then trimEndReversed r1
      else match r1 with
           | c2 :: r2 =>
               if isSpace2 c2 c1 then trimEndReversed r2
               else match r2 with
                    | c3 :: r3 =>
                        if isSpace3 c3 c2 c1 then trimEndReversed r3 else l
                    | [] => l
                    end
           | [] => l
           end
  | [] => l
  end.

Definition trim (s : string) : string :=
  string_of_list_ascii
    (List.rev (trimEndReversed (List.rev (trimStartBytes (list_ascii_of_string s))))).

(** *** [parseRow] *)

(** The loop over the characters of a line: the fields pushed so far, the
    field being read, and whether a quote is open.  The double quote is
    written by its code, 034. *)
Fixpoint parseRowLoop (line : string) (result : list string) (current : string)
    (inQuotes : bool) : list string :=
  match line with
  | EmptyString => (result ++ [trim current])%list
  | String ch rest =>
      if (ch =? "034")%char then parseRowLoop rest result current (negb inQuotes)
      else if (ch =? ",")%char && negb inQuotes
      then parseRowLoop rest (result ++ [trim current])%list "" inQuotes
      else parseRowLoop rest result (current ++ String ch "") inQuotes
  end.

Definition parseRow (line : string) : list string :=
  parseRowLoop line [] "" false.

(** *** [parseCsvText] *)

(** [text.split(/\r?\n/)]. *)
Fixpoint splitLines (text : string) (current : string) : list string :=
  match text with
  | EmptyString => [current]
  | String c rest =>
      if (c =? "010")%char then current :: splitLines rest ""
      else if (c =? "013")%char then
        match rest with
        | String c' rest' =>
            if (c' =? "010")%char then current :: splitLines rest' ""
            else splitLines rest (current ++ String c "")
        | EmptyString => splitLines rest (current ++ String c "")
        end
      else splitLines rest (current ++ String c "")
  end.

(** A line with something left after [trim]. *)
Definition nonBlank (l : string) : bool := negb (String.eqb (trim l) "").

(** What a function that may throw returns. *)
Inductive outcome (A : Type) : Type :=
| Returned (a : A)
| Thrown (message : string).
Arguments Returned {A} a.
Arguments Thrown {A} message.

(** [headers.forEach((h, idx) => { row[h] = values[idx] ?? ''; })]. *)
Fixpoint fillRow (headers values : list string) (row : gmap string string)
    : gmap string string :=
  match headers with
  | [] => row
  | h :: hs =>
      fillRow hs (tl values) (<[h := match values with v :: _ => v | [] => "" end]> row)
  end.

Definition parseCsvText (text : string)
    : outcome (list (gmap string string) * list string) :=
  let lines := List.filter nonBlank (splitLines text "") in
  if (length lines <? 2)%nat
  then Thrown "CSV file is empty or could not be parsed."
  else
    let headers := parseRow (hd "" lines) in
    let rows :=
      List.map (fun line => fillRow headers (parseRow line) ∅)
        (List.filter nonBlank (tl lines)) in
    Returned (rows, headers).

(** *** Column detection *)

(** The test [headers.find] applies for one keyword. *)
Definition headerMatches (exclude : list string) (isStart : bool) (kw : string)
    (h : string) : bool :=
  let hl := toLowerCase h in
  if existsb (fun ex => includes hl ex) exclude then false
  else if isStart then String.prefix kw hl else includes hl kw.

(** [keyword.startsWith('^')] and the lower-cased pattern. *)
Definition keywordIsStart (keyword : string) : bool := String.prefix "^" keyword.

Definition keywordPattern (keyword : string) : string :=
  toLowerCase
    (if keywordIsStart keyword
     then match keyword with String _ r => r | EmptyString => "" end
     else keyword).

Fixpoint findColumn (headers keywords exclude : list string) : option string :=
  match keywords with
  | [] => None
  | keyword :: rest =>
      match List.find
              (headerMatches exclude (keywordIsStart keyword) (keywordPattern keyword))
              headers with
      | Some m => if String.eqb m "" then findColumn headers rest exclude else Some m
      | None => findColumn headers rest exclude
      end
  end.

Definition findTimingColumns (headers : list string) : list string :=
  List.filter
    (fun h =>
       let lower := toLowerCase h in
       let hasTimingWord := existsb (fun kw => includes lower kw) TIMING_KEYWORDS in
       let hasCylWord := existsb (fun kw => includes lower kw) CYLINDER_KEYWORDS in
       hasTimingWord && hasCylWord)
    headers.

Definition detectBoostUnit (columnName : option string)
    (sampleValues : list number) : BoostUnit :=
  match columnName with
  | None => psi
  | Some name =>
      if String.eqb name "" then psi
      else
        let lower := toLowerCase name in
        if includes lower "bar" then bar
        else if includes lower "kpa" then kpa
        else if includes lower "psi" then psi
        else
          let valid :=
            List.filter (fun v => negb (isNaN v) && (v >? 0)%js) sampleValues in
          match valid with
          | [] => psi
          | _ =>
              let maxVal := maxOf valid in
              if (maxVal >? 50)%js then kpa
              else if (maxVal <? 5)%js then bar
              else psi
          end
  end.

(** [parseFloat(r[col])] for the samples of [parseCsv]. *)
Definition cellValue (r : gmap string string) (col : string) : number :=
  match r !! col with
  | Some cell => parseFloat cell
  | None => NaN
  end.

Definition resolveColumns (headers : list string) : Columns :=
  {| time := findColumn headers COLUMN_MAP_time [];
     rpm := findColumn headers COLUMN_MAP_rpm [];
     load := findColumn headers COLUMN_MAP_load [];
     afr := findColumn headers COLUMN_MAP_afr [];
     boost := findColumn headers COLUMN_MAP_boost ["post throttle"; "post-throttle"];
     iat := findColumn headers COLUMN_MAP_iat [];
     hpfp := findColumn headers COLUMN_MAP_hpfp [];
     hpfp_target := findColumn headers COLUMN_MAP_hpfp_target [];
     afr_target := findColumn headers COLUMN_MAP_afr_target [];
     pedal := findColumn headers COLUMN_MAP_pedal [];
     throttle := findColumn headers COLUMN_MAP_throttle [] |}.

Definition parseCsv (csvText : string) : outcome ParsedCsv :=
  match parseCsvText csvText with
  | Thrown message => Thrown message
  | Returned (rows, headers) =>
      let columns := resolveColumns headers in
      let timingColumns := findTimingColumns headers in
      let boostSamples :=
        match boost columns with
        | Some col =>
            List.filter (fun v => negb (isNaN v))
              (List.map (fun r => cellValue r col) (firstn 50 rows))
        | None => []
        end in
      let boostUnit := detectBoostUnit (boost columns) boostSamples in
      Returned {| rows := rows; columns := columns;
                  timingColumns := timingColumns; boostUnit := boostUnit |}
  end.

(** [analyzeLog(csvText, filename, carDetails)] from the text on. *)
Definition analyzeLogText (csvText : string) (ethanol : value)
    : outcome AnalysisResult :=
  match parseCsv csvText with
  | Thrown message => Thrown message
  | Returned parsed => Returned (analyzeLog parsed ethanol)
  end.

(** A line end, a comma and a quote, and the joining of fields. *)
Definition LF : string := String "010" "".
Definition CRLF : string := String "013" (String "010" "").
Definition quoted (field : string) : string :=
  String "034" "" ++ field ++ String "034" "".
Definition noChar (c : ascii) (s : string) : Prop :=
  ~ In c (list_ascii_of_string s).

(** The number of occurrences of a character. *)
Definition countChar (c : ascii) (s : string) : nat :=
  count_occ ascii_dec (list_ascii_of_string s) c.

(** A header passes the test of [findColumn] for a keyword. *)
Definition keywordMatches (exclude : list string) (keyword h : string) : bool :=
  headerMatches exclude (keywordIsStart keyword) (keywordPattern keyword) h.

(** The header of the boost column carries no unit label. *)
Definition unlabelled (name : string) : Prop :=
  name <> "" /\ includes (toLowerCase name) "bar" = false /\
  includes (toLowerCase name) "kpa" = false /\
  includes (toLowerCase name) "psi" = false.

(** The channels of [COLUMN_MAP] with their keywords, their exclusions and
    the field of the mapping they fill. *)
Definition channels : list (list string * list string * (Columns -> option string)) :=
  [(COLUMN_MAP_time, [], time); (COLUMN_MAP_rpm, [], rpm);
   (COLUMN_MAP_load, [], load); (COLUMN_MAP_afr, [], afr);
   (COLUMN_MAP_boost, ["post throttle"; "post-throttle"], boost);
   (COLUMN_MAP_iat, [], iat); (COLUMN_MAP_hpfp, [], hpfp);
   (COLUMN_MAP_hpfp_target, [], hpfp_target);
   (COLUMN_MAP_afr_target, [], afr_target); (COLUMN_MAP_pedal, [], pedal);
   (COLUMN_MAP_throttle, [], throttle)].

Definition patternsNonEmpty (keywords : list string) : bool :=
  forallb (fun k => negb (String.eqb (keywordPattern k) "")) keywords.

(** What the loop of [analyzeAfr] keeps true of its variables. *)
Definition afrInvariant (thresholds : Thresholds) (st : AfrState) : Prop :=
  In (status st) STATUSES /\
  (status st = "Safe" <-> (leanEvents st + richEvents st = 0)%nat) /\
  (leanEvents st + richEvents st <= length (demandAfrSamples st))%nat /\
  (length (targetSamples st) <= length (demandAfrSamples st))%nat /\
  (worstLean st = None <-> leanEvents st = 0%nat) /\
  (forall s, In s (demandAfrSamples st) -> (s <? FUEL_CUT_AFR)%js = true) /\
  (forall w, worstLean st = Some w ->
     ((w >? lean_risk thresholds)%js = true \/ (w >? lean_caution thresholds)%js = true)
     /\ (w <? FUEL_CUT_AFR)%js = true).

(** What holds of the scan state of [analyzeTimingCorrections] over [rows]. *)
Definition timingInvariant (rows : list (gmap string string))
    (timingColumns : list string) (st : TimingState) : Prop :=
  isNaN (worstDeg st) = false /\
  (0 <? worstDeg st)%js = false /\
  ((worstDeg st <=? TIMING_CAUTION_DEG)%js = true <-> (0 < pullEvents st)%nat) /\
  (worstCyl st = None -> worstDeg st = Fin 0) /\
  (forall c, worstCyl st = Some c ->
     In c timingColumns /\ c <> "" /\ (worstDeg st <? 0)%js = true /\
     exists row, In row rows /\ num row (Some c) = worstDeg st).


(** The test the chart applies to a row for its lean marker. *)
Definition chartLeanRow (columns : Columns) (isLambdaAfr : bool)
    (boostUnit : BoostUnit) (thresholds : Thresholds)
    (r : gmap string string) : bool :=
  rowIsWot columns boostUnit r
  && (toAfr isLambdaAfr (num r (afr columns)) >? lean_caution thresholds)%js.

(** The test the chart applies to a row for its timing marker. *)
Definition chartTimingRow (columns : Columns) (boostUnit : BoostUnit)
    (timingColumns : list string) (r : gmap string string) : bool :=
  let l := num r (load columns) in
  let p := num r (pedal columns) in
  let th := num r (throttle columns) in
  let bPsi := normalizeBoostToPsi (num r (boost columns)) boostUnit in
  (isNaN p || (p >=? 1)%js || (isNaN th || (th >=? 5)%js))
  && ((l >=? LOAD_TIMING)%js || (bPsi >? BOOST_DEMAND)%js)
  && existsb (fun col => let pull := num r (Some col) in
                         negb (isNaN pull) && (pull <=? -3)%js) timingColumns.

(** The rows of the chunk that starts at row [i]. *)
Definition chunk (rows : list (gmap string string)) (step i : nat)
    : list (gmap string string) :=
  firstn step (skipn i rows).

(** The branch of the row loop of [analyzeAfr] a row can take, from the
    tests in the order the loop makes them. *)
Inductive AfrClass : Type := NoEvent | LeanRisk | LeanCaution | RichRisk | RichCaution.

Definition afrClass (columns : Columns) (isLambdaAfr : bool)
    (thresholds : Thresholds) (boostUnit : BoostUnit)
    (row : gmap string string) : AfrClass :=
  let rawAfr := num row (afr columns) in
  let a := toAfr isLambdaAfr rawAfr in
  if isNaN rawAfr || (a >=? FUEL_CUT_AFR)%js || negb (rowIsWot columns boostUnit row)
  then NoEvent
  else if (a >? lean_risk thresholds)%js then LeanRisk
  else if (a >? lean_caution thresholds)%js then LeanCaution
  else if (a <? rich_risk thresholds)%js then RichRisk
  else if (a <? rich_caution thresholds)%js then RichCaution
  else NoEvent.

Definition AfrClass_eqb (c d : AfrClass) : bool :=
  match c, d with
  | NoEvent, NoEvent | LeanRisk, LeanRisk | LeanCaution, LeanCaution
  | RichRisk, RichRisk | RichCaution, RichCaution => true
  | _, _ => false
  end.

(** The number of rows of a class. *)
Definition countClass (classOf : gmap string string -> AfrClass) (c : AfrClass)
    (rows : list (gmap string string)) : nat :=
  length (List.filter (fun r => AfrClass_eqb (classOf r) c) rows).

(** The rows the loop of [analyzeTimingCorrections] does not pass over: not
    off the throttle, and under load. *)
Definition timingScanned (columns : Columns) (boostUnit : BoostUnit)
    (row : gmap string string) : bool :=
  let load := num row (load columns) in
  let boost := normalizeBoostToPsi (num row (boost columns)) boostUnit in
  let pedal := num row (pedal columns) in
  let throttle := num row (throttle columns) in
  let l := if isNaN load then Fin 0 else load in
  let b := if isNaN boost then Fin 0 else boost in
  let p := if isNaN pedal then NaN else pedal in
  let t := if isNaN throttle then NaN else throttle in
  negb (negb (isNaN p) && (p <? 1)%js
        && (if negb (isNaN t) then (t <? 5)%js else true))
  && negb ((l <? LOAD_TIMING)%js && (b <=? BOOST_DEMAND)%js).

(** A row with the pedal released, no throttle channel, and a timing pull of
    five degrees under load; and logs of one row. *)
Definition liftedPullRow : gmap string string :=
  mkRow [("Engine Load", "80"); ("Boost (psi)", "10"); ("Pedal", "0");
         ("Timing Corr Cyl 1", "-5.0")].

Definition fuelCutLog : ParsedCsv :=
  {| rows := [fuelCutRow]; columns := sampleColumns; timingColumns := [];
     boostUnit := psi |}.

Definition liftedPullLog : ParsedCsv :=
  {| rows := [liftedPullRow]; columns := sampleColumns;
     timingColumns := ["Timing Corr Cyl 1"]; boostUnit := psi |}.

(** A partial sum of readings that are all below [c]: minus infinity, or a
    finite value below the bound. *)
Definition sumBelow (strict : bool) (acc : number) (b : Q) : Prop :=
  match acc with
  | NegInf => True
  | Fin s => if strict then s < b else s <= b
  | _ => False
  end.

(** A row at wide-open throttle in the lean-caution band at E10, and one in
    the rich-risk band. *)
Definition leanCautionRow : gmap string string :=
  mkRow [("Engine Load", "80"); ("AFR", "12.8"); ("Boost (psi)", "10")].

Definition richRiskRow : gmap string string :=
  mkRow [("Engine Load", "80"); ("AFR", "9.0"); ("Boost (psi)", "10")].
(* ------------------------------------------------------------------------- *)
(** * Properties *)

Example parseFloat_samples :
  parseFloat "15.0" = Fin 15 /\ parseFloat " -2.50" = Fin (-5 # 2) /\
  parseFloat "1.5e2" = Fin 150 /\ parseFloat "12 psi" = Fin 12 /\
  parseFloat "abc" = NaN /\ parseFloat "." = NaN /\ parseFloat ".5" = Fin (1 # 2) /\
  parseFloat "-Infinity" = NegInf /\ parseFloat "2e" = Fin 2.
Proof. vm_compute. repeat split; reflexivity. Qed.

Example roundN_samples :
  roundN (Fin 12.394) 2 = Fin 12.39 /\ roundN (Fin 0.125) 2 = Fin 0.13 /\
  roundN (Fin (-0.125)) 2 = Fin (-0.13) /\ roundN (Fin 33.3333) 1 = Fin 33.3 /\
  roundN NaN 2 = NaN.
Proof. vm_compute. repeat split; reflexivity. Qed.

Example getAfrThresholds_E40 :
  let t := getAfrThresholds (VNum 40) in
  (stoich t == 12.39)%js /\ (lean_risk t == 11.63)%js /\
  (lean_caution t == 10.96)%js /\ (rich_risk t == 8.43)%js /\
  (rich_caution t == 9.1)%js.
Proof. vm_compute. repeat split; reflexivity. Qed.

Example normalizeBoostToPsi_samples :
  (normalizeBoostToPsi 1 bar == 14.5038)%js /\
  (normalizeBoostToPsi 100 kpa == 14.504)%js /\
  normalizeBoostToPsi NaN bar = NaN.
Proof. vm_compute. repeat split; reflexivity. Qed.

Example scenarioA_is_risk :
  let res := analyzeLog scenarioA (VNum 10) in
  overall_status res = "Risk" /\
  lean_events (metric_afr (metrics res)) = 1%nat /\
  (lean_risk (getAfrThresholds (VNum 10)) == 13.26)%js.
Proof. vm_compute. repeat split; reflexivity. Qed.

Example scenarioB_is_risk :
  (max_drop_pct (analyzeHpfp [pullRow] sampleColumns psi) = Some (Fin 33.3)) /\
  hpfp_status (analyzeHpfp [pullRow] sampleColumns psi) = "Risk".
Proof. vm_compute. split; reflexivity. Qed.

Example scenarioC_is_risk :
  let res := metric_iat (metrics (analyzeLog scenarioC VUndefined)) in
  iat_unit res = F /\ peak_f res = Some (Fin 150) /\ iat_status res = "Risk".
Proof. vm_compute. repeat split; reflexivity. Qed.

Example scenarioD_is_risk :
  let res := timingCorrections (metrics (analyzeLog scenarioD VUndefined)) in
  timing_status res = "Risk" /\
  cylinders res = LabelWorst (-5) "Timing Correction Cyl3" /\
  pull_events res = 2%nat.
Proof. vm_compute. repeat split; reflexivity. Qed.


Lemma toFixedQ_nonneg (q : Q) : 0 <= q ->
  toFixedQ q 2 == inject_Z (Qfloor (q * 100 + 0.5)) / 100.
Proof.
  intros H. unfold toFixedQ, Qlt_bool.
  assert (Qle_bool 0 q = true) as -> by (apply Qle_bool_iff; exact H).
  cbn [negb]. rewrite Qred_correct.
  change (inject_Z (pow10 2)) with 100.
  rewrite (Qfloor_comp (Qabs q * 100 + 0.5) (q * 100 + 0.5)).
  - reflexivity.
  - rewrite Qabs_pos by exact H. reflexivity.
Qed.

Lemma toFixedQ_error (q : Q) : 0 <= q ->
  - (1 # 200) <= toFixedQ q 2 - q <= 1 # 200.
Proof.
  intros H. rewrite (toFixedQ_nonneg q H).
  pose proof (Qfloor_le (q * 100 + 0.5)) as L.
  pose proof (Qlt_floor (q * 100 + 0.5)) as U.
  rewrite inject_Z_plus in U. change (inject_Z 1) with 1 in U.
  set (m := inject_Z (Qfloor (q * 100 + 0.5))) in *.
  clearbody m. unfold Qdiv. change (/ 100) with (1 # 100).
  split; lra.
Qed.

Lemma toFixedQ_mono (p q : Q) : 0 <= p -> p <= q -> toFixedQ p 2 <= toFixedQ q 2.
Proof.
  intros Hp Hpq.
  rewrite (toFixedQ_nonneg p Hp), (toFixedQ_nonneg q) by lra.
  assert (Qfloor (p * 100 + 0.5) <= Qfloor (q * 100 + 0.5))%Z as Hz.
  { apply Qfloor_resp_le. lra. }
  rewrite Zle_Qle in Hz. unfold Qdiv. change (/ 100) with (1 # 100). lra.
Qed.


Lemma effectiveEthanol_range (v : value) : 0 <= effectiveEthanol v <= 85.
Proof.
  destruct v as [| |[| | |q]]; cbn; try lra.
  unfold Qlt_bool.
  destruct (Qeq_bool q 0); [lra|].
  destruct (Qle_bool q 0) eqn:E1; cbn [negb]; [lra|].
  destruct (Qle_bool 85 q) eqn:E2; cbn [negb]; [lra|].
  apply not_true_iff_false in E1, E2. rewrite Qle_bool_iff in E1, E2. lra.
Qed.

Lemma stoich_effective (v : value) :
  stoich (getAfrThresholds v) = Fin (toFixedQ (stoichExact (effectiveEthanol v)) 2).
Proof.
  destruct v as [| |[| | |q]]; try reflexivity.
  unfold getAfrThresholds, effectiveEthanol, orElse, Number, truthy.
  destruct (Qeq_bool q 0); cbn [negb]; [reflexivity|].
  unfold max2, min2. cbn [isNaN orb lt].
  destruct (Qlt_bool 0 q); cbn [isNaN orb lt].
  - destruct (Qlt_bool q 85); reflexivity.
  - reflexivity.
Qed.



Lemma stoichExact_range (e : Q) : 0 <= e <= 85 -> 9.8 <= stoichExact e <= 14.7.
Proof.
  intros H. unfold stoichExact, Qdiv. change (/ 85) with (1 # 85). lra.
Qed.




(* ------------------------------------------------------------------------- *)
(** ** Aggregation of statuses *)

Lemma worstStatus_fold_valid (l : list string) (w : string) :
  In w STATUSES -> (forall s, In s l -> In s STATUSES) ->
  let r := fold_left
      (fun worst s => if (statusRank worst <? statusRank s)%nat then s else worst)
      (List.filter (fun s => negb (String.eqb s "")) l) w in
  In r STATUSES /\
  statusRank r = Nat.max (statusRank w) (fold_right Nat.max 0%nat (List.map statusRank l)).
Proof.
  revert w. induction l as [|s l IH]; intros w Hw Hl; cbn zeta.
  - cbn. split; [exact Hw | lia].
  - assert (Hs : In s STATUSES) by (apply Hl; left; reflexivity).
    assert (Hl' : forall s', In s' l -> In s' STATUSES) by (intros; apply Hl; right; assumption).
    assert (negb (String.eqb s "") = true) as Ne.
    { destruct Hs as [<- | [<- | [<- | []]]]; reflexivity. }
    cbn [List.filter]. rewrite Ne. cbn [fold_left List.map fold_right].
    destruct (statusRank w <? statusRank s)%nat eqn:E.
    + apply Nat.ltb_lt in E. destruct (IH s Hs Hl') as [I1 I2].
      split; [exact I1 | cbn zeta in I2; rewrite I2; lia].
    + apply Nat.ltb_ge in E. destruct (IH w Hw Hl') as [I1 I2].
      split; [exact I1 | cbn zeta in I2; rewrite I2; lia].
Qed.

(** C7. Over the statuses Safe, Caution and Risk, [worstStatus] is
    commutative, associative and idempotent, Safe is its identity, and its
    result is the maximum under the strict order Safe < Caution < Risk, for
    two arguments as for any number of them. *)
Theorem worstStatus_max_semilattice (a b c : string) :
  In a STATUSES -> In b STATUSES -> In c STATUSES ->
  worstStatus [a; b] = worstStatus [b; a] /\
  worstStatus [worstStatus [a; b]; c] = worstStatus [a; worstStatus [b; c]] /\
  worstStatus [a; a] = a /\
  worstStatus ["Safe"; a] = a /\ worstStatus [a; "Safe"] = a /\
  worstStatus [] = "Safe" /\
  statusRank (worstStatus [a; b]) = Nat.max (statusRank a) (statusRank b) /\
  (statusRank "Safe" < statusRank "Caution" < statusRank "Risk")%nat /\
  (forall l : list string, (forall s, In s l -> In s STATUSES) ->
     In (worstStatus l) STATUSES /\
     statusRank (worstStatus l) = fold_right Nat.max 0%nat (List.map statusRank l)).
Proof.
  intros Ha Hb Hc.
  split; [|split; [|split; [|split; [|split; [|split; [|split; [|split]]]]]]].
  - destruct Ha as [<- | [<- | [<- | []]]]; destruct Hb as [<- | [<- | [<- | []]]];
      reflexivity.
  - destruct Ha as [<- | [<- | [<- | []]]]; destruct Hb as [<- | [<- | [<- | []]]];
      destruct Hc as [<- | [<- | [<- | []]]]; reflexivity.
  - destruct Ha as [<- | [<- | [<- | []]]]; reflexivity.
  - destruct Ha as [<- | [<- | [<- | []]]]; reflexivity.
  - destruct Ha as [<- | [<- | [<- | []]]]; reflexivity.
  - reflexivity.
  - destruct Ha as [<- | [<- | [<- | []]]]; destruct Hb as [<- | [<- | [<- | []]]];
      reflexivity.
  - cbv. lia.
  - intros l Hl.
    destruct (worstStatus_fold_valid l "Safe" ltac:(left; reflexivity) Hl) as [I1 I2].
    split; [exact I1 | exact I2].
Qed.

Lemma worstStatus_max_semilattice_witness :
  worstStatus ["Risk"; "Caution"] = worstStatus ["Caution"; "Risk"] /\
  worstStatus ["Risk"; "Caution"] = "Risk" /\
  worstStatus ["Caution"; "Safe"; "Risk"; "Safe"] = "Risk".
Proof.
  pose proof (worstStatus_max_semilattice "Risk" "Caution" "Safe"
                ltac:(right; right; left; reflexivity)
                ltac:(right; left; reflexivity)
                ltac:(left; reflexivity)) as H.
  split; [exact (proj1 H)|]. split; reflexivity.
Defined.

(* ------------------------------------------------------------------------- *)
(** ** Order facts on numbers *)

Lemma Qlt_bool_iff (a b : Q) : Qlt_bool a b = true <-> a < b.
Proof.
  unfold Qlt_bool. rewrite negb_true_iff, <- not_true_iff_false, Qle_bool_iff.
  split; [apply Qnot_le_lt | apply Qlt_not_le].
Qed.

Lemma Qlt_bool_false (a b : Q) : Qlt_bool a b = false <-> b <= a.
Proof.
  unfold Qlt_bool. rewrite negb_false_iff. apply Qle_bool_iff.
Qed.

Ltac number_cases :=
  repeat match goal with
         | x : number |- _ => destruct x
         end;
  cbn in *; try discriminate; try reflexivity; try tauto.

Ltac q_props :=
  repeat match goal with
         | H : Qlt_bool _ _ = true |- _ => apply Qlt_bool_iff in H
         | H : Qlt_bool _ _ = false |- _ => apply Qlt_bool_false in H
         | H : Qle_bool _ _ = true |- _ => apply Qle_bool_iff in H
         | H : Qle_bool _ _ = false |- _ =>
             apply not_true_iff_false in H; rewrite Qle_bool_iff in H
         | |- Qlt_bool _ _ = true => apply Qlt_bool_iff
         | |- Qlt_bool _ _ = false => apply Qlt_bool_false
         | |- Qle_bool _ _ = true => apply Qle_bool_iff
         | |- Qle_bool _ _ = false =>
             apply not_true_iff_false; rewrite Qle_bool_iff
         end.

Lemma js_lt_trans (x y z : number) :
  (x <? y)%js = true -> (y <? z)%js = true -> (x <? z)%js = true.
Proof. intros H1 H2. number_cases. q_props. lra. Qed.

Lemma js_lt_le_trans (x y z : number) :
  (x <? y)%js = true -> (y <=? z)%js = true -> (x <? z)%js = true.
Proof. intros H1 H2. number_cases. q_props. lra. Qed.

Lemma js_le_lt_trans (x y z : number) :
  (x <=? y)%js = true -> (y <? z)%js = true -> (x <? z)%js = true.
Proof. intros H1 H2. number_cases. q_props. lra. Qed.

Lemma js_lt_irrefl (x : number) : (x <? x)%js = false.
Proof. number_cases. q_props. lra. Qed.

Lemma js_lt_is_le (x y : number) : (x <? y)%js = true -> (x <=? y)%js = true.
Proof. intros H. number_cases. q_props. lra. Qed.

Lemma js_not_lt_ge (x y : number) :
  isNaN x = false -> isNaN y = false -> (x <? y)%js = false -> (x >=? y)%js = true.
Proof. unfold ge. intros Hx Hy H. number_cases. q_props. lra. Qed.

Lemma js_lt_not_NaN (x y : number) :
  (x <? y)%js = true -> isNaN x = false /\ isNaN y = false.
Proof. intros H. number_cases. Qed.

Lemma js_le_not_NaN (x y : number) :
  (x <=? y)%js = true -> isNaN x = false /\ isNaN y = false.
Proof. intros H. number_cases. Qed.

Lemma js_lt_neg_trans (x y z : number) :
  isNaN y = false ->
  (x <? y)%js = false -> (y <? z)%js = false -> (x <? z)%js = false.
Proof. intros Hy H1 H2. number_cases. q_props. lra. Qed.

Lemma js_ge_trans (x y z : number) :
  (x >=? y)%js = true -> (y >=? z)%js = true -> (x >=? z)%js = true.
Proof. unfold ge. intros H1 H2. number_cases. q_props. lra. Qed.

(* ------------------------------------------------------------------------- *)
(** ** Running maxima *)

Section RunningMax.
Context {A : Type} (f : A -> option number).

Lemma keepMax_not_NaN (m : number) (d : option number) :
  isNaN m = false -> isNaN (keepMax m d) = false.
Proof.
  intros Hm. destruct d as [x|]; cbn; [|exact Hm].
  destruct (x >? m)%js eqn:E; [|exact Hm].
  unfold gt in E. apply js_lt_not_NaN in E. tauto.
Qed.

Lemma keepMax_bounds (m : number) (d : option number) :
  isNaN m = false ->
  (m >? keepMax m d)%js = false /\
  (forall x, d = Some x -> (x >? keepMax m d)%js = false).
Proof.
  intros Hm. destruct d as [x|]; cbn.
  - destruct (x >? m)%js eqn:E.
    + unfold gt in *. split.
      * destruct (x <? m)%js eqn:E'; [|reflexivity].
        pose proof (js_lt_trans _ _ _ E E') as C. rewrite js_lt_irrefl in C. discriminate.
      * intros ? [= <-]. apply js_lt_irrefl.
    + split; [apply js_lt_irrefl|]. intros ? [= <-]. exact E.
  - split; [apply js_lt_irrefl | discriminate].
Qed.

(** The maximum a scan ends with bounds every value it met, and is the
    initial value or one of the values met. *)
Lemma fold_keepMax_spec (l : list A) (m0 : number) :
  isNaN m0 = false ->
  let M := fold_left (fun m x => keepMax m (f x)) l m0 in
  isNaN M = false /\
  (m0 >? M)%js = false /\
  (forall x d, In x l -> f x = Some d -> (d >? M)%js = false) /\
  (M = m0 \/ exists x, In x l /\ f x = Some M).
Proof.
  revert m0. induction l as [|a l IH]; intros m0 Hm0; cbn zeta.
  - cbn. split; [exact Hm0|]. split; [apply js_lt_irrefl|].
    split; [intros ? ? [] | left; reflexivity].
  - cbn [fold_left].
    pose proof (keepMax_not_NaN m0 (f a) Hm0) as Hm1.
    destruct (keepMax_bounds m0 (f a) Hm0) as [B1 B2].
    destruct (IH _ Hm1) as (I1 & I2 & I3 & I4). cbn zeta in *.
    set (M := fold_left (fun m x => keepMax m (f x)) l (keepMax m0 (f a))) in *.
    unfold gt in *.
    split; [exact I1|]. split; [|split].
    + exact (js_lt_neg_trans _ _ _ Hm1 I2 B1).
    + intros x d [<- | Hin] Hd.
      * exact (js_lt_neg_trans _ _ _ Hm1 I2 (B2 _ Hd)).
      * exact (I3 x d Hin Hd).
    + destruct I4 as [E | (x & Hin & Hx)].
      * rewrite E. destruct (f a) as [d|] eqn:Ed; cbn.
        -- unfold gt. destruct (m0 <? d)%js.
           ++ right. exists a. split; [left; reflexivity | exact Ed].
           ++ left; reflexivity.
        -- left; reflexivity.
      * right. exists x. split; [right; exact Hin | exact Hx].
Qed.

End RunningMax.

(* ------------------------------------------------------------------------- *)
(** ** AFR analysis: fuel-cut rows *)

Section AfrLoop.
Variables (columns : Columns) (isLambdaAfr : bool) (thresholds : Thresholds)
          (boostUnit : BoostUnit).

Lemma afrStep_fuel_cut (st : AfrState) (row : gmap string string) :
  isFuelCut columns isLambdaAfr row = true ->
  afrStep columns isLambdaAfr thresholds boostUnit st row = st.
Proof.
  unfold isFuelCut, afrStep. intros H.
  destruct (isNaN (num row (afr columns))); [reflexivity|].
  rewrite H. reflexivity.
Qed.

Lemma afr_fold_without_fuel_cut (rows : list (gmap string string)) (st : AfrState) :
  fold_left (afrStep columns isLambdaAfr thresholds boostUnit) rows st =
  fold_left (afrStep columns isLambdaAfr thresholds boostUnit)
    (List.filter (fun r => negb (isFuelCut columns isLambdaAfr r)) rows) st.
Proof.
  revert st. induction rows as [|r rows IH]; intros st; [reflexivity|].
  cbn [fold_left List.filter].
  destruct (isFuelCut columns isLambdaAfr r) eqn:E; cbn [negb].
  - rewrite (afrStep_fuel_cut st r E). apply IH.
  - cbn [fold_left]. apply IH.
Qed.

End AfrLoop.

(** C3. A row whose converted AFR is at or above 16.5 leaves every variable
    of the AFR loop unchanged, whatever its regime: the lean and rich counts,
    the Demand samples and the target samples, hence the whole result, are
    those of the log without the row. *)
Theorem fuel_cut_rows_are_excluded
    (before after : list (gmap string string)) (row : gmap string string)
    (columns : Columns) (isLambdaAfr : bool) (thresholds : Thresholds)
    (boostUnit : BoostUnit) :
  (toAfr isLambdaAfr (num row (afr columns)) >=? FUEL_CUT_AFR)%js = true ->
  (forall st, afrStep columns isLambdaAfr thresholds boostUnit st row = st) /\
  afrLoop columns isLambdaAfr thresholds boostUnit (before ++ row :: after) =
    afrLoop columns isLambdaAfr thresholds boostUnit (before ++ after) /\
  analyzeAfr (before ++ row :: after) columns isLambdaAfr thresholds boostUnit =
    analyzeAfr (before ++ after) columns isLambdaAfr thresholds boostUnit /\
  (forall rows,
     analyzeAfr rows columns isLambdaAfr thresholds boostUnit =
     analyzeAfr (List.filter (fun r => negb (isFuelCut columns isLambdaAfr r)) rows)
       columns isLambdaAfr thresholds boostUnit).
Proof.
  intros H.
  assert (L : afrLoop columns isLambdaAfr thresholds boostUnit (before ++ row :: after) =
              afrLoop columns isLambdaAfr thresholds boostUnit (before ++ after)).
  { unfold afrLoop. rewrite !fold_left_app. cbn [fold_left].
    rewrite (afrStep_fuel_cut columns isLambdaAfr thresholds boostUnit _ row H).
    reflexivity. }
  split; [intros st; apply afrStep_fuel_cut; exact H|].
  split; [exact L|].
  split.
  - unfold analyzeAfr. rewrite L. reflexivity.
  - intros rows. unfold analyzeAfr, afrLoop.
    rewrite <- afr_fold_without_fuel_cut. reflexivity.
Qed.

Lemma fuel_cut_rows_are_excluded_witness :
  (toAfr false (num fuelCutRow (afr sampleColumns)) >=? FUEL_CUT_AFR)%js = true /\
  rowIsWot sampleColumns psi fuelCutRow = true /\
  analyzeAfr ([pullRow] ++ fuelCutRow :: [cruiseRow]) sampleColumns false
    (getAfrThresholds (VNum 10)) psi =
  analyzeAfr ([pullRow] ++ [cruiseRow]) sampleColumns false
    (getAfrThresholds (VNum 10)) psi.
Proof.
  split; [vm_compute; reflexivity|]. split; [vm_compute; reflexivity|].
  exact (proj1 (proj2 (proj2
    (fuel_cut_rows_are_excluded [pullRow] [cruiseRow] fuelCutRow sampleColumns
       false (getAfrThresholds (VNum 10)) psi ltac:(vm_compute; reflexivity))))).
Defined.

(* ------------------------------------------------------------------------- *)
(** ** HPFP analysis *)

Lemma targetDropStep_keepMax (actualCol targetCol : option string)
    (m : number) (row : gmap string string) :
  targetDropStep actualCol targetCol m row =
  keepMax m (targetDropOf actualCol targetCol row).
Proof.
  unfold targetDropStep, targetDropOf.
  destruct (isNaN (num row actualCol) || isNaN (num row targetCol)
            || (num row targetCol <=? 1000)%js || (num row actualCol <=? 0)%js);
    reflexivity.
Qed.

Lemma fold_targetDropStep (actualCol targetCol : option string)
    (rows : list (gmap string string)) (m : number) :
  fold_left (targetDropStep actualCol targetCol) rows m =
  fold_left (fun m row => keepMax m (targetDropOf actualCol targetCol row)) rows m.
Proof.
  revert m. induction rows as [|r rows IH]; intros m; [reflexivity|].
  cbn [fold_left]. rewrite targetDropStep_keepMax. apply IH.
Qed.



Lemma positiveReadings_positive (rs : list (gmap string string)) (col : option string)
    (a : number) :
  In a (positiveReadings rs col) -> isNaN a = false /\ (a >? 0)%js = true.
Proof.
  unfold positiveReadings. rewrite List.filter_In, andb_true_iff, negb_true_iff. tauto.
Qed.


Lemma analyzeHpfp_fields (rows : list (gmap string string)) (columns : Columns)
    (boostUnit : BoostUnit) :
  missing (hpfp columns) = false ->
  let actuals :=
    positiveReadings (sourceRows rows columns boostUnit) (hpfp columns) in
  let M := hpfpMaxDropPct rows (hpfp columns) (hpfp_target columns) actuals in
  let res := analyzeHpfp rows columns boostUnit in
  actuals <> [] ->
  hpfp_actual res = Some (roundN (sum actuals / ofNat (length actuals))%js 0) /\
  max_drop_pct res = Some (roundN M 1) /\
  hpfp_status res = hpfpStatus M.
Proof.
  intros Hc actuals M res Hne. unfold res, analyzeHpfp. rewrite Hc.
  fold actuals. destruct actuals as [|a l] eqn:E; [contradiction|].
  cbn zeta. repeat split; reflexivity.
Qed.







Lemma hpfpStatus_cases (M : number) :
  (hpfpStatus M = "Risk" <-> (M >=? 20)%js = true) /\
  (hpfpStatus M = "Caution" <-> (M >=? 20)%js = false /\ (M >=? 10)%js = true) /\
  (hpfpStatus M = "Safe" <-> (M >=? 10)%js = false).
Proof.
  unfold hpfpStatus, HPFP_DROP_RISK_PCT, HPFP_DROP_CAUTION_PCT.
  destruct (M >=? 20)%js eqn:E20.
  - assert ((M >=? 10)%js = true) as E10.
    { apply (js_ge_trans M 20 10 E20). reflexivity. }
    rewrite E10. intuition congruence.
  - destruct (M >=? 10)%js eqn:E10; intuition congruence.
Qed.

Lemma fold_peakDropStep (peak : number) (actuals : list number) (m : number) :
  fold_left (peakDropStep peak) actuals m =
  fold_left (fun m a => keepMax m (Some (peakDropOf peak a))) actuals m.
Proof.
  revert m. induction actuals as [|a l IH]; intros m; [reflexivity|].
  cbn [fold_left].
  change (peakDropStep peak m a) with (keepMax m (Some (peakDropOf peak a))).
  apply IH.
Qed.

Lemma targetDropOf_inv (actualCol targetCol : option string)
    (row : gmap string string) (d : number) :
  targetDropOf actualCol targetCol row = Some d ->
  d = (((num row targetCol - num row actualCol) / num row targetCol) * 100)%js /\
  (num row targetCol >? 1000)%js = true /\ (num row actualCol >? 0)%js = true.
Proof.
  unfold targetDropOf.
  destruct (isNaN (num row actualCol)) eqn:Na; [discriminate|].
  destruct (isNaN (num row targetCol)) eqn:Nt; [discriminate|].
  destruct (num row targetCol <=? 1000)%js eqn:Lt; [discriminate|].
  destruct (num row actualCol <=? 0)%js eqn:La; [discriminate|].
  cbn [orb]. intros [= <-]. split; [reflexivity|]. unfold gt.
  split.
  - destruct (num row targetCol); cbn in *; try discriminate; try reflexivity.
    q_props. lra.
  - destruct (num row actualCol); cbn in *; try discriminate; try reflexivity.
    q_props. lra.
Qed.

Lemma targetDropOf_low_target (actualCol targetCol : option string)
    (row : gmap string string) :
  (num row targetCol >? 1000)%js = false ->
  targetDropOf actualCol targetCol row = None.
Proof.
  intros H. destruct (targetDropOf actualCol targetCol row) as [d|] eqn:E;
    [|reflexivity].
  apply targetDropOf_inv in E. destruct E as (_ & E & _). congruence.
Qed.

(** C4 (as amended). With at least one valid baseline reading, the maximum
    drop is the largest drop met by the scan, or zero: against a target
    column the scan runs over every row of the log and takes
    (target - actual) / target * 100 on the rows whose target exceeds 1000 and
    whose actual is positive; without one it runs over the baseline readings
    (those of the Demand rows when there are at least five, of all rows
    otherwise) relative to their own peak.  The status is Risk from 20,
    Caution from 10, Safe below. *)
Theorem hpfp_max_drop_and_status
    (rows : list (gmap string string)) (columns : Columns) (boostUnit : BoostUnit) :
  missing (hpfp columns) = false ->
  positiveReadings (sourceRows rows columns boostUnit) (hpfp columns) <> [] ->
  let actualCol := hpfp columns in
  let targetCol := hpfp_target columns in
  let actuals := positiveReadings (sourceRows rows columns boostUnit) actualCol in
  let peak := maxOf actuals in
  let M := hpfpMaxDropPct rows actualCol targetCol actuals in
  let res := analyzeHpfp rows columns boostUnit in
  max_drop_pct res = Some (roundN M 1) /\
  (hpfp_status res = "Risk" <-> (M >=? 20)%js = true) /\
  (hpfp_status res = "Caution" <-> (M >=? 20)%js = false /\ (M >=? 10)%js = true) /\
  (hpfp_status res = "Safe" <-> (M >=? 10)%js = false) /\
  (missing targetCol = false ->
     (forall row d, In row rows -> targetDropOf actualCol targetCol row = Some d ->
                    (d >? M)%js = false) /\
     (M = Fin 0 \/
      exists row, In row rows /\ targetDropOf actualCol targetCol row = Some M) /\
     (forall row, (num row targetCol >? 1000)%js = false ->
                  targetDropOf actualCol targetCol row = None) /\
     (forall row d, targetDropOf actualCol targetCol row = Some d ->
        d = (((num row targetCol - num row actualCol) / num row targetCol) * 100)%js /\
        (num row targetCol >? 1000)%js = true /\ (num row actualCol >? 0)%js = true)) /\
  (missing targetCol = true ->
     (forall a, In a actuals -> (peakDropOf peak a >? M)%js = false) /\
     (M = Fin 0 \/ exists a, In a actuals /\ peakDropOf peak a = M)).
Proof.
  intros Hc Hne actualCol targetCol actuals peak M res.
  destruct (analyzeHpfp_fields rows columns boostUnit Hc Hne) as (_ & F2 & F3).
  destruct (hpfpStatus_cases M) as (S1 & S2 & S3).
  split; [exact F2|].
  unfold res. rewrite F3. fold actualCol targetCol actuals M.
  split; [exact S1|]. split; [exact S2|]. split; [exact S3|].
  split.
  - intros Ht.
    assert (M = fold_left (fun m row => keepMax m (targetDropOf actualCol targetCol row))
                  rows (Fin 0)) as EM.
    { unfold M, hpfpMaxDropPct. fold targetCol. rewrite Ht. cbn [negb].
      apply fold_targetDropStep. }
    destruct (fold_keepMax_spec (targetDropOf actualCol targetCol) rows (Fin 0) eq_refl)
      as (_ & _ & B & Att).
    cbn zeta in B, Att. rewrite <- EM in B, Att.
    split; [exact B|]. split; [exact Att|].
    split; [intros row; apply targetDropOf_low_target | intros row d; apply targetDropOf_inv].
  - intros Ht.
    assert (M = fold_left (fun m a => keepMax m (Some (peakDropOf peak a)))
                  actuals (Fin 0)) as EM.
    { unfold M, hpfpMaxDropPct. fold targetCol. rewrite Ht. cbn [negb].
      apply fold_peakDropStep. }
    destruct (fold_keepMax_spec (fun a => Some (peakDropOf peak a)) actuals (Fin 0) eq_refl)
      as (_ & _ & B & Att).
    cbn zeta in B, Att. rewrite <- EM in B, Att.
    split.
    + intros a Ha. exact (B a _ Ha eq_refl).
    + destruct Att as [E | (a & Ha & Ea)]; [left; exact E|].
      right. exists a. split; [exact Ha | congruence].
Qed.

Lemma hpfp_max_drop_and_status_witness :
  missing (hpfp sampleColumns) = false /\
  max_drop_pct (analyzeHpfp [pullRow; fuelCutRow; cruiseRow] sampleColumns psi) =
    Some (roundN
            (hpfpMaxDropPct [pullRow; fuelCutRow; cruiseRow]
               (hpfp sampleColumns) (hpfp_target sampleColumns)
               (positiveReadings
                  (sourceRows [pullRow; fuelCutRow; cruiseRow] sampleColumns psi)
                  (hpfp sampleColumns))) 1).
Proof.
  split; [reflexivity|].
  exact (proj1 (hpfp_max_drop_and_status [pullRow; fuelCutRow; cruiseRow]
                  sampleColumns psi eq_refl ltac:(vm_compute; discriminate))).
Defined.

(** C4, the claim as stated fails without a target column: the idle row at
    half the session peak is not part of the scan once five Demand rows
    exist, so the code reports no drop where the drop relative to the
    session peak over the whole log is 50. *)
Lemma hpfp_no_target_scan_is_baseline_only :
  max_drop_pct (analyzeHpfp idleDipLog noTargetColumns psi) = Some (Fin 0) /\
  hpfp_status (analyzeHpfp idleDipLog noTargetColumns psi) = "Safe" /\
  (sessionPeakMaxDrop idleDipLog (hpfp noTargetColumns) == 50)%js /\
  hpfpStatus (sessionPeakMaxDrop idleDipLog (hpfp noTargetColumns)) = "Risk".
Proof. vm_compute. repeat split; reflexivity. Qed.

(* ------------------------------------------------------------------------- *)
(** ** Row classification *)

(** C2, the claim as stated fails when the throttle reading is absent: a
    released pedal alone forces Demand to false, though load is 80 and boost
    is 10. *)
Lemma isDemand_lift_without_throttle :
  isDemand 80 10 0 NaN = false /\
  demandAsSpecified 80 10 0 NaN = true /\
  rowIsDemand noTargetColumns psi pedalLiftRow = false.
Proof. vm_compute. repeat split; reflexivity. Qed.

(** C2 (as amended). Demand is true exactly when load >= 50 or boost > 2,
    missing load and boost counting as 0, except that it is false whenever
    the pedal is present and below 1 while the throttle is absent or below 5;
    it agrees with the specified classification on every row but those with
    a released pedal and no throttle reading, and a row with none of the four
    readings is not Demand. *)
Theorem isDemand_characterised (ld bo pe th : number) :
  let l := if isNaN ld then Fin 0 else ld in
  let b := if isNaN bo then Fin 0 else bo in
  let lifted :=
    negb (isNaN pe) && (pe <? 1)%js && (isNaN th || (th <? 5)%js) in
  isDemand ld bo pe th = negb lifted && ((l >=? 50)%js || (b >? 2)%js) /\
  (isNaN th = false \/ isNaN pe = true \/ (pe <? 1)%js = false ->
   isDemand ld bo pe th = demandAsSpecified ld bo pe th) /\
  isDemand NaN NaN NaN NaN = false /\
  (forall (row : gmap string string) (columns : Columns) (boostUnit : BoostUnit),
     isNaN (num row (load columns)) = true ->
     isNaN (num row (boost columns)) = true ->
     isNaN (num row (pedal columns)) = true ->
     isNaN (num row (throttle columns)) = true ->
     rowIsDemand columns boostUnit row = false).
Proof.
  intros l b lifted.
  assert (Hid : forall x : number, (if isNaN x then NaN else x) = x)
    by (intros []; reflexivity).
  split; [|split; [|split]].
  - unfold isDemand, lifted, LOAD_DEMAND, BOOST_DEMAND. rewrite !Hid. fold l b.
    destruct (isNaN pe), (pe <? 1)%js, (isNaN th), (th <? 5)%js; reflexivity.
  - intros H. unfold isDemand, demandAsSpecified, LOAD_DEMAND, BOOST_DEMAND.
    rewrite !Hid. fold l b.
    destruct (isNaN pe), (pe <? 1)%js, (isNaN th), (th <? 5)%js;
      try reflexivity; destruct H as [H|[H|H]]; discriminate H.
  - reflexivity.
  - intros row columns boostUnit Hl Hb Hp Ht. unfold rowIsDemand.
    destruct (num row (load columns)); try discriminate.
    destruct (num row (boost columns)); try discriminate.
    destruct (num row (pedal columns)); try discriminate.
    destruct (num row (throttle columns)); try discriminate.
    reflexivity.
Qed.

Lemma isDemand_characterised_witness :
  isDemand 80 10 0 3 = demandAsSpecified 80 10 0 3 /\ isDemand 80 10 0 3 = false.
Proof.
  split; [|reflexivity].
  exact (proj1 (proj2 (isDemand_characterised 80 10 0 3)) (or_introl eq_refl)).
Defined.

(* ------------------------------------------------------------------------- *)
(** ** Thresholds *)


(** An ethanol content of 0 is taken for a missing one by [|| 10]. *)
Example getAfrThresholds_zero_is_defaulted :
  getAfrThresholds (VNum 0) = getAfrThresholds (VNum 10) /\
  (stoichOf 0 == 14.12)%js.
Proof. vm_compute. split; reflexivity. Qed.

Lemma stoich_finite (v : value) :
  exists s : Q, stoich (getAfrThresholds v) = Fin s /\ 9.8 <= s <= 14.7.
Proof.
  exists (toFixedQ (stoichExact (effectiveEthanol v)) 2).
  split; [apply stoich_effective|].
  pose proof (stoichExact_range _ (effectiveEthanol_range v)) as Sr.
  assert (toFixedQ 9.8 2 <= toFixedQ (stoichExact (effectiveEthanol v)) 2) as L
    by (apply toFixedQ_mono; lra).
  assert (toFixedQ (stoichExact (effectiveEthanol v)) 2 <= toFixedQ 14.7 2) as U
    by (apply toFixedQ_mono; lra).
  change (toFixedQ 9.8 2) with (49 # 5) in L.
  change (toFixedQ 14.7 2) with (147 # 10) in U.
  lra.
Qed.

(** C8, the claim as stated fails: at E40 the lean-risk threshold is 11.63,
    which is neither 13.8 * stoich / 14.7 for the stoich the code reports
    (12.39) nor 11.62. *)
Lemma lean_risk_E40_is_rounded :
  (stoich (getAfrThresholds (VNum 40)) == 12.39)%js /\
  (lean_risk (getAfrThresholds (VNum 40)) == 11.63)%js /\
  ~ 11.63 == 13.8 * 12.39 / 14.7 /\
  ~ (lean_risk (getAfrThresholds (VNum 40)) == 11.62)%js.
Proof.
  split; [vm_compute; reflexivity|]. split; [vm_compute; reflexivity|].
  split; intros H; vm_compute in H; discriminate H.
Qed.

(** C8 (as amended). For every ethanol input the lean-risk threshold is
    13.8 * (stoich / 14.7) rounded to two decimals, stoich being the rounded
    value the code reports; it is therefore within 0.005 of
    13.8 * stoich / 14.7, and at E40 it is 11.63. *)
Theorem lean_risk_is_rounded_scaled_baseline (v : value) :
  let t := getAfrThresholds v in
  lean_risk t = roundN (AFR_LEAN_RISK * (stoich t / 14.7))%js 2 /\
  (exists s r : Q,
     stoich t = Fin s /\ lean_risk t = Fin r /\
     r == toFixedQ (13.8 * (s / 14.7)) 2 /\
     Qabs (r - 13.8 * s / 14.7) <= 1 # 200) /\
  (lean_risk (getAfrThresholds (VNum 40)) == 11.63)%js.
Proof.
  intros t. split; [reflexivity|]. split; [|vm_compute; reflexivity].
  destruct (stoich_finite v) as (s & Es & Hs). fold t in Es.
  exists s, (toFixedQ (13.8 * (s / 14.7)) 2).
  split; [exact Es|]. split; [|split; [reflexivity|]].
  - change (lean_risk t) with (roundN (AFR_LEAN_RISK * (stoich t / 14.7))%js 2).
    rewrite Es. reflexivity.
  - assert (0 <= 13.8 * (s / 14.7)) as Hpos.
    { unfold Qdiv. change (/ 14.7) with (10 # 147). lra. }
    pose proof (toFixedQ_error _ Hpos) as Herr.
    apply Qabs_Qle_condition.
    unfold Qdiv in *. change (/ 14.7) with (10 # 147) in *. lra.
Qed.


(* ------------------------------------------------------------------------- *)
(** ** Chart data: the stride loop *)

Lemma stride_count_step (d step : nat) :
  (1 <= step)%nat -> (1 <= d)%nat ->
  ((d + step - 1) / step = S ((d - step + step - 1) / step))%nat.
Proof.
  intros Hs Hd. destruct (Nat.le_gt_cases step d) as [L | L].
  - replace (d + step - 1)%nat with ((d - step + step - 1) + 1 * step)%nat by lia.
    rewrite Nat.div_add by lia. lia.
  - replace (d - step + step - 1)%nat with (step - 1)%nat by lia.
    rewrite (Nat.div_small (step - 1) step) by lia.
    replace (d + step - 1)%nat with ((d - 1) + 1 * step)%nat by lia.
    rewrite Nat.div_add by lia. rewrite (Nat.div_small (d - 1) step) by lia.
    reflexivity.
Qed.

(** The loop emits the chunks that start at [i], [i + step], [i + 2 step],
    ... below [rowCount]; fuel for [rowCount - i] iterations is enough. *)
Lemma chartLoop_unrolled (emit : nat -> ChartPoint) (rowCount step : nat) :
  (1 <= step)%nat ->
  forall fuel i, (rowCount - i <= fuel)%nat ->
  chartLoop emit rowCount step fuel i =
  List.map (fun k => emit (i + k * step)%nat)
    (seq 0 ((rowCount - i + step - 1) / step)).
Proof.
  intros Hs. induction fuel as [|fuel IH]; intros i Hf.
  - replace (rowCount - i)%nat with 0%nat by lia. cbn [Nat.add].
    rewrite (Nat.div_small (step - 1) step) by lia. reflexivity.
  - cbn [chartLoop]. destruct (i <? rowCount)%nat eqn:E.
    + apply Nat.ltb_lt in E.
      rewrite (stride_count_step (rowCount - i) step) by lia.
      cbn [seq List.map]. rewrite Nat.mul_0_l, Nat.add_0_r. f_equal.
      rewrite (IH (i + step)%nat) by lia.
      rewrite <- seq_shift, List.map_map.
      replace (rowCount - (i + step))%nat with (rowCount - i - step)%nat by lia.
      apply List.map_ext. intros k. f_equal. cbn [Nat.mul]. lia.
    + apply Nat.ltb_ge in E.
      replace (rowCount - i)%nat with 0%nat by lia. cbn [Nat.add].
      rewrite (Nat.div_small (step - 1) step) by lia. reflexivity.
Qed.

Lemma chartStep_positive (rowCount maxPoints : nat) :
  (1 <= chartStep rowCount maxPoints)%nat.
Proof. unfold chartStep. lia. Qed.

Lemma buildChartData_unrolled (rows : list (gmap string string)) (columns : Columns)
    (isLambdaAfr : bool) (boostUnit : BoostUnit) (maxPoints : nat)
    (thresholds : Thresholds) (timingColumns : list string) :
  let step := chartStep (length rows) maxPoints in
  buildChartData rows columns isLambdaAfr boostUnit maxPoints thresholds timingColumns =
  List.map
    (fun k => chartPoint rows columns isLambdaAfr boostUnit thresholds timingColumns
                (worstHpfpRowIdx rows columns) step (k * step))
    (seq 0 ((length rows + step - 1) / step)).
Proof.
  intros step. unfold buildChartData. fold step.
  rewrite chartLoop_unrolled by (try apply chartStep_positive; lia).
  rewrite Nat.sub_0_r. reflexivity.
Qed.

Lemma buildChartData_length (rows : list (gmap string string)) (columns : Columns)
    (isLambdaAfr : bool) (boostUnit : BoostUnit) (maxPoints : nat)
    (thresholds : Thresholds) (timingColumns : list string) :
  let step := chartStep (length rows) maxPoints in
  length (buildChartData rows columns isLambdaAfr boostUnit maxPoints thresholds
            timingColumns) = ((length rows + step - 1) / step)%nat.
Proof.
  intros step. rewrite buildChartData_unrolled. fold step.
  rewrite List.length_map, List.length_seq. reflexivity.
Qed.

(** C5. A log of 299 rows has a stride of 1 and yields 299 chart points,
    more than the budget of 150. *)
Theorem chart_of_299_rows_has_299_points :
  chartStep 299 150 = 1%nat /\
  length (buildChartData (repeat pullRow 299) sampleColumns false psi 150
            (getAfrThresholds (VNum 10)) []) = 299%nat.
Proof.
  split; [reflexivity|].
  rewrite buildChartData_length, repeat_length. reflexivity.
Qed.

(** What the stride does guarantee: fewer than twice the budget, and one
    point per row for logs within the budget. *)
Lemma buildChartData_length_bound (rows : list (gmap string string))
    (columns : Columns) (isLambdaAfr : bool) (boostUnit : BoostUnit)
    (maxPoints : nat) (thresholds : Thresholds) (timingColumns : list string) :
  (1 <= maxPoints)%nat ->
  let points := buildChartData rows columns isLambdaAfr boostUnit maxPoints
                  thresholds timingColumns in
  (length points < 2 * maxPoints)%nat /\
  (length rows < 2 * maxPoints -> length points = length rows)%nat.
Proof.
  intros Hm points. unfold points. rewrite buildChartData_length.
  set (n := length rows). unfold chartStep.
  destruct (Nat.lt_ge_cases n maxPoints) as [L | L].
  - rewrite (Nat.div_small n maxPoints L). cbn [Nat.max].
    rewrite Nat.add_sub, Nat.div_1_r. lia.
  - assert (1 <= n / maxPoints)%nat as Hk.
    { apply Nat.div_le_lower_bound; lia. }
    rewrite Nat.max_r by exact Hk.
    set (k := (n / maxPoints)%nat) in *.
    assert (n < maxPoints * S k)%nat as Hub.
    { unfold k. apply Nat.lt_le_trans with (maxPoints * S (n / maxPoints))%nat; [|lia].
      apply Nat.mul_succ_div_gt. lia. }
    split.
    + apply Nat.Div0.div_lt_upper_bound. nia.
    + intros Hn. assert (k = 1)%nat as ->.
      { assert (k < 2)%nat; [|lia]. unfold k. apply Nat.Div0.div_lt_upper_bound. lia. }
      rewrite Nat.add_sub, Nat.div_1_r. reflexivity.
Qed.

(** The viewer's [downsample] rounds its stride up and stays within its
    budget, on the 299 rows above as on every log. *)
Lemma multiples_below (step n : nat) :
  (1 <= step)%nat ->
  length (List.filter (fun i => (i mod step =? 0)%nat) (seq 0 n)) =
  ((n + step - 1) / step)%nat.
Proof.
  intros Hs. induction n as [|n IH].
  - cbn. rewrite Nat.div_small by lia. reflexivity.
  - rewrite seq_S, Nat.add_0_l, List.filter_app, List.length_app, IH.
    cbn [List.filter].
    pose proof (Nat.div_mod_eq n step) as Hn.
    pose proof (Nat.mod_upper_bound n step ltac:(lia)) as Hr.
    destruct (n mod step =? 0)%nat eqn:E.
    + apply Nat.eqb_eq in E. cbn [length].
      rewrite <- (Nat.div_unique (n + step - 1) step (n / step) (step - 1)) by lia.
      rewrite <- (Nat.div_unique (S n + step - 1) step (S (n / step)) 0) by lia.
      lia.
    + apply Nat.eqb_neq in E. cbn [length].
      rewrite <- (Nat.div_unique (n + step - 1) step (S (n / step)) (n mod step - 1)) by lia.
      rewrite <- (Nat.div_unique (S n + step - 1) step (S (n / step)) (n mod step)) by lia.
      lia.
Qed.

Lemma filter_on_index_length {A : Type} (p : nat -> bool) (idx : list nat) (l : list A) :
  length idx = length l ->
  length (List.filter (fun ir : nat * A => p (fst ir)) (combine idx l)) =
  length (List.filter p idx).
Proof.
  revert l. induction idx as [|i idx IH]; intros [|a l] H; try discriminate H;
    [reflexivity|].
  cbn [combine List.filter fst]. destruct (p i); cbn [length]; rewrite IH; auto.
Qed.

Lemma downsample_within_budget {A : Type} (rows : list A) (maxPts : nat) :
  (1 <= maxPts)%nat -> (length (downsample rows maxPts) <= maxPts)%nat.
Proof.
  intros Hm. unfold downsample.
  destruct (length rows <=? maxPts)%nat eqn:E.
  - apply Nat.leb_le in E. exact E.
  - apply Nat.leb_gt in E. set (n := length rows) in *.
    assert (Hstep : (1 <= (n + maxPts - 1) / maxPts)%nat).
    { apply Nat.div_le_lower_bound; lia. }
    rewrite List.length_map,
      (filter_on_index_length (fun i => (i mod ((n + maxPts - 1) / maxPts) =? 0)%nat))
      by (rewrite List.length_seq; reflexivity).
    rewrite multiples_below by exact Hstep.
    set (s := ((n + maxPts - 1) / maxPts)%nat) in *.
    assert (n <= maxPts * s)%nat as Hc.
    { pose proof (Nat.mul_succ_div_gt (n + maxPts - 1) maxPts ltac:(lia)). fold s in H. lia. }
    apply Nat.lt_succ_r. apply Nat.Div0.div_lt_upper_bound. nia.
Qed.

Example downsample_of_299_rows :
  length (downsample (repeat pullRow 299) 150) = 150%nat.
Proof. vm_compute. reflexivity. Qed.

(* ------------------------------------------------------------------------- *)
(** ** Chart data: the worst HPFP row *)

Lemma combine_seq_snoc {A : Type} (l : list A) (x : A) (s : nat) :
  combine (seq s (length (l ++ [x]))) (l ++ [x]) =
  (combine (seq s (length l)) l ++ [((s + length l)%nat, x)])%list.
Proof.
  revert s. induction l as [|a l IH]; intros s.
  - cbn. rewrite Nat.add_0_r. reflexivity.
  - cbn [length app seq combine]. rewrite IH. cbn [app length].
    replace (S s + length l)%nat with (s + S (length l))%nat by lia.
    reflexivity.
Qed.

Lemma js_lt_from_floor (w d : number) :
  (w <? d)%js = true -> (w <? 0)%js = false -> (0 <? d)%js = true.
Proof. intros H1 H2. number_cases. q_props. lra. Qed.

Section WorstRow.
Context {A : Type} (f : A -> option number).

(** The search step of the chart over an arbitrary drop function. *)
Let searchStep (st : number * option nat) (jr : nat * A) : number * option nat :=
  match f (snd jr) with
  | None => st
  | Some dropPct =>
      if (dropPct >? fst st)%js then (dropPct, Some (fst jr)) else st
  end.

Let search (l : list A) : number * option nat :=
  fold_left searchStep (combine (seq 0 (length l)) l) (Fin 0, None).

(** The search ends on the first row that attains the largest positive
    drop, or on no row when no drop is positive. *)
Lemma worst_search_spec (l : list A) :
  let W := fst (search l) in
  isNaN W = false /\ (W <? 0)%js = false /\
  (forall k r d, nth_error l k = Some r -> f r = Some d -> (d >? W)%js = false) /\
  match snd (search l) with
  | None => W = Fin 0
  | Some j =>
      exists r, nth_error l j = Some r /\ f r = Some W /\ (W >? 0)%js = true /\
        forall k r' d, (k < j)%nat -> nth_error l k = Some r' -> f r' = Some d ->
                       (d >=? W)%js = false
  end.
Proof.
  induction l as [|x l IH] using rev_ind; cbn zeta.
  - cbn. repeat split; auto. intros [|k] r d E; discriminate E.
  - unfold search in *. rewrite combine_seq_snoc, fold_left_app.
    cbn [fold_left Nat.add].
    set (st := fold_left searchStep (combine (seq 0 (length l)) l) (Fin 0, None)) in *.
    destruct st as [W I]. cbn [fst snd] in IH.
    destruct IH as (HN & H0 & HB & HI).
    assert (Hold : forall k r, nth_error l k = Some r ->
                               nth_error (l ++ [x]) k = Some r).
    { intros k r E. rewrite nth_error_app1; [exact E|].
      apply nth_error_Some. congruence. }
    assert (Hnew : forall k r, nth_error (l ++ [x]) k = Some r ->
                               nth_error l k = Some r \/ (k = length l /\ r = x)).
    { intros k r E. destruct (Nat.lt_ge_cases k (length l)) as [L | L].
      - left. rewrite nth_error_app1 in E by exact L. exact E.
      - right. rewrite nth_error_app2 in E by exact L.
        destruct (k - length l)%nat as [|m] eqn:Ek.
        + cbn in E. split; [lia | congruence].
        + cbn in E. destruct m; discriminate E. }
    set (st' := searchStep (W, I) (length l, x)).
    assert (Est : st' = match f x with
                        | None => (W, I)
                        | Some d => if (W <? d)%js then (d, Some (length l))
                                    else (W, I)
                        end) by reflexivity.
    clearbody st'. unfold gt in *.
    destruct (f x) as [d|] eqn:Ed.
    + destruct (W <? d)%js eqn:Ewd; subst st'; cbn [fst snd].
      * destruct (js_lt_not_NaN _ _ Ewd) as [_ Nd].
        split; [exact Nd|]. split.
        { destruct (d <? 0)%js eqn:E0; [|reflexivity].
          pose proof (js_lt_trans _ _ _ Ewd E0). congruence. }
        split.
        { intros k r d' E Ef. apply Hnew in E. destruct E as [E | [-> ->]].
          - destruct (d <? d')%js eqn:E'; [|reflexivity].
            pose proof (js_lt_trans _ _ _ Ewd E') as C.
            rewrite (HB k r d' E Ef) in C. discriminate C.
          - rewrite Ed in Ef. injection Ef as <-. apply js_lt_irrefl. }
        exists x. split; [|split; [exact Ed|split]].
        { rewrite nth_error_app2 by lia. rewrite Nat.sub_diag. reflexivity. }
        { exact (js_lt_from_floor _ _ Ewd H0). }
        { intros k r' d' Hk E Ef. rewrite nth_error_app1 in E by exact Hk.
          unfold ge. destruct (d <=? d')%js eqn:E'; [|reflexivity].
          pose proof (js_lt_le_trans _ _ _ Ewd E') as C.
          rewrite (HB k r' d' E Ef) in C. discriminate C. }
      * split; [exact HN|]. split; [exact H0|]. split.
        { intros k r d' E Ef. apply Hnew in E. destruct E as [E | [-> ->]].
          - exact (HB k r d' E Ef).
          - rewrite Ed in Ef. injection Ef as <-. exact Ewd. }
        destruct I as [j|]; [|exact HI].
        destruct HI as (r & E1 & E2 & E3 & E4).
        exists r. split; [apply Hold; exact E1|]. split; [exact E2|].
        split; [exact E3|].
        intros k r' d' Hk E Ef. apply (E4 k r' d' Hk); [|exact Ef].
        rewrite nth_error_app1 in E; [exact E|].
        assert (j < length l)%nat by (apply nth_error_Some; congruence). lia.
    + subst st'. cbn [fst snd]. split; [exact HN|]. split; [exact H0|]. split.
      { intros k r d' E Ef. apply Hnew in E. destruct E as [E | [-> ->]].
        - exact (HB k r d' E Ef).
        - congruence. }
      destruct I as [j|]; [|exact HI].
      destruct HI as (r & E1 & E2 & E3 & E4).
      exists r. split; [apply Hold; exact E1|]. split; [exact E2|].
      split; [exact E3|].
      intros k r' d' Hk E Ef. apply (E4 k r' d' Hk); [|exact Ef].
      rewrite nth_error_app1 in E; [exact E|].
      assert (j < length l)%nat by (apply nth_error_Some; congruence). lia.
Qed.

End WorstRow.

Lemma chartPoint_isHpfpWarning (rows : list (gmap string string)) (columns : Columns)
    (isLambdaAfr : bool) (boostUnit : BoostUnit) (thresholds : Thresholds)
    (timingColumns : list string) (worstIdx : option nat) (step i : nat) :
  isHpfpWarning
    (chartPoint rows columns isLambdaAfr boostUnit thresholds timingColumns
       worstIdx step i) =
  match worstIdx with
  | Some w => (i <=? w)%nat && (w <? i + step)%nat
  | None => false
  end.
Proof.
  unfold chartPoint.
  destruct (fold_left _ (firstn step (skipn i rows)) (false, false)) as [a b].
  reflexivity.
Qed.

Lemma chunk_of_row (step j k : nat) :
  (1 <= step)%nat ->
  ((k * step <=? j)%nat && (j <? k * step + step)%nat) = (k =? j / step)%nat.
Proof.
  intros Hs.
  destruct (k =? j / step)%nat eqn:E.
  - apply Nat.eqb_eq in E. subst k.
    pose proof (Nat.Div0.mul_div_le j step).
    pose proof (Nat.mul_succ_div_gt j step ltac:(lia)).
    apply andb_true_iff. split; [apply Nat.leb_le | apply Nat.ltb_lt]; lia.
  - apply Nat.eqb_neq in E. apply not_true_iff_false. intros H. apply E.
    apply andb_true_iff in H. destruct H as [H1 H2].
    apply Nat.leb_le in H1. apply Nat.ltb_lt in H2.
    apply (Nat.div_unique j step k (j - k * step)); lia.
Qed.

Lemma worstHpfpSearch_spec (rows : list (gmap string string)) (columns : Columns) :
  let f := chartDropOfRow rows columns in
  let W := fst (worstHpfpSearch rows (hpfp columns) (hpfp_target columns)) in
  isNaN W = false /\ (W <? 0)%js = false /\
  (forall k r d, nth_error rows k = Some r -> f r = Some d -> (d >? W)%js = false) /\
  match snd (worstHpfpSearch rows (hpfp columns) (hpfp_target columns)) with
  | None => W = Fin 0
  | Some j =>
      exists r, nth_error rows j = Some r /\ f r = Some W /\ (W >? 0)%js = true /\
        forall k r' d, (k < j)%nat -> nth_error rows k = Some r' -> f r' = Some d ->
                       (d >=? W)%js = false
  end.
Proof.
  exact (worst_search_spec (chartDropOfRow rows columns) rows).
Qed.

(** C9, the claim as stated fails: with the HPFP columns resolved and a worst
    drop of 15 percent in the log, no chart point is flagged. *)
Lemma hpfp_warning_needs_risk_drop :
  missing (hpfp sampleColumns) = false /\
  (fst (worstHpfpSearch [cruiseRow; mildDipRow] (hpfp sampleColumns)
          (hpfp_target sampleColumns)) == 15)%js /\
  snd (worstHpfpSearch [cruiseRow; mildDipRow] (hpfp sampleColumns)
         (hpfp_target sampleColumns)) = Some 1%nat /\
  List.map isHpfpWarning
    (buildChartData [cruiseRow; mildDipRow] sampleColumns false psi 150
       (getAfrThresholds (VNum 10)) []) = [false; false].
Proof. vm_compute. repeat split; reflexivity. Qed.

(** C9 (as amended). The row of the largest HPFP drop is located once over
    the whole log, the first such row winning.  When that drop is at least
    20 percent, the chart point whose stride window contains the row is
    flagged and every other point is not; when it is below 20 percent, or no
    row has a positive drop, no point is flagged. *)
Theorem hpfp_warning_marks_worst_chunk
    (rows : list (gmap string string)) (columns : Columns) (isLambdaAfr : bool)
    (boostUnit : BoostUnit) (maxPoints : nat) (thresholds : Thresholds)
    (timingColumns : list string) :
  let step := chartStep (length rows) maxPoints in
  let points := buildChartData rows columns isLambdaAfr boostUnit maxPoints
                  thresholds timingColumns in
  let drop := chartDropOfRow rows columns in
  match worstHpfpRowIdx rows columns with
  | Some j =>
      (exists r W,
         nth_error rows j = Some r /\ drop r = Some W /\
         (W >=? HPFP_DROP_RISK_PCT)%js = true /\
         (forall k r' d, nth_error rows k = Some r' -> drop r' = Some d ->
                         (d >? W)%js = false) /\
         (forall k r' d, (k < j)%nat -> nth_error rows k = Some r' ->
                         drop r' = Some d -> (d >=? W)%js = false)) /\
      (forall k p, nth_error points k = Some p ->
                   isHpfpWarning p = (k =? j / step)%nat) /\
      (exists p, nth_error points (j / step) = Some p /\ isHpfpWarning p = true)
  | None =>
      (forall p, In p points -> isHpfpWarning p = false) /\
      (missing (hpfp columns) = false ->
       forall r d, In r rows -> drop r = Some d ->
                   (d >=? HPFP_DROP_RISK_PCT)%js = false)
  end.
Proof.
  intros step points drop.
  assert (Hstep : (1 <= step)%nat) by apply chartStep_positive.
  assert (Hpts : points =
    List.map (fun k => chartPoint rows columns isLambdaAfr boostUnit thresholds
                         timingColumns (worstHpfpRowIdx rows columns) step (k * step))
      (seq 0 ((length rows + step - 1) / step)))
    by apply buildChartData_unrolled.
  destruct (worstHpfpSearch_spec rows columns) as (HN & H0 & HB & HI).
  cbn zeta in HN, H0, HB, HI. fold drop in HB, HI.
  unfold worstHpfpRowIdx in *.
  destruct (missing (hpfp columns)) eqn:Hc; cbn [negb] in *.
  { split; [|discriminate].
    intros p Hp. rewrite Hpts in Hp. apply List.in_map_iff in Hp.
    destruct Hp as (k & <- & _). apply chartPoint_isHpfpWarning. }
  destruct (worstHpfpSearch rows (hpfp columns) (hpfp_target columns)) as [W I].
  cbn [fst snd] in *.
  destruct (W <? HPFP_DROP_RISK_PCT)%js eqn:E20.
  - split.
    + intros p Hp. rewrite Hpts in Hp. apply List.in_map_iff in Hp.
      destruct Hp as (k & <- & _). apply chartPoint_isHpfpWarning.
    + intros _ r d Hr Hd. apply In_nth_error in Hr. destruct Hr as [k Hk].
      pose proof (HB k r d Hk Hd) as Hle. unfold gt, ge in *.
      destruct (HPFP_DROP_RISK_PCT <=? d)%js eqn:E; [|reflexivity].
      pose proof (js_lt_le_trans _ _ _ E20 E) as C. congruence.
  - destruct I as [j|].
    + destruct HI as (r & E1 & E2 & E3 & E4).
      assert (Hj : (j < length rows)%nat) by (apply nth_error_Some; congruence).
      split; [|split].
      * exists r, W. split; [exact E1|]. split; [exact E2|].
        split; [apply js_not_lt_ge; [exact HN | reflexivity | exact E20]|].
        split; [exact HB | exact E4].
      * intros k p Hk. rewrite Hpts in Hk. rewrite nth_error_map in Hk.
        destruct (nth_error (seq 0 ((length rows + step - 1) / step)) k) as [k'|] eqn:Ek;
          [|discriminate Hk].
        apply nth_error_In in Ek as Hin. apply in_seq in Hin.
        assert (k' = k) as ->.
        { pose proof (nth_error_nth _ _ 0%nat Ek) as En.
          pose proof (proj1 (nth_error_Some _ _) ltac:(rewrite Ek; discriminate))
            as Hlt.
          rewrite List.length_seq in Hlt.
          rewrite seq_nth in En by exact Hlt. lia. }
        cbn in Hk. injection Hk as <-.
        rewrite chartPoint_isHpfpWarning. apply chunk_of_row. exact Hstep.
      * assert (Hc' : (j / step < (length rows + step - 1) / step)%nat).
        { apply Nat.Div0.div_lt_upper_bound.
          pose proof (Nat.mul_succ_div_gt (length rows + step - 1) step ltac:(lia)).
          nia. }
        eexists. split.
        -- rewrite Hpts, nth_error_map.
           rewrite (nth_error_nth' _ 0%nat) by (rewrite List.length_seq; exact Hc').
           rewrite seq_nth by exact Hc'. reflexivity.
        -- rewrite chartPoint_isHpfpWarning, chunk_of_row by exact Hstep.
           apply Nat.eqb_refl.
    + split.
      * intros p Hp. rewrite Hpts in Hp. apply List.in_map_iff in Hp.
        destruct Hp as (k & <- & _). apply chartPoint_isHpfpWarning.
      * intros _ r d Hr Hd. subst W. discriminate E20.
Qed.

(* ------------------------------------------------------------------------- *)
(** ** Missing columns *)



(* ------------------------------------------------------------------------- *)
(** * Properties of the CSV module *)

Example parseRow_samples :
  parseRow "Time, Engine Load ,AFR" = ["Time"; "Engine Load"; "AFR"] /\
  parseRow (quoted "a,b" ++ ",c") = ["a,b"; "c"] /\
  parseRow "" = [""] /\
  parseRow "1,,2," = ["1"; ""; "2"; ""].
Proof. vm_compute. repeat split; reflexivity. Qed.

Example parseCsv_sample :
  let text := ("Time,Engine Load,AFR,Boost (psi)" ++ CRLF ++ "0.5,80,15.0,10" ++ LF
               ++ "  " ++ LF ++ "1.0,20,14.1" ++ LF)%string in
  match parseCsv text with
  | Returned parsed =>
      length (rows parsed) = 2%nat /\
      afr (columns parsed) = Some "AFR" /\
      load (columns parsed) = Some "Engine Load" /\
      boost (columns parsed) = Some "Boost (psi)" /\
      time (columns parsed) = Some "Time" /\
      boostUnit parsed = psi /\
      List.map (fun r => r !! "Boost (psi)") (rows parsed) = [Some "10"; Some ""]
  | Thrown _ => False
  end.
Proof. vm_compute. repeat split; reflexivity. Qed.

Example analyzeLogText_samples :
  analyzeLogText "Time,AFR" VUndefined
    = Thrown "CSV file is empty or could not be parsed." /\
  match analyzeLogText ("Time,Engine Load,AFR,Boost (psi)" ++ LF ++ "0.5,80,15.0,10")
          (VNum 10) with
  | Returned res => overall_status res = "Risk" /\ row_count res = 1%nat
  | Thrown _ => False
  end.
Proof. vm_compute. repeat split; reflexivity. Qed.

(** *** Strings *)

Lemma append_assoc (a b c : string) : ((a ++ b) ++ c = a ++ (b ++ c))%string.
Proof.
  induction a as [|x a IH]; [reflexivity|].
  change (String x ((a ++ b) ++ c) = String x (a ++ (b ++ c)))%string.
  f_equal. exact IH.
Qed.

Lemma append_nil_r (a : string) : (a ++ "")%string = a.
Proof.
  induction a as [|x a IH]; [reflexivity|].
  change (String x (a ++ "") = String x a)%string. f_equal. exact IH.
Qed.

Lemma noChar_cons (c x : ascii) (s : string) :
  noChar c (String x s) <-> x <> c /\ noChar c s.
Proof. unfold noChar. cbn. tauto. Qed.

Lemma noChar_append (c : ascii) (a b : string) :
  noChar c (a ++ b) <-> noChar c a /\ noChar c b.
Proof.
  induction a as [|x a IH].
  - change ("" ++ b)%string with b. unfold noChar at 2. cbn. tauto.
  - change (String x a ++ b)%string with (String x (a ++ b))%string.
    rewrite !noChar_cons, IH. tauto.
Qed.

Lemma trimStartBytes_suffix (l : list ascii) :
  exists p, l = (p ++ trimStartBytes l)%list.
Proof.
  assert (H : forall n l, (length l <= n)%nat ->
                          exists p, l = (p ++ trimStartBytes l)%list);
    [|exact (H (length l) l (Nat.le_refl _))].
  clear l. induction n as [|n IH]; intros l Hl.
  { destruct l; [exists []; reflexivity | cbn in Hl; lia]. }
  destruct l as [|c1 r1]; [exists []; reflexivity|]. cbn [trimStartBytes].
  cbn [length] in Hl.
  destruct (isSpace c1).
  { destruct (IH r1) as [p Hp]; [lia|]. exists (c1 :: p). cbn. congruence. }
  destruct r1 as [|c2 r2]; [exists []; reflexivity|]. cbn [length] in Hl.
  destruct (isSpace2 c1 c2).
  { destruct (IH r2) as [p Hp]; [lia|]. exists (c1 :: c2 :: p). cbn. congruence. }
  destruct r2 as [|c3 r3]; [exists []; reflexivity|]. cbn [length] in Hl.
  destruct (isSpace3 c1 c2 c3); [|exists []; reflexivity].
  destruct (IH r3) as [p Hp]; [lia|]. exists (c1 :: c2 :: c3 :: p). cbn. congruence.
Qed.

Lemma trimEndReversed_suffix (l : list ascii) :
  exists p, l = (p ++ trimEndReversed l)%list.
Proof.
  assert (H : forall n l, (length l <= n)%nat ->
                          exists p, l = (p ++ trimEndReversed l)%list);
    [|exact (H (length l) l (Nat.le_refl _))].
  clear l. induction n as [|n IH]; intros l Hl.
  { destruct l; [exists []; reflexivity | cbn in Hl; lia]. }
  destruct l as [|c1 r1]; [exists []; reflexivity|]. cbn [trimEndReversed].
  cbn [length] in Hl.
  destruct (isSpace c1).
  { destruct (IH r1) as [p Hp]; [lia|]. exists (c1 :: p). cbn. congruence. }
  destruct r1 as [|c2 r2]; [exists []; reflexivity|]. cbn [length] in Hl.
  destruct (isSpace2 c2 c1).
  { destruct (IH r2) as [p Hp]; [lia|]. exists (c1 :: c2 :: p). cbn. congruence. }
  destruct r2 as [|c3 r3]; [exists []; reflexivity|]. cbn [length] in Hl.
  destruct (isSpace3 c3 c2 c1); [|exists []; reflexivity].
  destruct (IH r3) as [p Hp]; [lia|]. exists (c1 :: c2 :: c3 :: p). cbn. congruence.
Qed.

(** [trim] only removes bytes: what is left occurs in the argument. *)
Lemma trim_keeps_no_new_char (c : ascii) (s : string) :
  noChar c s -> noChar c (trim s).
Proof.
  unfold noChar, trim. intros H Hin. apply H.
  rewrite list_ascii_of_string_of_list_ascii in Hin.
  apply List.in_rev in Hin.
  destruct (trimEndReversed_suffix (List.rev (trimStartBytes (list_ascii_of_string s))))
    as [p Hp].
  assert (In c (List.rev (trimStartBytes (list_ascii_of_string s)))) as Hin2.
  { rewrite Hp. apply List.in_or_app. right. exact Hin. }
  apply List.in_rev in Hin2.
  destruct (trimStartBytes_suffix (list_ascii_of_string s)) as [q Hq].
  rewrite Hq. apply List.in_or_app. right. exact Hin2.
Qed.

(** *** [parseRow] *)

Lemma parseRowLoop_plain (f rest : string) (result : list string) (current : string) :
  noChar "," f -> noChar "034" f ->
  parseRowLoop (f ++ rest) result current false =
  parseRowLoop rest result (current ++ f) false.
Proof.
  revert current. induction f as [|x f IH]; intros current Hc Hq.
  - cbn. rewrite append_nil_r. reflexivity.
  - apply noChar_cons in Hc, Hq. destruct Hc as [Hx1 Hc], Hq as [Hx2 Hq].
    change (String x f ++ rest)%string with (String x (f ++ rest))%string.
    cbn [parseRowLoop].
    apply Ascii.eqb_neq in Hx1, Hx2. rewrite Hx1, Hx2. cbn [andb].
    rewrite IH by assumption. rewrite append_assoc. reflexivity.
Qed.

Lemma parseRowLoop_in_quotes (f rest : string) (result : list string) (current : string) :
  noChar "034" f ->
  parseRowLoop (f ++ rest) result current true =
  parseRowLoop rest result (current ++ f) true.
Proof.
  revert current. induction f as [|x f IH]; intros current Hq.
  - cbn. rewrite append_nil_r. reflexivity.
  - apply noChar_cons in Hq. destruct Hq as [Hx2 Hq].
    change (String x f ++ rest)%string with (String x (f ++ rest))%string.
    cbn [parseRowLoop].
    apply Ascii.eqb_neq in Hx2. rewrite Hx2. cbn [negb]. rewrite andb_false_r.
    rewrite IH by assumption. rewrite append_assoc. reflexivity.
Qed.

Lemma parseRowLoop_quoted (f rest : string) (result : list string) (current : string) :
  noChar "034" f ->
  parseRowLoop (quoted f ++ rest) result current false =
  parseRowLoop rest result (current ++ f) false.
Proof.
  intros Hq. unfold quoted.
  change ((String "034" "" ++ f ++ String "034" "") ++ rest)%string
    with (String "034" ((f ++ String "034" "") ++ rest))%string.
  cbn [parseRowLoop]. change ("034" =? "034")%char with true. cbn [negb].
  rewrite append_assoc, parseRowLoop_in_quotes by exact Hq.
  change (String "034" "" ++ rest)%string with (String "034" rest).
  cbn [parseRowLoop]. change ("034" =? "034")%char with true. reflexivity.
Qed.

Lemma parseRowLoop_join (wrap : string -> string) (fields : list string)
    (result : list string) :
  (forall f rest res cur, In f fields ->
     parseRowLoop (wrap f ++ rest) res cur false = parseRowLoop rest res (cur ++ f) false) ->
  fields <> [] ->
  parseRowLoop (String.concat "," (List.map wrap fields)) result "" false =
  (result ++ List.map trim fields)%list.
Proof.
  intros Hw. revert result. induction fields as [|f fs IH]; intros result Hne;
    [contradiction|].
  destruct fs as [|g fs].
  - cbn [List.map String.concat].
    rewrite <- (append_nil_r (wrap f)), Hw by (left; reflexivity). reflexivity.
  - change (String.concat "," (List.map wrap (f :: g :: fs)))
      with (wrap f ++ "," ++ String.concat "," (List.map wrap (g :: fs)))%string.
    rewrite Hw by (left; reflexivity).
    change ("," ++ String.concat "," (List.map wrap (g :: fs)))%string
      with (String "," (String.concat "," (List.map wrap (g :: fs)))).
    cbn [parseRowLoop]. change ("," =? "034")%char with false.
    change ("," =? ",")%char with true. cbn [andb negb].
    change ("" ++ f)%string with f.
    rewrite IH; [|intros; apply Hw; right; assumption | discriminate].
    cbn [List.map]. rewrite <- List.app_assoc. reflexivity.
Qed.

(** X1. Fields joined by commas are read back, each trimmed: as they are
    when none holds a comma or a quote, and wrapped in quotes when none
    holds a quote (commas inside quotes do not split). *)
Theorem parseRow_reads_back_joined_fields (fields : list string) :
  fields <> [] ->
  ((forall f, In f fields -> noChar "," f /\ noChar "034" f) ->
   parseRow (String.concat "," fields) = List.map trim fields) /\
  ((forall f, In f fields -> noChar "034" f) ->
   parseRow (String.concat "," (List.map quoted fields)) = List.map trim fields).
Proof.
  intros Hne. split; intros H.
  - unfold parseRow.
    rewrite <- (List.map_id fields) at 1.
    rewrite (parseRowLoop_join (fun f => f) fields []); [reflexivity | | exact Hne].
    intros f rest res cur Hf. destruct (H f Hf). apply parseRowLoop_plain; assumption.
  - unfold parseRow.
    rewrite (parseRowLoop_join quoted fields []); [reflexivity | | exact Hne].
    intros f rest res cur Hf. apply parseRowLoop_quoted. apply H. exact Hf.
Qed.

Lemma parseRow_reads_back_joined_fields_witness :
  parseRow (String.concat "," (List.map quoted ["Boost (psi)"; " a,b "; ""])) =
  List.map trim ["Boost (psi)"; " a,b "; ""].
Proof.
  apply (proj2 (parseRow_reads_back_joined_fields ["Boost (psi)"; " a,b "; ""]
                  ltac:(discriminate))).
  intros f [<- | [<- | [<- | []]]]; unfold noChar; cbn; intros H;
    repeat (destruct H as [H | H]; [discriminate H|]); exact H.
Defined.

Lemma parseRowLoop_no_quote (line : string) (result : list string) (current : string)
    (inQuotes : bool) :
  (forall f, In f result -> noChar "034" f) -> noChar "034" current ->
  forall f, In f (parseRowLoop line result current inQuotes) -> noChar "034" f.
Proof.
  revert result current inQuotes.
  induction line as [|ch rest IH]; intros result current inQuotes Hr Hc f Hf.
  - cbn in Hf. apply List.in_app_or in Hf. destruct Hf as [Hf | [<- | []]].
    + apply Hr. exact Hf.
    + apply trim_keeps_no_new_char. exact Hc.
  - cbn [parseRowLoop] in Hf. destruct (ch =? "034")%char eqn:Eq.
    + exact (IH _ _ _ Hr Hc f Hf).
    + destruct ((ch =? ",")%char && negb inQuotes).
      * apply (IH _ _ _) with (f := f) in Hf; [exact Hf | | unfold noChar; cbn; tauto].
        intros g Hg. apply List.in_app_or in Hg. destruct Hg as [Hg | [<- | []]].
        -- apply Hr. exact Hg.
        -- apply trim_keeps_no_new_char. exact Hc.
      * apply (IH _ _ _) with (f := f) in Hf; [exact Hf | exact Hr |].
        apply noChar_append. split; [exact Hc|].
        apply noChar_cons. split; [|unfold noChar; cbn; tauto].
        apply Ascii.eqb_neq. exact Eq.
Qed.

Lemma parseRowLoop_length (line : string) (result : list string) (current : string) :
  noChar "034" line ->
  length (parseRowLoop line result current false) =
  (length result + S (countChar "," line))%nat.
Proof.
  revert result current. induction line as [|ch rest IH]; intros result current Hq.
  - cbn. rewrite List.length_app. cbn. lia.
  - apply noChar_cons in Hq. destruct Hq as [Hx Hq].
    apply Ascii.eqb_neq in Hx. cbn [parseRowLoop]. rewrite Hx. cbn [negb].
    rewrite andb_true_r. unfold countChar. cbn [list_ascii_of_string count_occ].
    destruct (ch =? ",")%char eqn:E.
    + apply Ascii.eqb_eq in E. subst ch. rewrite IH by exact Hq.
      rewrite List.length_app. destruct (ascii_dec "," ","); [|contradiction].
      unfold countChar. cbn. lia.
    + apply Ascii.eqb_neq in E. rewrite IH by exact Hq.
      destruct (ascii_dec ch ","); [contradiction|]. reflexivity.
Qed.

Lemma parseRowLoop_nonempty (line : string) (result : list string) (current : string)
    (inQuotes : bool) :
  parseRowLoop line result current inQuotes <> [].
Proof.
  revert result current inQuotes.
  induction line as [|ch rest IH]; intros result current inQuotes.
  - cbn [parseRowLoop]. intros H. apply List.app_eq_nil in H.
    destruct H as [_ H]. discriminate H.
  - cbn [parseRowLoop]. destruct (ch =? "034")%char; [apply IH|].
    destruct ((ch =? ",")%char && negb inQuotes); apply IH.
Qed.

(** X2. [parseRow] always returns at least one field and never a field that
    holds a quote character, so that quotes, doubled ones included, are
    dropped; a line without quotes gives one field more than it has
    commas. *)
Theorem parseRow_fields (line : string) :
  parseRow line <> [] /\
  (forall f, In f (parseRow line) -> noChar "034" f) /\
  (noChar "034" line -> length (parseRow line) = S (countChar "," line)).
Proof.
  split; [|split].
  - apply parseRowLoop_nonempty.
  - apply parseRowLoop_no_quote; [intros f [] | unfold noChar; cbn; tauto].
  - intros Hq. unfold parseRow. rewrite parseRowLoop_length by exact Hq. reflexivity.
Qed.

Lemma parseRow_fields_witness :
  noChar "034" "1,,2," /\ length (parseRow "1,,2,") = 4%nat /\
  parseRow ("say " ++ quoted "hi" ++ ", ok") = ["say hi"; "ok"].
Proof.
  assert (H : noChar "034" "1,,2,").
  { unfold noChar. cbn. intros H.
    repeat (destruct H as [H | H]; [discriminate H|]). exact H. }
  split; [exact H|]. split; [|reflexivity].
  exact (proj2 (proj2 (parseRow_fields "1,,2,")) H).
Defined.

(** *** [parseCsvText] *)


Lemma fillRow_lookup_is_Some (headers values : list string) (row : gmap string string)
    (k : string) :
  is_Some (fillRow headers values row !! k) <-> In k headers \/ is_Some (row !! k).
Proof.
  revert values row. induction headers as [|h hs IH]; intros values row.
  - cbn. tauto.
  - cbn [fillRow In]. rewrite IH. destruct (decide (h = k)) as [-> | Hne].
    + rewrite lookup_insert_eq. split; [intros _; left; left; reflexivity|].
      intros _. right. eexists; reflexivity.
    + rewrite lookup_insert_ne by exact Hne. tauto.
Qed.




Lemma parseCsvText_rows_cells (text : string) :
  forall rs headers, parseCsvText text = Returned (rs, headers) ->
  forall row h, In row rs -> (is_Some (row !! h) <-> In h headers).
Proof.
  unfold parseCsvText. intros rs headers.
  destruct (length (List.filter nonBlank (splitLines text "")) <? 2)%nat;
    [discriminate|].
  intros [= <- <-] row h Hrow. apply List.in_map_iff in Hrow.
  destruct Hrow as (line & <- & _). rewrite fillRow_lookup_is_Some, lookup_empty.
  split; [intros [Hin | [x Hx]]; [exact Hin | discriminate Hx]|].
  intros Hin. left. exact Hin.
Qed.



(** *** [findColumn] *)

Lemma find_first {A : Type} (p : A -> bool) (l : list A) (x : A) :
  List.find p l = Some x ->
  exists l1 l2, l = (l1 ++ x :: l2)%list /\ p x = true /\
                forall y, In y l1 -> p y = false.
Proof.
  induction l as [|a l IH]; [discriminate|]. cbn [List.find].
  destruct (p a) eqn:E.
  - intros [= ->]. exists [], l. split; [reflexivity|]. split; [exact E|]. intros y [].
  - intros H. destruct (IH H) as (l1 & l2 & -> & Hx & Hl).
    exists (a :: l1), l2. split; [reflexivity|]. split; [exact Hx|].
    intros y [<- | Hy]; [exact E | apply Hl; exact Hy].
Qed.

Lemma keywordMatches_empty_header (exclude : list string) (keyword : string) :
  keywordMatches exclude keyword "" = true -> keywordPattern keyword = "".
Proof.
  unfold keywordMatches, headerMatches. cbn [toLowerCase].
  destruct (existsb _ exclude); [discriminate|].
  destruct (keywordIsStart keyword); destruct (keywordPattern keyword);
    cbn; try reflexivity; discriminate.
Qed.

Lemma keywordMatches_not_excluded (exclude : list string) (keyword h ex : string) :
  keywordMatches exclude keyword h = true -> In ex exclude ->
  includes (toLowerCase h) ex = false.
Proof.
  unfold keywordMatches, headerMatches. intros H Hex.
  destruct (existsb (fun ex => includes (toLowerCase h) ex) exclude) eqn:E;
    [discriminate|].
  destruct (includes (toLowerCase h) ex) eqn:E'; [|reflexivity].
  assert (existsb (fun ex => includes (toLowerCase h) ex) exclude = true) as C.
  { apply List.existsb_exists. exists ex. split; assumption. }
  congruence.
Qed.

Lemma findColumn_spec (headers keywords exclude : list string) :
  (forall k, In k keywords -> keywordPattern k <> "") ->
  match findColumn headers keywords exclude with
  | Some h =>
      h <> "" /\
      (forall ex, In ex exclude -> includes (toLowerCase h) ex = false) /\
      exists ks1 k ks2 hs1 hs2,
        keywords = (ks1 ++ k :: ks2)%list /\ headers = (hs1 ++ h :: hs2)%list /\
        keywordMatches exclude k h = true /\
        (forall h', In h' hs1 -> keywordMatches exclude k h' = false) /\
        (forall k' h', In k' ks1 -> In h' headers ->
                       keywordMatches exclude k' h' = false)
  | None =>
      forall k h, In k keywords -> In h headers -> keywordMatches exclude k h = false
  end.
Proof.
  induction keywords as [|k ks IH]; intros Hne.
  - cbn. intros k h [].
  - cbn [findColumn].
    change (List.find (headerMatches exclude (keywordIsStart k) (keywordPattern k))
              headers)
      with (List.find (keywordMatches exclude k) headers).
    assert (Hks : forall k', In k' ks -> keywordPattern k' <> "")
      by (intros; apply Hne; right; assumption).
    specialize (IH Hks).
    destruct (List.find (keywordMatches exclude k) headers) as [m|] eqn:Ef.
    + destruct (find_first _ _ _ Ef) as (hs1 & hs2 & Eh & Hm & Hfirst).
      assert (m <> "") as Hm0.
      { intros ->. apply (Hne k); [left; reflexivity|].
        exact (keywordMatches_empty_header _ _ Hm). }
      apply String.eqb_neq in Hm0 as Hm1. rewrite Hm1.
      split; [exact Hm0|]. split.
      { intros ex Hex. exact (keywordMatches_not_excluded _ _ _ _ Hm Hex). }
      exists [], k, ks, hs1, hs2. repeat split; try assumption. intros k' h' [].
    + assert (Hnone : forall h, In h headers -> keywordMatches exclude k h = false).
      { intros h Hh. exact (List.find_none _ _ Ef h Hh). }
      destruct (findColumn headers ks exclude) as [h|].
      * destruct IH as (H1 & H2 & ks1 & k0 & ks2 & hs1 & hs2 & -> & Eh & Hm & Hf & Hp).
        split; [exact H1|]. split; [exact H2|].
        exists (k :: ks1), k0, ks2, hs1, hs2. repeat split; try assumption.
        intros k' h' [<- | Hk'] Hh'; [apply Hnone; exact Hh' | apply Hp; assumption].
      * intros k' h [<- | Hk'] Hh; [apply Hnone; exact Hh | apply IH; assumption].
Qed.



(** *** [findTimingColumns] *)

Lemma prefix_append (p q s : string) :
  String.prefix (p ++ q) s = true -> String.prefix p s = true.
Proof.
  revert s. induction p as [|c p IH]; intros s H; [destruct s; reflexivity|].
  change (String c p ++ q)%string with (String c (p ++ q))%string in H.
  destruct s as [|d s]; [discriminate H|]. cbn [String.prefix] in *.
  destruct (ascii_dec c d); [apply IH; exact H | discriminate H].
Qed.

Lemma includes_append (s p q : string) :
  includes s (p ++ q) = true -> includes s p = true.
Proof.
  induction s as [|c s IH]; cbn [includes]; intros H.
  - apply orb_true_iff in H. destruct H as [H | H]; [|discriminate H].
    rewrite (prefix_append _ _ _ H). reflexivity.
  - apply orb_true_iff in H. apply orb_true_iff. destruct H as [H | H].
    + left. exact (prefix_append _ _ _ H).
    + right. apply IH. exact H.
Qed.

(** X5. A header is a timing column exactly when, lower-cased, it holds one
    of the timing keywords and the text "cyl" (the other two cylinder
    keywords add nothing); the selection keeps the order of the headers and
    is made header by header. *)
Theorem findTimingColumns_selects (headers more : list string) (h : string) :
  (In h (findTimingColumns headers) <->
   In h headers /\
   (exists kw, In kw TIMING_KEYWORDS /\ includes (toLowerCase h) kw = true) /\
   includes (toLowerCase h) "cyl" = true) /\
  findTimingColumns (headers ++ more) =
    (findTimingColumns headers ++ findTimingColumns more)%list.
Proof.
  split; [|unfold findTimingColumns; apply List.filter_app].
  unfold findTimingColumns. rewrite List.filter_In, andb_true_iff, List.existsb_exists.
  assert (existsb (fun kw => includes (toLowerCase h) kw) CYLINDER_KEYWORDS = true
          <-> includes (toLowerCase h) "cyl" = true) as ->; [|tauto].
  cbn [existsb CYLINDER_KEYWORDS]. rewrite orb_false_r.
  split.
  - intros H. apply orb_true_iff in H. destruct H as [H | H]; [exact H|].
    apply orb_true_iff in H. destruct H as [H | H].
    + exact (includes_append _ "cyl" "inder" H).
    + exact (includes_append _ "cyl" "_" H).
  - intros ->. reflexivity.
Qed.

(** *** Maxima and [detectBoostUnit] *)

Lemma fold_max2_keepMax (l : list number) (m0 : number) :
  isNaN m0 = false -> (forall x, In x l -> isNaN x = false) ->
  fold_left max2 l m0 = fold_left (fun m x => keepMax m (Some x)) l m0.
Proof.
  revert m0. induction l as [|a l IH]; intros m0 Hm Hl; [reflexivity|].
  cbn [fold_left].
  assert (max2 m0 a = keepMax m0 (Some a)) as E.
  { unfold max2, keepMax, gt. rewrite Hm, (Hl a) by (left; reflexivity). reflexivity. }
  rewrite E. apply IH.
  - apply keepMax_not_NaN. exact Hm.
  - intros x Hx. apply Hl. right. exact Hx.
Qed.

Lemma js_le_NegInf (x : number) :
  isNaN x = false -> (NegInf <? x)%js = false -> x = NegInf.
Proof. intros H1 H2. destruct x; cbn in *; try discriminate; reflexivity. Qed.

(** [Math.max] over readings that are numbers is one of them and is below
    none of them. *)
Lemma maxOf_spec (l : list number) :
  l <> [] -> (forall x, In x l -> isNaN x = false) ->
  isNaN (maxOf l) = false /\ In (maxOf l) l /\
  forall x, In x l -> (maxOf l <? x)%js = false.
Proof.
  intros Hne Hl. unfold maxOf. rewrite fold_max2_keepMax by (try reflexivity; exact Hl).
  destruct (fold_keepMax_spec (fun x : number => Some x) l NegInf eq_refl)
    as (HN & _ & HB & HA). cbn zeta in HN, HB, HA.
  set (M := fold_left (fun m x => keepMax m (Some x)) l NegInf) in *.
  assert (Hub : forall x, In x l -> (M <? x)%js = false).
  { intros x Hx. exact (HB x x Hx eq_refl). }
  split; [exact HN|]. split; [|exact Hub].
  destruct HA as [E | (x & Hx & [= E])]; [|rewrite <- E; exact Hx].
  destruct l as [|a l]; [contradiction|].
  assert (a = NegInf) as ->.
  { apply js_le_NegInf; [apply Hl; left; reflexivity|].
    rewrite <- E. apply Hub. left; reflexivity. }
  rewrite E. left; reflexivity.
Qed.

Lemma js_lt_below_max (c M v : number) :
  isNaN M = false -> (M <? v)%js = false -> (c <? v)%js = true -> (c <? M)%js = true.
Proof. intros H1 H2 H3. number_cases. q_props. lra. Qed.

Lemma js_max_lt (c M v : number) :
  isNaN v = false -> (M <? v)%js = false -> (M <? c)%js = true -> (v <? c)%js = true.
Proof. intros H1 H2 H3. number_cases. q_props. lra. Qed.

Lemma positive_filter_In (samples : list number) (v : number) :
  In v (List.filter (fun v => negb (isNaN v) && (v >? 0)%js) samples) <->
  In v samples /\ (v >? 0)%js = true.
Proof.
  rewrite List.filter_In, andb_true_iff, negb_true_iff. split; [tauto|].
  intros [H1 H2]. split; [exact H1|]. split; [|exact H2].
  unfold gt in H2. apply js_lt_not_NaN in H2. tauto.
Qed.

(** X6. A unit written in the header of the boost column decides the unit,
    "bar" before "kpa" before "psi", whatever the values; no column gives
    psi.  For a header without a unit the positive samples decide: kPa as
    soon as one exceeds 50, bar when there is one and all are below 5, psi in
    every other case. *)
Theorem detectBoostUnit_decides (name : string) (samples : list number) :
  detectBoostUnit None samples = psi /\
  (name <> "" ->
   (includes (toLowerCase name) "bar" = true ->
    detectBoostUnit (Some name) samples = bar) /\
   (includes (toLowerCase name) "bar" = false ->
    includes (toLowerCase name) "kpa" = true ->
    detectBoostUnit (Some name) samples = kpa) /\
   (includes (toLowerCase name) "bar" = false ->
    includes (toLowerCase name) "kpa" = false ->
    includes (toLowerCase name) "psi" = true ->
    detectBoostUnit (Some name) samples = psi)) /\
  (unlabelled name ->
   (detectBoostUnit (Some name) samples = kpa <->
    exists v, In v samples /\ (v >? 50)%js = true) /\
   (detectBoostUnit (Some name) samples = bar <->
    (exists v, In v samples /\ (v >? 0)%js = true) /\
    forall v, In v samples -> (v >? 0)%js = true -> (v <? 5)%js = true)).
Proof.
  split; [reflexivity|]. split.
  - intros Hne. apply String.eqb_neq in Hne. unfold detectBoostUnit. rewrite Hne.
    repeat split; intros; repeat match goal with H : includes _ _ = _ |- _ => rewrite H end;
      reflexivity.
  - intros (Hne & Hb & Hk & Hp). apply String.eqb_neq in Hne.
    unfold detectBoostUnit. rewrite Hne, Hb, Hk, Hp.
    set (valid := List.filter (fun v => negb (isNaN v) && (v >? 0)%js) samples).
    assert (Hv : forall v, In v valid <-> In v samples /\ (v >? 0)%js = true)
      by (intros v; apply positive_filter_In).
    destruct valid as [|a l] eqn:Ev.
    { split; split; try discriminate.
      - intros (v & Hin & H50). exfalso.
        assert (In v []) as C; [|exact C].
        apply Hv. split; [exact Hin|]. unfold gt in *.
        exact (js_lt_trans 0 50 v eq_refl H50).
      - intros [(v & Hin & H0) _]. exfalso.
        assert (In v []) as C; [|exact C]. apply Hv. split; assumption. }
    rewrite <- Ev in *.
    assert (Hnn : forall x, In x valid -> isNaN x = false).
    { intros x Hx. apply Hv in Hx. destruct Hx as [_ Hx]. unfold gt in Hx.
      apply js_lt_not_NaN in Hx. tauto. }
    destruct (maxOf_spec valid ltac:(rewrite Ev; discriminate) Hnn) as (HN & Hin & Hub).
    unfold gt in *.
    destruct (50 <? maxOf valid)%js eqn:E50.
    + split; split; try discriminate; try (intros _; reflexivity).
      * intros _. exists (maxOf valid). split; [apply Hv in Hin; tauto | exact E50].
      * intros [_ Hall]. exfalso. apply Hv in Hin. destruct Hin as [Hs H0].
        pose proof (Hall _ Hs H0) as H5.
        pose proof (js_lt_trans _ _ _ E50 H5) as C. discriminate C.
    + destruct (maxOf valid <? 5)%js eqn:E5.
      * split; split; try discriminate; try (intros _; reflexivity).
        -- intros (v & Hs & Hv50). exfalso.
           assert (In v valid) as Hvv.
           { apply Hv. split; [exact Hs|]. exact (js_lt_trans 0 50 v eq_refl Hv50). }
           pose proof (js_lt_below_max 50 _ v HN (Hub v Hvv) Hv50) as C. congruence.
        -- intros _. split.
           ++ exists (maxOf valid). apply Hv in Hin. exact Hin.
           ++ intros v Hs H0.
              assert (In v valid) as Hvv by (apply Hv; split; assumption).
              exact (js_max_lt 5 _ v (Hnn v Hvv) (Hub v Hvv) E5).
      * split; split; try discriminate.
        -- intros (v & Hs & Hv50). exfalso.
           assert (In v valid) as Hvv.
           { apply Hv. split; [exact Hs|]. exact (js_lt_trans 0 50 v eq_refl Hv50). }
           pose proof (js_lt_below_max 50 _ v HN (Hub v Hvv) Hv50) as C. congruence.
        -- intros [_ Hall]. exfalso. apply Hv in Hin. destruct Hin as [Hs H0].
           rewrite (Hall _ Hs H0) in E5. discriminate E5.
Qed.

Lemma detectBoostUnit_decides_witness :
  unlabelled "Boost" /\
  detectBoostUnit (Some "Boost") [Fin 0.4; NaN; Fin 3.2; Fin (-1)] = bar.
Proof.
  assert (H : unlabelled "Boost") by (repeat split; try reflexivity; discriminate).
  split; [exact H|].
  apply (proj2 (proj2 (detectBoostUnit_decides "Boost" [Fin 0.4; NaN; Fin 3.2; Fin (-1)])) H).
  split.
  - exists (Fin 0.4). split; [left; reflexivity | reflexivity].
  - intros v [<- | [<- | [<- | [<- | []]]]] Hv; try reflexivity; discriminate Hv.
Defined.

(** *** [parseCsv] *)

Lemma patternsNonEmpty_In (keywords : list string) :
  patternsNonEmpty keywords = true ->
  forall k, In k keywords -> keywordPattern k <> "".
Proof.
  unfold patternsNonEmpty. rewrite List.forallb_forall. intros H k Hk.
  apply String.eqb_neq. apply negb_true_iff. apply H. exact Hk.
Qed.

Lemma findColumn_sound (headers keywords exclude : list string) (c : string) :
  patternsNonEmpty keywords = true ->
  findColumn headers keywords exclude = Some c ->
  In c headers /\ c <> "" /\
  forall ex, In ex exclude -> includes (toLowerCase c) ex = false.
Proof.
  intros Hp E.
  pose proof (findColumn_spec headers keywords exclude (patternsNonEmpty_In _ Hp)) as H.
  rewrite E in H. destruct H as (H1 & H2 & ks1 & k & ks2 & hs1 & hs2 & _ & -> & _).
  split; [apply List.in_or_app; right; left; reflexivity|]. split; assumption.
Qed.

Lemma findColumn_none (headers keywords exclude : list string) :
  patternsNonEmpty keywords = true ->
  (findColumn headers keywords exclude = None <->
   forall k h, In k keywords -> In h headers -> keywordMatches exclude k h = false).
Proof.
  intros Hp.
  pose proof (findColumn_spec headers keywords exclude (patternsNonEmpty_In _ Hp)) as H.
  destruct (findColumn headers keywords exclude) as [c|]; split; try tauto; try discriminate.
  intros Hnone. exfalso.
  destruct H as (_ & _ & ks1 & k & ks2 & hs1 & hs2 & -> & -> & Hm & _).
  rewrite Hnone in Hm; [discriminate Hm | |]; apply List.in_or_app; right; left; reflexivity.
Qed.

Lemma channels_patterns :
  forall ch, In ch channels -> patternsNonEmpty (fst (fst ch)) = true.
Proof.
  intros ch Hch. cbn in Hch.
  repeat (destruct Hch as [<- | Hch]; [vm_compute; reflexivity|]). destruct Hch.
Qed.

Lemma channels_resolved (headers : list string) :
  forall ch, In ch channels ->
    snd ch (resolveColumns headers) = findColumn headers (fst (fst ch)) (snd (fst ch)).
Proof.
  intros ch Hch. cbn in Hch.
  repeat (destruct Hch as [<- | Hch]; [reflexivity|]). destruct Hch.
Qed.

(** X7. [parseCsv] throws exactly when [parseCsvText] does, with its message.
    Otherwise it hands over the rows unchanged; every channel of the mapping
    is resolved among the headers, so every row has a cell for it, and is
    left unresolved exactly when no header passes the test of any of its
    keywords; the boost column never holds "post throttle" or
    "post-throttle"; every timing column is a header. *)
Theorem parseCsv_resolves_among_headers (text : string) :
  match parseCsvText text with
  | Thrown message => parseCsv text = Thrown message
  | Returned (rs, headers) =>
      exists parsed,
        parseCsv text = Returned parsed /\ rows parsed = rs /\
        (forall ch c, In ch channels -> snd ch (columns parsed) = Some c ->
           In c headers /\ c <> "" /\
           (forall ex, In ex (snd (fst ch)) -> includes (toLowerCase c) ex = false) /\
           forall row, In row rs -> is_Some (row !! c)) /\
        (forall ch, In ch channels ->
           (snd ch (columns parsed) = None <->
            forall k h, In k (fst (fst ch)) -> In h headers ->
                        keywordMatches (snd (fst ch)) k h = false)) /\
        (forall c, In c (timingColumns parsed) ->
           In c headers /\ forall row, In row rs -> is_Some (row !! c))
  end.
Proof.
  pose proof (parseCsvText_rows_cells text) as Hcells.
  unfold parseCsv. destruct (parseCsvText text) as [[rs headers]|message];
    [|reflexivity].
  eexists. split; [reflexivity|]. cbn [rows columns timingColumns].
  split; [reflexivity|]. split; [|split].
  - intros ch c Hch E. rewrite channels_resolved in E by exact Hch.
    destruct (findColumn_sound _ _ _ _ (channels_patterns ch Hch) E) as (H1 & H2 & H3).
    split; [exact H1|]. split; [exact H2|]. split; [exact H3|].
    intros row Hrow. apply (Hcells rs headers eq_refl row c Hrow). exact H1.
  - intros ch Hch. rewrite channels_resolved by exact Hch.
    apply findColumn_none. exact (channels_patterns ch Hch).
  - intros c Hc. unfold findTimingColumns in Hc. apply List.filter_In in Hc.
    destruct Hc as [Hc _]. split; [exact Hc|].
    intros row Hrow. apply (Hcells rs headers eq_refl row c Hrow). exact Hc.
Qed.

(* ------------------------------------------------------------------------- *)
(** * Further properties of the analyzer *)

(** ** Regimes *)

Lemma isWot_isDemand (ld bo pe th : number) :
  isWot ld bo pe th = true -> isDemand ld bo pe th = true.
Proof.
  unfold isWot, isDemand, LOAD_WOT, BOOST_WOT, LOAD_DEMAND, BOOST_DEMAND, ge, gt.
  assert (Hid : forall x : number, (if isNaN x then NaN else x) = x)
    by (intros []; reflexivity).
  rewrite !Hid.
  set (l := if isNaN ld then Fin 0 else ld). set (b := if isNaN bo then Fin 0 else bo).
  destruct (isNaN pe) eqn:Np; cbn [negb andb].
  - destruct (negb (isNaN th) && (th <? 30)%js); [discriminate|].
    intros H. apply orb_true_iff in H. apply orb_true_iff. destruct H as [H | H].
    + left. exact (js_ge_trans l 70 50 H eq_refl).
    + right. exact (js_lt_trans 2 8 b eq_refl H).
  - destruct (pe <? 50)%js eqn:E50; [discriminate|].
    assert ((pe <? 1)%js = false) as ->.
    { destruct (pe <? 1)%js eqn:E1; [|reflexivity].
      pose proof (js_lt_trans pe 1 50 E1 eq_refl). congruence. }
    cbn [andb]. destruct (negb (isNaN th) && (th <? 30)%js); [discriminate|].
    intros H. apply orb_true_iff in H. apply orb_true_iff. destruct H as [H | H].
    + left. exact (js_ge_trans l 70 50 H eq_refl).
    + right. exact (js_lt_trans 2 8 b eq_refl H).
Qed.

Lemma rowIsWot_rowIsDemand (columns : Columns) (boostUnit : BoostUnit)
    (r : gmap string string) :
  rowIsWot columns boostUnit r = true -> rowIsDemand columns boostUnit r = true.
Proof. unfold rowIsWot, rowIsDemand. apply isWot_isDemand. Qed.

(** X8. Every row that is WOT is a Demand row: whatever the four readings,
    [isWot] implies [isDemand], for the readings as for the rows of a log. *)
Theorem isWot_implies_isDemand (ld bo pe th : number) :
  (isWot ld bo pe th = true -> isDemand ld bo pe th = true) /\
  (forall columns boostUnit r,
     rowIsWot columns boostUnit r = true -> rowIsDemand columns boostUnit r = true).
Proof.
  split; [apply isWot_isDemand | intros; apply rowIsWot_rowIsDemand; assumption].
Qed.

Lemma isWot_implies_isDemand_witness :
  isWot 80 10 100 90 = true /\ isDemand 80 10 100 90 = true.
Proof.
  split; [reflexivity|]. exact (proj1 (isWot_implies_isDemand 80 10 100 90) eq_refl).
Defined.


(** ** AFR analysis: what the loop keeps *)

Lemma toAfr_not_NaN (isLambdaAfr : bool) (v : number) :
  isNaN v = false -> isNaN (toAfr isLambdaAfr v) = false.
Proof.
  unfold toAfr, lambdaToAfr. destruct isLambdaAfr; [|tauto].
  destruct v; cbn; try reflexivity; discriminate.
Qed.

Lemma js_not_ge_lt (x c : number) :
  isNaN x = false -> isNaN c = false -> (x >=? c)%js = false -> (x <? c)%js = true.
Proof. unfold ge. intros H1 H2 H3. number_cases. q_props. lra. Qed.

Lemma raiseWorst_cases (w : option number) (afr : number) :
  raiseWorst w afr = Some afr \/ (exists x, w = Some x /\ raiseWorst w afr = Some x).
Proof.
  destruct w as [x|]; cbn; [|left; reflexivity].
  destruct (afr >? x)%js; [left; reflexivity | right; exists x; split; reflexivity].
Qed.

Section AfrInvariant.
Variables (columns : Columns) (isLambdaAfr : bool) (thresholds : Thresholds)
          (boostUnit : BoostUnit).

Lemma afrInvariant_lean (st : AfrState) (newStatus : string) (a : number)
    (ts : list number) :
  afrInvariant thresholds st ->
  newStatus = "Risk" \/ newStatus = "Caution" ->
  (a <? FUEL_CUT_AFR)%js = true ->
  (a >? lean_risk thresholds)%js = true \/ (a >? lean_caution thresholds)%js = true ->
  (length ts <= S (length (demandAfrSamples st)))%nat ->
  afrInvariant thresholds
    {| status := newStatus; worstLean := raiseWorst (worstLean st) a;
       leanEvents := S (leanEvents st); richEvents := richEvents st;
       demandAfrSamples := (demandAfrSamples st ++ [a])%list; targetSamples := ts |}.
Proof.
  intros (I1 & I2 & I3 & I4 & I5 & I6 & I7) Hs Hlow Hlean Hts.
  unfold afrInvariant.
  cbn [status worstLean leanEvents richEvents demandAfrSamples targetSamples].
  rewrite List.length_app. cbn [length].
  split; [unfold STATUSES; cbn; destruct Hs as [-> | ->]; tauto|].
  split; [split; [destruct Hs as [-> | ->]; discriminate | lia]|].
  split; [lia|]. split; [lia|].
  split.
  { split; [|lia]. intros H.
    destruct (raiseWorst_cases (worstLean st) a) as [C | (x & _ & C)]; congruence. }
  split.
  - intros s Hin. apply List.in_app_or in Hin.
    destruct Hin as [Hin | [<- | []]]; [apply I6; exact Hin | exact Hlow].
  - intros w Hw. destruct (raiseWorst_cases (worstLean st) a) as [C | (x & Ex & C)];
      rewrite C in Hw; injection Hw as <-; [tauto | apply I7; exact Ex].
Qed.

Lemma afrInvariant_rich (st : AfrState) (newStatus : string) (a : number)
    (ts : list number) :
  afrInvariant thresholds st ->
  newStatus = "Risk" \/ newStatus = "Caution" ->
  (a <? FUEL_CUT_AFR)%js = true ->
  (length ts <= S (length (demandAfrSamples st)))%nat ->
  afrInvariant thresholds
    {| status := newStatus; worstLean := worstLean st;
       leanEvents := leanEvents st; richEvents := S (richEvents st);
       demandAfrSamples := (demandAfrSamples st ++ [a])%list; targetSamples := ts |}.
Proof.
  intros (I1 & I2 & I3 & I4 & I5 & I6 & I7) Hs Hlow Hts.
  unfold afrInvariant.
  cbn [status worstLean leanEvents richEvents demandAfrSamples targetSamples].
  rewrite List.length_app. cbn [length].
  split; [unfold STATUSES; cbn; destruct Hs as [-> | ->]; tauto|].
  split; [split; [destruct Hs as [-> | ->]; discriminate | lia]|].
  split; [lia|]. split; [lia|]. split; [exact I5|].
  split; [|exact I7].
  intros s Hin. apply List.in_app_or in Hin.
  destruct Hin as [Hin | [<- | []]]; [apply I6; exact Hin | exact Hlow].
Qed.

Lemma afrInvariant_sample (st : AfrState) (a : number) (ts : list number) :
  afrInvariant thresholds st ->
  (a <? FUEL_CUT_AFR)%js = true ->
  (length ts <= S (length (demandAfrSamples st)))%nat ->
  afrInvariant thresholds
    {| status := status st; worstLean := worstLean st;
       leanEvents := leanEvents st; richEvents := richEvents st;
       demandAfrSamples := (demandAfrSamples st ++ [a])%list; targetSamples := ts |}.
Proof.
  intros (I1 & I2 & I3 & I4 & I5 & I6 & I7) Hlow Hts.
  unfold afrInvariant.
  cbn [status worstLean leanEvents richEvents demandAfrSamples targetSamples].
  rewrite List.length_app. cbn [length].
  split; [exact I1|]. split; [exact I2|]. split; [lia|]. split; [lia|].
  split; [exact I5|]. split; [|exact I7].
  intros s Hin. apply List.in_app_or in Hin.
  destruct Hin as [Hin | [<- | []]]; [apply I6; exact Hin | exact Hlow].
Qed.

Lemma afrStep_invariant (st : AfrState) (row : gmap string string) :
  afrInvariant thresholds st ->
  afrInvariant thresholds (afrStep columns isLambdaAfr thresholds boostUnit st row) /\
  (length (demandAfrSamples (afrStep columns isLambdaAfr thresholds boostUnit st row))
   <= S (length (demandAfrSamples st)))%nat.
Proof.
  intros Hst. pose proof Hst as (_ & _ & _ & I4 & _). unfold afrStep.
  destruct (isNaN (num row (afr columns))) eqn:Nraw.
  { split; [exact Hst | lia]. }
  pose proof (toAfr_not_NaN isLambdaAfr _ Nraw) as Nafr.
  set (a := toAfr isLambdaAfr (num row (afr columns))) in *.
  destruct (a >=? FUEL_CUT_AFR)%js eqn:Ecut.
  { split; [exact Hst | lia]. }
  pose proof (js_not_ge_lt a FUEL_CUT_AFR Nafr eq_refl Ecut) as Hlow.
  set (ts := if missing (afr_target columns) then targetSamples st
             else if isNaN (num row (afr_target columns)) then targetSamples st
                  else (targetSamples st ++
                        [toAfr isLambdaAfr (num row (afr_target columns))])%list).
  assert (Hts : (length ts <= S (length (demandAfrSamples st)))%nat).
  { unfold ts. destruct (missing (afr_target columns)); [lia|].
    destruct (isNaN (num row (afr_target columns))); [lia|].
    rewrite List.length_app. cbn. lia. }
  destruct (rowIsWot columns boostUnit row) eqn:Ewot.
  - rewrite (rowIsWot_rowIsDemand _ _ _ Ewot).
    cbn [status worstLean leanEvents richEvents demandAfrSamples targetSamples].
    destruct (a >? lean_risk thresholds)%js eqn:E1.
    { split; [apply afrInvariant_lean; auto|].
      cbn [demandAfrSamples]. rewrite List.length_app. cbn. lia. }
    destruct ((a >? lean_caution thresholds)%js
              && negb (String.eqb (status st) "Risk")) eqn:E2.
    { apply andb_true_iff in E2. destruct E2 as [E2 _].
      split; [apply afrInvariant_lean; auto|].
      cbn [demandAfrSamples]. rewrite List.length_app. cbn. lia. }
    destruct (a <? rich_risk thresholds)%js eqn:E3.
    { split; [apply afrInvariant_rich; auto|].
      cbn [demandAfrSamples]. rewrite List.length_app. cbn. lia. }
    destruct ((a <? rich_caution thresholds)%js
              && negb (String.eqb (status st) "Risk")) eqn:E4.
    { split; [apply afrInvariant_rich; auto|].
      cbn [demandAfrSamples]. rewrite List.length_app. cbn. lia. }
    split; [apply afrInvariant_sample; auto|].
    cbn [demandAfrSamples]. rewrite List.length_app. cbn. lia.
  - destruct (rowIsDemand columns boostUnit row) eqn:Edem.
    + split; [apply afrInvariant_sample; auto|].
      cbn [demandAfrSamples]. rewrite List.length_app. cbn. lia.
    + split; [exact Hst | lia].
Qed.

Lemma afrLoop_invariant (rows : list (gmap string string)) (st : AfrState) :
  afrInvariant thresholds st ->
  let st' := fold_left (afrStep columns isLambdaAfr thresholds boostUnit) rows st in
  afrInvariant thresholds st' /\
  (length (demandAfrSamples st') <= length (demandAfrSamples st) + length rows)%nat.
Proof.
  revert st. induction rows as [|r rows IH]; intros st Hst; cbn zeta.
  - cbn. split; [exact Hst | lia].
  - cbn [fold_left length]. destruct (afrStep_invariant st r Hst) as [H1 H2].
    destruct (IH _ H1) as [H3 H4]. cbn zeta in H3, H4. split; [exact H3 | lia].
Qed.

End AfrInvariant.

Lemma afrInit_invariant (thresholds : Thresholds) : afrInvariant thresholds afrInit.
Proof.
  unfold afrInvariant, afrInit. cbn.
  repeat split; auto; try lia; try discriminate; try tauto.
Qed.

Lemma average_None (xs : list number) : average xs = None <-> xs = [].
Proof. destruct xs; cbn; split; intros H; try reflexivity; discriminate H. Qed.

(** X9. Whatever the log, the AFR result is consistent: the status is Safe,
    Caution or Risk, and Safe exactly when no lean and no rich event was
    counted; with the AFR column resolved the note is absent exactly then.
    Events are counted on rows that also gave a Demand sample, so there are at
    most as many as rows, and a result without a value reports no event and no
    target; when a lean event was counted the value shown is the rounded worst
    lean reading, which is above a lean threshold and below the fuel-cut
    threshold. *)
Theorem analyzeAfr_result_is_consistent
    (rows : list (gmap string string)) (columns : Columns) (isLambdaAfr : bool)
    (thresholds : Thresholds) (boostUnit : BoostUnit) :
  let res := analyzeAfr rows columns isLambdaAfr thresholds boostUnit in
  In (afr_status res) STATUSES /\
  (afr_status res = "Safe" <-> lean_events res = 0%nat /\ rich_events res = 0%nat) /\
  (missing (afr columns) = false ->
   (afr_note res = None <-> afr_status res = "Safe")) /\
  (lean_events res + rich_events res <= length rows)%nat /\
  (afr_actual res = None ->
   lean_events res = 0%nat /\ rich_events res = 0%nat /\ afr_target_avg res = None) /\
  ((0 < lean_events res)%nat ->
   exists w, afr_actual res = Some (roundN w 2) /\ (w <? FUEL_CUT_AFR)%js = true /\
             ((w >? lean_risk thresholds)%js = true \/
              (w >? lean_caution thresholds)%js = true)).
Proof.
  intros res. unfold res, analyzeAfr.
  destruct (missing (afr columns)) eqn:Hc.
  { cbn. repeat split; auto; try lia; try discriminate. }
  destruct (afrLoop_invariant columns isLambdaAfr thresholds boostUnit rows afrInit
              (afrInit_invariant thresholds)) as [Hinv Hlen].
  cbn zeta in Hinv, Hlen. fold (afrLoop columns isLambdaAfr thresholds boostUnit rows) in *.
  set (st := afrLoop columns isLambdaAfr thresholds boostUnit rows) in *.
  destruct Hinv as (I1 & I2 & I3 & I4 & I5 & I6 & I7).
  cbn [afr_status lean_events rich_events afr_note afr_actual afr_target_avg].
  cbn [afrInit demandAfrSamples length Nat.add] in Hlen.
  split; [exact I1|]. split; [rewrite I2; lia|]. split; [|split; [lia|split]].
  - intros _. rewrite I2.
    destruct (0 <? leanEvents st)%nat eqn:El.
    { apply Nat.ltb_lt in El. split; [discriminate | lia]. }
    apply Nat.ltb_ge in El.
    destruct (0 <? richEvents st)%nat eqn:Er.
    { apply Nat.ltb_lt in Er. split; [discriminate | lia]. }
    apply Nat.ltb_ge in Er. split; [lia | reflexivity].
  - intros Hnone. destruct (worstLean st) as [w|] eqn:Ew; [discriminate Hnone|].
    destruct (average (demandAfrSamples st)) eqn:Ea; [discriminate Hnone|].
    apply average_None in Ea. rewrite Ea in *. cbn [length] in *.
    split; [lia|]. split; [lia|].
    assert (targetSamples st = []) as -> by (destruct (targetSamples st); [reflexivity | cbn in I4; lia]).
    reflexivity.
  - intros Hl. destruct (worstLean st) as [w|] eqn:Ew.
    + exists w. split; [reflexivity|]. destruct (I7 w eq_refl) as [H1 H2].
      split; assumption.
    + exfalso. assert (leanEvents st = 0%nat) by (apply I5; reflexivity). lia.
Qed.
Lemma toFixedQ_nonneg1 (q : Q) : 0 <= q ->
  toFixedQ q 1 == inject_Z (Qfloor (q * 10 + 0.5)) / 10.
Proof.
  intros H. unfold toFixedQ, Qlt_bool.
  assert (Qle_bool 0 q = true) as -> by (apply Qle_bool_iff; exact H).
  cbn [negb]. rewrite Qred_correct.
  change (inject_Z (pow10 1)) with 10.
  rewrite (Qfloor_comp (Qabs q * 10 + 0.5) (q * 10 + 0.5)).
  - reflexivity.
  - rewrite Qabs_pos by exact H. reflexivity.
Qed.

Lemma toFixedQ_percent (q : Q) : 0 <= q -> q < 100 ->
  0 <= toFixedQ q 1 <= 100.
Proof.
  intros H0 H1. rewrite (toFixedQ_nonneg1 q H0).
  assert (0 <= Qfloor (q * 10 + 0.5))%Z as L.
  { change 0%Z with (Qfloor 0). apply Qfloor_resp_le. lra. }
  assert (Qfloor (q * 10 + 0.5) <= 1000)%Z as U.
  { change 1000%Z with (Qfloor 1000.5). apply Qfloor_resp_le. lra. }
  rewrite Zle_Qle in L, U. change (inject_Z 0) with 0 in L.
  change (inject_Z 1000) with 1000 in U.
  set (m := inject_Z (Qfloor (q * 10 + 0.5))) in *. clearbody m.
  unfold Qdiv. change (/ 10) with (1 # 10). split; lra.
Qed.

(** A drop of a positive reading below a positive reference, in percent, is
    below 100 whenever it is a number that is not negative. *)
Lemma drop_range (t a : number) :
  (t >? 0)%js = true -> (a >? 0)%js = true ->
  let d := (((t - a) / t) * 100)%js in
  isNaN d = false -> (d <? 0)%js = false ->
  exists q, d = Fin q /\ 0 <= q /\ q < 100.
Proof.
  unfold gt. intros Ht Ha. cbn zeta. intros Hn Hd.
  destruct t as [| | |t]; try discriminate Ht;
    destruct a as [| | |a]; try discriminate Ha;
    try (cbn in Hn; discriminate Hn); try (cbn in Hd; discriminate Hd).
  - cbn in Ht. assert (Qlt_bool t 0 = false) as El by (q_props; lra).
    cbn [sub neg add div] in Hd. rewrite El in Hd. discriminate Hd.
  - cbn in Ht, Ha. q_props.
    assert (Qeq_bool t 0 = false) as Et.
    { apply not_true_iff_false. intros E. apply Qeq_bool_iff in E. lra. }
    cbn [sub neg add div] in *. rewrite Et in *. cbn [mul lt] in *. q_props.
    eexists. split; [reflexivity|]. split; [lra|].
    assert (0 < / t) as Hi by (apply Qinv_lt_0_compat; exact Ht).
    assert (t * / t == 1) as Hm by (apply Qmult_inv_r; lra).
    assert (0 < a * / t) as Hp by (apply Qmult_lt_0_compat; assumption).
    unfold Qdiv.
    assert ((t + - a) * / t * 100 == 100 * (t * / t) - 100 * (a * / t)) as E by ring.
    rewrite E, Hm. lra.
Qed.

Lemma toFixedQ_mono1 (p q : Q) : 0 <= p -> p <= q -> toFixedQ p 1 <= toFixedQ q 1.
Proof.
  intros Hp Hpq.
  rewrite (toFixedQ_nonneg1 p Hp), (toFixedQ_nonneg1 q) by lra.
  assert (Qfloor (p * 10 + 0.5) <= Qfloor (q * 10 + 0.5))%Z as Hz.
  { apply Qfloor_resp_le. lra. }
  rewrite Zle_Qle in Hz. unfold Qdiv. change (/ 10) with (1 # 10). lra.
Qed.

(** The maximum drop a scan ends with is a percentage: a finite number from 0
    up to, and not including, 100. *)
Lemma hpfpMaxDropPct_range (rows source : list (gmap string string))
    (actualCol targetCol : option string) :
  exists q,
    hpfpMaxDropPct rows actualCol targetCol (positiveReadings source actualCol) = Fin q /\
    0 <= q /\ q < 100.
Proof.
  unfold hpfpMaxDropPct. destruct (negb (missing targetCol)).
  - rewrite fold_targetDropStep.
    destruct (fold_keepMax_spec (targetDropOf actualCol targetCol) rows (Fin 0) eq_refl)
      as (N & L & _ & [E | (x & _ & Hx)]).
    + rewrite E. exists 0. split; [reflexivity | lra].
    + apply targetDropOf_inv in Hx. destruct Hx as (Hd & Ht & Ha).
      assert ((num x targetCol >? 0)%js = true) as Ht0.
      { unfold gt in *. apply (js_lt_trans 0 1000); [reflexivity | exact Ht]. }
      rewrite Hd in N, L |- *. unfold gt in L.
      exact (drop_range _ _ Ht0 Ha N L).
  - set (actuals := positiveReadings source actualCol).
    set (M := fold_left (peakDropStep (maxOf actuals)) actuals (Fin 0)).
    assert (isNaN M = false /\ (M <? 0)%js = false /\
            (M = Fin 0 \/ exists x, In x actuals /\ peakDropOf (maxOf actuals) x = M)) as H.
    { unfold M. rewrite fold_peakDropStep.
      destruct (fold_keepMax_spec (fun a => Some (peakDropOf (maxOf actuals) a))
                  actuals (Fin 0) eq_refl)
        as (N & L & _ & [E | (x & Hin & Hx)]).
      - split; [exact N|]. split; [exact L|]. left. exact E.
      - split; [exact N|]. split; [exact L|]. right. exists x. split; [exact Hin|].
        injection Hx as Hx. exact Hx. }
    destruct H as (N & L & [E | (x & Hin & Hx)]).
    + rewrite E. exists 0. split; [reflexivity | lra].
    + 
      assert (forall v, In v actuals -> isNaN v = false /\ (v >? 0)%js = true) as Hpos.
      { intros v Hv. unfold actuals, positiveReadings in Hv.
        apply positive_filter_In in Hv. destruct Hv as [_ Hv]. split; [|exact Hv].
        unfold gt in Hv. apply js_lt_not_NaN in Hv. tauto. }
      assert (actuals <> []) as Hne by (intros C; rewrite C in Hin; exact Hin).
      destruct (maxOf_spec actuals Hne (fun v Hv => proj1 (Hpos v Hv))) as (Pn & Pin & Pmax).
      destruct (Hpos _ Pin) as [_ Pp]. destruct (Hpos _ Hin) as [_ Xp].
      rewrite <- Hx in N, L |- *. unfold peakDropOf in *.
      exact (drop_range _ _ Pp Xp N L).
Qed.

Lemma hpfp_reported_drop (q : Q) : 0 <= q -> q < 100 ->
  0 <= toFixedQ q 1 <= 100 /\
  (20 <= q -> 20 <= toFixedQ q 1) /\
  (10 <= q -> 10 <= toFixedQ q 1) /\
  (q < 20 -> toFixedQ q 1 <= 20) /\
  (q < 10 -> toFixedQ q 1 <= 10).
Proof.
  intros H0 H1. split; [apply toFixedQ_percent; assumption|].
  assert (toFixedQ 20 1 == 20) as E20 by reflexivity.
  assert (toFixedQ 10 1 == 10) as E10 by reflexivity.
  repeat split; intros H.
  - rewrite <- E20. apply toFixedQ_mono1; lra.
  - rewrite <- E10. apply toFixedQ_mono1; lra.
  - rewrite <- E20. apply toFixedQ_mono1; lra.
  - rewrite <- E10. apply toFixedQ_mono1; lra.
Qed.

(** X10. The HPFP result is consistent for every log: the drop it reports is
    a percentage between 0 and 100, present exactly when a value is; the
    status is Safe, Caution or Risk and agrees with the reported drop up to
    its rounding to one decimal (Risk only from 20, Caution only between 10
    and 20, Safe only up to 10); and the note is absent exactly when readings
    were found and the status is Safe. *)
Theorem analyzeHpfp_result_is_consistent
    (rows : list (gmap string string)) (columns : Columns) (boostUnit : BoostUnit) :
  let res := analyzeHpfp rows columns boostUnit in
  In (hpfp_status res) STATUSES /\
  (max_drop_pct res = None <-> hpfp_actual res = None) /\
  (hpfp_actual res = None -> hpfp_status res = "Safe" /\ hpfp_target_avg res = None) /\
  (hpfp_note res = None <-> hpfp_actual res <> None /\ hpfp_status res = "Safe") /\
  (forall d, max_drop_pct res = Some d ->
     exists q, d = Fin q /\ 0 <= q <= 100 /\
       (hpfp_status res = "Risk" -> 20 <= q) /\
       (hpfp_status res = "Caution" -> 10 <= q <= 20) /\
       (hpfp_status res = "Safe" -> q <= 10)).
Proof.
  intros res. unfold res, analyzeHpfp.
  destruct (missing (hpfp columns)) eqn:Hc.
  { cbn. repeat split; auto; try discriminate; try tauto;
      try (intros [H _]; contradiction). }
  set (source := sourceRows rows columns boostUnit).
  destruct (hpfpMaxDropPct_range rows source (hpfp columns) (hpfp_target columns))
    as (q & EM & Hq0 & Hq1).
  destruct (positiveReadings source (hpfp columns)) as [|a l] eqn:Ea.
  { cbn. repeat split; auto; try discriminate; try tauto;
      try (intros [H _]; contradiction). }
  cbn zeta. cbn [hpfp_status max_drop_pct hpfp_actual hpfp_note hpfp_target_avg].
  rewrite EM.
  destruct (hpfp_reported_drop q Hq0 Hq1) as (R0 & R20 & R10 & S20 & S10).
  destruct (hpfpStatus_cases (Fin q)) as (CR & CC & CS).
  split.
  { unfold hpfpStatus, STATUSES.
    destruct (_ >=? HPFP_DROP_RISK_PCT)%js; [cbn; tauto|].
    destruct (_ >=? HPFP_DROP_CAUTION_PCT)%js; cbn; tauto. }
  split; [split; discriminate|].
  split; [discriminate|].
  split.
  { rewrite CS. unfold HPFP_DROP_RISK_PCT, HPFP_DROP_CAUTION_PCT.
    destruct (Fin q >=? 20)%js eqn:E20.
    - assert ((Fin q >=? 10)%js = true) as E10.
      { apply (js_ge_trans (Fin q) 20 10 E20). reflexivity. }
      split; [discriminate | intros [_ C]; congruence].
    - destruct (Fin q >=? 10)%js eqn:E10.
      + split; [discriminate | intros [_ C]; congruence].
      + split; [intros _; split; [discriminate | reflexivity] | reflexivity]. }
  intros d [= <-]. exists (toFixedQ q 1). split; [reflexivity|]. split; [exact R0|].
  rewrite CR, CC, CS. unfold ge, le. repeat split.
  - intros H. q_props. apply R20. exact H.
  - destruct H as [H1 H2]. q_props. apply R10. exact H2.
  - destruct H as [H1 H2]. q_props. apply S20. lra.
  - intros H. q_props. apply S10. lra.
Qed.

Lemma num_empty_header (row : gmap string string) : num row (Some "") = NaN.
Proof. reflexivity. Qed.

Lemma js_le_of_not_lt (v w c : number) :
  isNaN v = false -> isNaN w = false ->
  (v <? w)%js = false -> (v <=? c)%js = true -> (w <=? c)%js = true.
Proof. intros H1 H2 H3 H4. number_cases. q_props. lra. Qed.

Lemma js_lt_le_neg (v w c : number) :
  (v <? w)%js = true -> (v <=? c)%js = false -> (w <=? c)%js = false.
Proof. intros H1 H2. number_cases. q_props. lra. Qed.

Lemma js_lt_nonpos (v w : number) :
  isNaN w = false -> (v <? w)%js = true -> (0 <? w)%js = false ->
  (0 <? v)%js = false /\ (v <? 0)%js = true.
Proof. intros H1 H2 H3. number_cases; q_props; split; q_props; lra. Qed.

Section TimingInvariant.
Variables (rows : list (gmap string string)) (timingColumns : list string).

Lemma timingColStep_invariant (row : gmap string string) (st : TimingState)
    (col : string) :
  In row rows -> In col timingColumns ->
  timingInvariant rows timingColumns st ->
  timingInvariant rows timingColumns (timingColStep row st col) /\
  (pullEvents (timingColStep row st col) <= S (pullEvents st))%nat.
Proof.
  intros Hrow Hcol (I1 & I2 & I3 & I4 & I5). unfold timingColStep.
  destruct (isNaN (num row (Some col))) eqn:Hn.
  { split; [|lia]. split; [exact I1|]. split; [exact I2|]. split; [exact I3|].
    split; [exact I4 | exact I5]. }
  assert (col <> "") as Hne.
  { intros ->. rewrite num_empty_header in Hn. discriminate Hn. }
  set (val := num row (Some col)) in *.
  destruct (val <? worstDeg st)%js eqn:Hlt;
    destruct (val <=? TIMING_CAUTION_DEG)%js eqn:Hle;
    cbn [worstDeg worstCyl pullEvents]; (split; [|lia]); unfold timingInvariant;
    cbn [worstDeg worstCyl pullEvents].
  - destruct (js_lt_nonpos _ _ I1 Hlt I2) as [P1 P2].
    split; [exact Hn|]. split; [exact P1|]. split; [split; [lia | intros _; exact Hle]|].
    split; [discriminate|]. intros c [= <-].
    split; [exact Hcol|]. split; [exact Hne|]. split; [exact P2|].
    exists row. split; [exact Hrow | reflexivity].
  - destruct (js_lt_nonpos _ _ I1 Hlt I2) as [P1 P2].
    split; [exact Hn|]. split; [exact P1|].
    pose proof (js_lt_le_neg _ _ _ Hlt Hle) as Hold.
    split. { rewrite Hle. rewrite Hold in I3. exact I3. }
    split; [discriminate|]. intros c [= <-].
    split; [exact Hcol|]. split; [exact Hne|]. split; [exact P2|].
    exists row. split; [exact Hrow | reflexivity].
  - split; [exact I1|]. split; [exact I2|].
    split. { split; [lia|]. intros _. exact (js_le_of_not_lt _ _ _ Hn I1 Hlt Hle). }
    split; [exact I4 | exact I5].
  - split; [exact I1|]. split; [exact I2|]. split; [exact I3|].
    split; [exact I4 | exact I5].
Qed.

Lemma timingCols_invariant (row : gmap string string) (cols : list string)
    (st : TimingState) :
  In row rows -> (forall c, In c cols -> In c timingColumns) ->
  timingInvariant rows timingColumns st ->
  timingInvariant rows timingColumns (fold_left (timingColStep row) cols st) /\
  (pullEvents (fold_left (timingColStep row) cols st)
   <= pullEvents st + length cols)%nat.
Proof.
  intros Hrow. revert st. induction cols as [|c cols IH]; intros st Hin Hst.
  - cbn. split; [exact Hst | lia].
  - cbn [fold_left length].
    destruct (timingColStep_invariant row st c Hrow (Hin c (or_introl eq_refl)) Hst)
      as [H1 H2].
    destruct (IH _ (fun c' Hc' => Hin c' (or_intror Hc')) H1) as [H3 H4].
    split; [exact H3 | lia].
Qed.

Lemma timingRowStep_scanned (columns : Columns) (boostUnit : BoostUnit)
    (st : TimingState) (row : gmap string string) :
  timingRowStep timingColumns columns boostUnit st row =
  if timingScanned columns boostUnit row
  then fold_left (timingColStep row) timingColumns st else st.
Proof.
  unfold timingRowStep, timingScanned.
  match goal with |- context [if ?b then st else _] => destruct b end;
    [reflexivity|].
  match goal with |- context [if ?b then st else _] => destruct b end;
    reflexivity.
Qed.

Lemma timingRowStep_invariant (columns : Columns) (boostUnit : BoostUnit)
    (st : TimingState) (row : gmap string string) :
  (timingScanned columns boostUnit row = true -> In row rows) ->
  timingInvariant rows timingColumns st ->
  timingInvariant rows timingColumns
    (timingRowStep timingColumns columns boostUnit st row) /\
  (pullEvents (timingRowStep timingColumns columns boostUnit st row)
   <= pullEvents st + length timingColumns)%nat.
Proof.
  intros Hrow Hst. rewrite timingRowStep_scanned.
  destruct (timingScanned columns boostUnit row); [|split; [exact Hst | lia]].
  apply timingCols_invariant; auto.
Qed.

Lemma timingRows_invariant (columns : Columns) (boostUnit : BoostUnit)
    (l : list (gmap string string)) (st : TimingState) :
  (forall r, In r l -> timingScanned columns boostUnit r = true -> In r rows) ->
  timingInvariant rows timingColumns st ->
  let st' := fold_left (timingRowStep timingColumns columns boostUnit) l st in
  timingInvariant rows timingColumns st' /\
  (pullEvents st' <= pullEvents st + length l * length timingColumns)%nat.
Proof.
  revert st. induction l as [|r l IH]; intros st Hin Hst; cbn zeta.
  - cbn. split; [exact Hst | lia].
  - cbn [fold_left length].
    destruct (timingRowStep_invariant columns boostUnit st r
                (Hin r (or_introl eq_refl)) Hst) as [H1 H2].
    destruct (IH _ (fun r' Hr' => Hin r' (or_intror Hr')) H1) as [H3 H4].
    cbn zeta in H3, H4. split; [exact H3 | lia].
Qed.

End TimingInvariant.

Lemma pow10_pos (n : nat) : 0 < inject_Z (pow10 n).
Proof.
  unfold pow10. change 0 with (inject_Z 0). rewrite <- Zlt_Qlt.
  apply Z.pow_pos_nonneg; lia.
Qed.

Lemma toFixedQ_nonpos (q : Q) (n : nat) : q <= 0 -> toFixedQ q n <= 0.
Proof.
  intros H. unfold toFixedQ. rewrite Qred_correct.
  pose proof (pow10_pos n) as Hs.
  set (s := inject_Z (pow10 n)) in *.
  assert (0 < / s) as Hi by (apply Qinv_lt_0_compat; exact Hs).
  destruct (Qlt_bool q 0) eqn:E.
  - assert (0 <= Qfloor (Qabs q * s + 0.5))%Z as L.
    { change 0%Z with (Qfloor 0). apply Qfloor_resp_le.
      pose proof (Qabs_nonneg q) as Ha.
      assert (0 <= Qabs q * s) by (apply Qmult_le_0_compat; lra). lra. }
    rewrite Zle_Qle in L. rewrite inject_Z_opp.
    set (m := inject_Z (Qfloor (Qabs q * s + 0.5))) in *. clearbody m.
    unfold Qdiv. change (inject_Z 0) with 0 in L.
    assert (0 <= m * / s) by (apply Qmult_le_0_compat; lra).
    assert (- m * / s == - (m * / s)) as -> by ring. lra.
  - q_props. assert (q == 0) as E0 by lra.
    assert (Qfloor (Qabs q * s + 0.5) = 0)%Z as ->.
    { rewrite (Qfloor_comp _ 0.5); [reflexivity|]. rewrite E0. 
      change (Qabs 0) with 0. ring. }
    unfold Qdiv. change (inject_Z 0) with 0. lra.
Qed.

Lemma roundN_nonpos (x : number) (n : nat) :
  isNaN x = false -> (0 <? x)%js = false ->
  isNaN (roundN x n) = false /\ (0 <? roundN x n)%js = false.
Proof.
  intros H1 H2. destruct x as [| | |q]; cbn in *; try discriminate; auto.
  split; [reflexivity|]. q_props. apply toFixedQ_nonpos. exact H2.
Qed.

(** X11. The timing result is consistent for every log: the status is Safe,
    Caution or Risk; it is Safe exactly when no pull event was counted, and
    exactly then the note is absent; at most one event is counted per row and
    timing column; the reported maximum correction is never positive; and a
    label that names a cylinder names one of the timing columns, with the
    rounded reading that one of the rows the loop scans (not off the throttle,
    under load) has in that column.  A status other than Safe always comes
    with such a label. *)
Theorem analyzeTimingCorrections_result_is_consistent
    (rows : list (gmap string string)) (timingColumns : list string)
    (columns : Columns) (boostUnit : BoostUnit) :
  let res := analyzeTimingCorrections rows timingColumns columns boostUnit in
  In (timing_status res) STATUSES /\
  (timing_status res = "Safe" <-> pull_events res = 0%nat) /\
  (timing_note res = None <-> timing_status res = "Safe") /\
  (pull_events res <= length rows * length timingColumns)%nat /\
  (forall d, max_correction res = Some d ->
     isNaN d = false /\ (0 <? d)%js = false) /\
  (forall d c, cylinders res = LabelWorst d c ->
     In c timingColumns /\
     exists row, In row rows /\ timingScanned columns boostUnit row = true /\
                 d = roundN (num row (Some c)) 1) /\
  (timing_status res <> "Safe" -> exists d c, cylinders res = LabelWorst d c).
Proof.
  intros res. unfold res, analyzeTimingCorrections. clear res.
  destruct timingColumns as [|c0 cols] eqn:Ecols.
  { cbn. repeat split; auto; try lia; try discriminate; try tauto;
      try (intros H; contradiction). }
  rewrite <- Ecols. clear c0 cols Ecols.
  set (scanned := List.filter (timingScanned columns boostUnit) rows).
  assert (timingInvariant scanned timingColumns
            {| worstDeg := 0; worstCyl := None; pullEvents := 0 |}) as H0.
  { unfold timingInvariant. cbn. repeat split; auto; try lia; try discriminate. }
  destruct (timingRows_invariant scanned timingColumns columns boostUnit rows _
              (fun r H1 H2 => proj2 (List.filter_In _ r rows) (conj H1 H2)) H0)
    as [Hinv Hlen].
  cbn zeta in Hinv, Hlen. cbn [pullEvents Nat.add] in Hlen.
  set (st := fold_left (timingRowStep timingColumns columns boostUnit) rows _) in *.
  destruct Hinv as (I1 & I2 & I3 & I4 & I5).
  cbn zeta. cbn [timing_status pull_events timing_note max_correction cylinders].
  assert ((worstDeg st <=? TIMING_RISK_DEG)%js = true ->
          (worstDeg st <=? TIMING_CAUTION_DEG)%js = true) as Hrc.
  { unfold TIMING_RISK_DEG, TIMING_CAUTION_DEG. intros H.
    destruct (worstDeg st); cbn in *; try discriminate; try reflexivity.
    q_props. lra. }
  assert (forall d c, match worstCyl st with
                      | Some c => if String.eqb c "" then
                                    LabelText "No corrections observed under load"
                                  else LabelWorst (roundN (worstDeg st) 1) c
                      | None => LabelText "No corrections observed under load"
                      end = LabelWorst d c ->
          worstCyl st = Some c /\ d = roundN (worstDeg st) 1) as Hlab.
  { intros d c. destruct (worstCyl st) as [c'|]; [|discriminate].
    destruct (String.eqb c' ""); [discriminate|]. intros [= <- <-]. auto. }
  destruct (worstDeg st <=? TIMING_RISK_DEG)%js eqn:ER.
  - pose proof (Hrc eq_refl) as EC. pose proof (proj1 I3 EC) as Hp.
    cbn [String.eqb Ascii.eqb Bool.eqb].
    split; [cbn; tauto|]. split; [split; [discriminate | lia]|].
    split; [split; discriminate|]. split; [exact Hlen|].
    split; [intros d [= <-]; apply roundN_nonpos; assumption|].
    split.
    + intros d c Hl. apply Hlab in Hl. destruct Hl as [Hc ->].
      destruct (I5 c Hc) as (P1 & _ & _ & row & P3 & P4).
      apply List.filter_In in P3. destruct P3 as [P3 P5].
      split; [exact P1|]. exists row. split; [exact P3|]. split; [exact P5|].
      rewrite P4. reflexivity.
    + intros _. destruct (worstCyl st) as [c|] eqn:Ew.
      * destruct (I5 c eq_refl) as (_ & Hne & _).
        apply String.eqb_neq in Hne. rewrite Hne. eauto.
      * rewrite (I4 eq_refl) in EC. discriminate EC.
  - destruct (worstDeg st <=? TIMING_CAUTION_DEG)%js eqn:EC.
    + pose proof (proj1 I3 eq_refl) as Hp.
      cbn [String.eqb Ascii.eqb Bool.eqb].
      split; [cbn; tauto|]. split; [split; [discriminate | lia]|].
      split; [split; discriminate|]. split; [exact Hlen|].
      split; [intros d [= <-]; apply roundN_nonpos; assumption|].
      split.
      * intros d c Hl. apply Hlab in Hl. destruct Hl as [Hc ->].
        destruct (I5 c Hc) as (P1 & _ & _ & row & P3 & P4).
        apply List.filter_In in P3. destruct P3 as [P3 P5].
      split; [exact P1|]. exists row. split; [exact P3|]. split; [exact P5|].
      rewrite P4. reflexivity.
      * intros _. destruct (worstCyl st) as [c|] eqn:Ew.
        -- destruct (I5 c eq_refl) as (_ & Hne & _).
           apply String.eqb_neq in Hne. rewrite Hne. eauto.
        -- rewrite (I4 eq_refl) in EC. discriminate EC.
    + assert (pullEvents st = 0)%nat as Hp.
      { destruct (pullEvents st); [reflexivity|].
        assert (false = true) by (apply I3; lia). discriminate. }
      cbn [String.eqb Ascii.eqb Bool.eqb].
      split; [cbn; tauto|]. split; [split; [intros _; exact Hp | reflexivity]|].
      split; [split; reflexivity|]. split; [exact Hlen|].
      split; [intros d [= <-]; apply roundN_nonpos; assumption|].
      split.
      * intros d c Hl. apply Hlab in Hl. destruct Hl as [Hc ->].
        destruct (I5 c Hc) as (P1 & _ & _ & row & P3 & P4).
        apply List.filter_In in P3. destruct P3 as [P3 P5].
      split; [exact P1|]. exists row. split; [exact P3|]. split; [exact P5|].
      rewrite P4. reflexivity.
      * intros C. contradiction.
Qed.

Lemma validReadings_In (rs : list (gmap string string)) (col : option string)
    (v : number) :
  In v (validReadings rs col) <->
  isNaN v = false /\ exists r, In r rs /\ num r col = v.
Proof.
  unfold validReadings. rewrite List.filter_In, List.in_map_iff, negb_true_iff.
  split.
  - intros [(r & E & Hr) Hn]. split; [exact Hn|]. exists r. auto.
  - intros [Hn (r & Hr & E)]. split; [|exact Hn]. exists r. auto.
Qed.

Lemma demandRows_In (rows : list (gmap string string)) (columns : Columns)
    (boostUnit : BoostUnit) (r : gmap string string) :
  In r (demandRows rows columns boostUnit) <->
  In r rows /\ rowIsDemand columns boostUnit r = true.
Proof. unfold demandRows. apply List.filter_In. Qed.

Lemma iat_status_cases (p : number) :
  (p >=? IAT_RISK_F)%js = true -> (p >=? IAT_CAUTION_F)%js = true.
Proof.
  intros H. apply (js_ge_trans p IAT_RISK_F IAT_CAUTION_F H). reflexivity.
Qed.

(** X12. The IAT result is consistent for every log.  A value and a
    Fahrenheit peak are reported together or not at all, and without them the
    status is Safe with a note that says why.  When they are reported, the
    value is the rounded largest reading among the rows used (the Demand rows
    when there are at least five, all rows otherwise), which is a reading of
    the log that no reading used exceeds; the peak is the same rounded reading
    when the unit is Fahrenheit and its rounded conversion (times 9/5 plus 32)
    when Celsius; the unit is the one the column header names, and for a header
    that names none it is Celsius exactly when no reading of the log exceeds
    100; and the status follows from the peak as reported: Risk from
    140, Caution from 120, Safe below, with a note exactly when not Safe. *)
Theorem analyzeIat_result_is_consistent
    (rows : list (gmap string string)) (columns : Columns) (boostUnit : BoostUnit) :
  let res := analyzeIat rows columns boostUnit in
  let demand := demandRows rows columns boostUnit in
  let used := if (5 <=? length demand)%nat then demand else rows in
  (iat_value res = None <-> peak_f res = None) /\
  (peak_f res = None -> iat_status res = "Safe" /\ iat_note res <> None) /\
  (forall p, peak_f res = Some p ->
     (exists m, iat_value res = Some (roundN m 1) /\
        p = roundN (match iat_unit res with C => (m * 9 / 5 + 32)%js | F => m end) 1 /\
        In m (validReadings used (iat columns)) /\
        forall v, In v (validReadings used (iat columns)) -> (m <? v)%js = false) /\
     (iat_status res = "Risk" <-> (p >=? 140)%js = true) /\
     (iat_status res = "Caution" <->
        (p >=? 140)%js = false /\ (p >=? 120)%js = true) /\
     (iat_status res = "Safe" <-> (p >=? 120)%js = false) /\
     (iat_note res = None <-> iat_status res = "Safe") /\
     (forall u, detectIatUnit (iat columns) = Some u -> iat_unit res = u) /\
     (detectIatUnit (iat columns) = None ->
      (iat_unit res = C <->
       forall v, In v (validReadings rows (iat columns)) -> (v <=? 100)%js = true))).
Proof.
  intros res demand used. unfold res, analyzeIat. clear res.
  destruct (missing (iat columns)) eqn:Hc.
  { cbn. repeat split; auto; try discriminate. }
  destruct (validReadings rows (iat columns)) as [|a0 l0] eqn:Eall.
  { cbn. repeat split; auto; try discriminate. }
  rewrite <- Eall. fold demand.
  set (likelyCelsius := match detectIatUnit (iat columns) with
                        | Some C => true | Some F => false
                        | None => forallb _ _ end).
  assert ((if (5 <=? length demand)%nat then validReadings demand (iat columns)
           else validReadings rows (iat columns))
          = validReadings used (iat columns)) as ->.
  { unfold used. destruct (5 <=? length demand)%nat; reflexivity. }
  destruct (validReadings used (iat columns)) as [|a1 l1] eqn:Esrc.
  { cbn. repeat split; auto; try discriminate. }
  rewrite <- Esrc.
  assert (validReadings used (iat columns) <> []) as Hne by (rewrite Esrc; discriminate).
  clear a0 l0 Eall a1 l1 Esrc.
  set (src := validReadings used (iat columns)) in *.
  assert (forall v, In v src -> isNaN v = false) as Hnan.
  { intros v Hv. apply validReadings_In in Hv. tauto. }
  destruct (maxOf_spec src Hne Hnan) as (Mn & Min & Mmax).
  set (toF := fun v : number => if likelyCelsius then (v * 9 / 5 + 32)%js else v).
  change (if likelyCelsius then (maxOf src * 9 / 5 + 32)%js else maxOf src)
    with (toF (maxOf src)).
  set (peakF := roundN (toF (maxOf src)) 1).
  assert (exists m, Some (roundN (maxOf src) 1) = Some (roundN m 1) /\
              peakF = roundN (match (if likelyCelsius then C else F) with
                              | C => (m * 9 / 5 + 32)%js | F => m end) 1 /\
              In m src /\ forall v, In v src -> (m <? v)%js = false) as Hm.
  { exists (maxOf src). split; [reflexivity|]. split.
    - unfold peakF, toF. destruct likelyCelsius; reflexivity.
    - split; assumption. }
  assert ((forall u, detectIatUnit (iat columns) = Some u ->
             (if likelyCelsius then C else F) = u) /\
          (detectIatUnit (iat columns) = None ->
           ((if likelyCelsius then C else F) = C <->
            forall v, In v (validReadings rows (iat columns)) -> (v <=? 100)%js = true)))
    as Hu.
  { unfold likelyCelsius. destruct (detectIatUnit (iat columns)) as [[|]|].
    - split; [intros u [= <-]; reflexivity | discriminate].
    - split; [intros u [= <-]; reflexivity | discriminate].
    - split; [discriminate|]. intros _. rewrite <- List.forallb_forall.
      destruct (forallb _ _); split; auto; discriminate. }
  destruct (peakF >=? IAT_RISK_F)%js eqn:ER.
  - pose proof (iat_status_cases _ ER) as EC.
    cbn [iat_value peak_f iat_status iat_note iat_unit].
    split; [split; discriminate|]. split; [discriminate|].
    intros p [= <-]. split; [exact Hm|]. unfold IAT_RISK_F, IAT_CAUTION_F in ER, EC. rewrite ER, EC.
    repeat split; try apply Hu; auto; try discriminate;
      try (intros [? ?]; discriminate).
  - destruct (peakF >=? IAT_CAUTION_F)%js eqn:EC;
      cbn [iat_value peak_f iat_status iat_note iat_unit].
    + split; [split; discriminate|]. split; [discriminate|].
      intros p [= <-]. split; [exact Hm|]. unfold IAT_RISK_F, IAT_CAUTION_F in ER, EC. rewrite ER, EC.
      repeat split; try apply Hu; auto; try discriminate;
      try (intros [? ?]; discriminate).
    + split; [split; discriminate|]. split; [discriminate|].
      intros p [= <-]. split; [exact Hm|]. unfold IAT_RISK_F, IAT_CAUTION_F in ER, EC. rewrite ER, EC.
      repeat split; try apply Hu; auto; try discriminate;
      try (intros [? ?]; discriminate).
Qed.

Lemma thresholds_finite (v : value) :
  exists s : Q,
    9.8 <= s <= 14.7 /\
    getAfrThresholds v =
    {| stoich := Fin s;
       lean_risk := Fin (toFixedQ (13.8 * (s / 14.7)) 2);
       lean_caution := Fin (toFixedQ (13.0 * (s / 14.7)) 2);
       rich_risk := Fin (toFixedQ (10.0 * (s / 14.7)) 2);
       rich_caution := Fin (toFixedQ (10.8 * (s / 14.7)) 2) |}.
Proof.
  destruct (stoich_finite v) as (s & Es & Hs). exists s. split; [exact Hs|].
  change (getAfrThresholds v) with
    {| stoich := stoich (getAfrThresholds v);
       lean_risk := roundN (AFR_LEAN_RISK * (stoich (getAfrThresholds v) / 14.7))%js 2;
       lean_caution :=
         roundN (AFR_LEAN_CAUTION * (stoich (getAfrThresholds v) / 14.7))%js 2;
       rich_risk := roundN (AFR_RICH_RISK * (stoich (getAfrThresholds v) / 14.7))%js 2;
       rich_caution :=
         roundN (AFR_RICH_CAUTION * (stoich (getAfrThresholds v) / 14.7))%js 2 |}.
  rewrite Es. reflexivity.
Qed.

Lemma thresholds_ordered (v : value) :
  exists s lr lc rr rc : Q,
    getAfrThresholds v =
    {| stoich := Fin s; lean_risk := Fin lr; lean_caution := Fin lc;
       rich_risk := Fin rr; rich_caution := Fin rc |} /\
    0 < rr /\ rr < rc /\ rc < lc /\ lc < lr /\ lr < s /\ s <= 14.7.
Proof.
  destruct (thresholds_finite v) as (s & Hs & E). rewrite E.
  do 5 eexists. split; [reflexivity|].
  assert (forall c, 0 <= c -> 0 <= c * (s / 14.7)) as Hpos.
  { intros c Hc. unfold Qdiv. change (/ 14.7) with (10 # 147).
    apply Qmult_le_0_compat; lra. }
  pose proof (toFixedQ_error (13.8 * (s / 14.7)) (Hpos 13.8 ltac:(lra))) as E1.
  pose proof (toFixedQ_error (13.0 * (s / 14.7)) (Hpos 13.0 ltac:(lra))) as E2.
  pose proof (toFixedQ_error (10.0 * (s / 14.7)) (Hpos 10.0 ltac:(lra))) as E3.
  pose proof (toFixedQ_error (10.8 * (s / 14.7)) (Hpos 10.8 ltac:(lra))) as E4.
  set (lr := toFixedQ (13.8 * (s / 14.7)) 2) in *.
  set (lc := toFixedQ (13.0 * (s / 14.7)) 2) in *.
  set (rr := toFixedQ (10.0 * (s / 14.7)) 2) in *.
  set (rc := toFixedQ (10.8 * (s / 14.7)) 2) in *.
  clearbody lr lc rr rc.
  unfold Qdiv in *. change (/ 14.7) with (10 # 147) in *.
  repeat split; lra.
Qed.

(** What the order of the thresholds means for a reading. *)
Lemma thresholds_bands (v : value) (a : number) :
  let t := getAfrThresholds v in
  ((a >? lean_risk t)%js = true -> (a >? lean_caution t)%js = true) /\
  ((a >? lean_caution t)%js = true ->
   (a <? rich_risk t)%js = false /\ (a <? rich_caution t)%js = false) /\
  ((a <? rich_risk t)%js = true -> (a <? rich_caution t)%js = true) /\
  ((a >=? FUEL_CUT_AFR)%js = true -> (a >? lean_caution t)%js = true).
Proof.
  intros t. unfold t.
  destruct (thresholds_ordered v)
    as (s & lr & lc & rr & rc & E & H0 & H1 & H2 & H3 & H4 & H5).
  rewrite E. cbn [lean_risk lean_caution rich_risk rich_caution].
  unfold gt, ge, FUEL_CUT_AFR.
  destruct a as [| | |q]; cbn;
    (split; [|split; [|split]]); try discriminate; try reflexivity;
    try (intros _; split; reflexivity); intros Hq; q_props;
    try split; q_props; lra.
Qed.

(** X13. For every ethanol input the five thresholds are finite and keep
    their order: 0 < rich risk < rich caution < lean caution < lean risk <
    stoich <= 14.7, so the rich-risk, rich-caution, lean-caution and lean-risk
    bands nest, and the lean-risk threshold stays below the fuel-cut
    threshold of 16.5. *)
Theorem getAfrThresholds_are_ordered (v : value) :
  let t := getAfrThresholds v in
  exists s lr lc rr rc : Q,
    stoich t = Fin s /\ lean_risk t = Fin lr /\ lean_caution t = Fin lc /\
    rich_risk t = Fin rr /\ rich_caution t = Fin rc /\
    0 < rr /\ rr < rc /\ rc < lc /\ lc < lr /\ lr < s /\ s <= 14.7 /\
    (lean_risk t <? FUEL_CUT_AFR)%js = true.
Proof.
  intros t. unfold t.
  destruct (thresholds_ordered v)
    as (s & lr & lc & rr & rc & E & H0 & H1 & H2 & H3 & H4 & H5).
  rewrite E. cbn [stoich lean_risk lean_caution rich_risk rich_caution].
  exists s, lr, lc, rr, rc. do 5 (split; [reflexivity|]).
  repeat split; try assumption.
  unfold FUEL_CUT_AFR. cbn. q_props. lra.
Qed.

Lemma timing_pull_fold (r : gmap string string) (cols : list string) (flag : bool) :
  fold_left
    (fun flag col =>
       let pull := num r (Some col) in
       if negb (isNaN pull) && (pull <=? -3)%js then true else flag)
    cols flag =
  flag || existsb (fun col => let pull := num r (Some col) in
                              negb (isNaN pull) && (pull <=? -3)%js) cols.
Proof.
  revert flag. induction cols as [|c cols IH]; intros flag; cbn [fold_left existsb].
  - rewrite orb_false_r. reflexivity.
  - rewrite IH. cbn zeta.
    destruct (negb (isNaN (num r (Some c))) && (num r (Some c) <=? -3)%js);
      destruct flag; reflexivity.
Qed.

Lemma existsb_nil_cols {A : Type} (f : A -> bool) (l : list A) :
  (0 <? length l)%nat = false -> existsb f l = false.
Proof. destruct l; [reflexivity | discriminate]. Qed.

Lemma chunkStep_flags (columns : Columns) (isLambdaAfr : bool)
    (boostUnit : BoostUnit) (thresholds : Thresholds) (timingColumns : list string)
    (flags : bool * bool) (r : gmap string string) :
  chunkStep columns isLambdaAfr boostUnit thresholds timingColumns flags r =
  (fst flags || chartLeanRow columns isLambdaAfr boostUnit thresholds r,
   snd flags || chartTimingRow columns boostUnit timingColumns r).
Proof.
  destruct flags as [a b]. unfold chunkStep, chartLeanRow, chartTimingRow, rowIsWot.
  cbn [fst snd]. f_equal.
  - destruct a; cbn [negb orb]; [reflexivity|].
    destruct (isWot _ _ _ _ && _); reflexivity.
  - destruct b; cbn [negb orb andb]; [reflexivity|].
    destruct (0 <? length timingColumns)%nat eqn:E.
    + set (pl := if isNaN (num r (pedal columns)) then NaN else num r (pedal columns)).
      set (pth := if isNaN (num r (throttle columns)) then NaN
                  else num r (throttle columns)).
      assert (isNaN pl = isNaN (num r (pedal columns)) /\
              (pl >=? 1)%js = (num r (pedal columns) >=? 1)%js) as [-> ->].
      { unfold pl. destruct (num r (pedal columns)); split; reflexivity. }
      assert (isNaN pth = isNaN (num r (throttle columns)) /\
              (pth >=? 5)%js = (num r (throttle columns) >=? 5)%js) as [-> ->].
      { unfold pth. destruct (num r (throttle columns)); split; reflexivity. }
      match goal with |- (if ?c then _ else _) = _ => destruct c end;
        [|reflexivity].
      rewrite timing_pull_fold. reflexivity.
    + rewrite (existsb_nil_cols _ _ E). rewrite andb_false_r. reflexivity.
Qed.

Lemma chunk_flags (columns : Columns) (isLambdaAfr : bool)
    (boostUnit : BoostUnit) (thresholds : Thresholds) (timingColumns : list string)
    (rs : list (gmap string string)) (flags : bool * bool) :
  fold_left (chunkStep columns isLambdaAfr boostUnit thresholds timingColumns) rs flags =
  (fst flags || existsb (chartLeanRow columns isLambdaAfr boostUnit thresholds) rs,
   snd flags || existsb (chartTimingRow columns boostUnit timingColumns) rs).
Proof.
  revert flags. induction rs as [|r rs IH]; intros [a b]; cbn [fold_left existsb fst snd].
  - rewrite !orb_false_r. reflexivity.
  - rewrite IH, chunkStep_flags. cbn [fst snd]. rewrite !orb_assoc. reflexivity.
Qed.

Lemma chartPoint_flags (rows : list (gmap string string)) (columns : Columns)
    (isLambdaAfr : bool) (boostUnit : BoostUnit) (thresholds : Thresholds)
    (timingColumns : list string) (worstIdx : option nat) (step i : nat) :
  let pt := chartPoint rows columns isLambdaAfr boostUnit thresholds timingColumns
              worstIdx step i in
  isLeanWarning pt =
    existsb (chartLeanRow columns isLambdaAfr boostUnit thresholds) (chunk rows step i) /\
  isTimingWarning pt =
    existsb (chartTimingRow columns boostUnit timingColumns) (chunk rows step i).
Proof.
  cbn zeta. unfold chartPoint. rewrite chunk_flags. cbn [fst snd orb]. split; reflexivity.
Qed.

(** The rows of the chunk that starts at [k * step] are the rows whose index,
    divided by the stride, is [k]. *)
Lemma chunk_In (rows : list (gmap string string)) (step k : nat)
    (r : gmap string string) :
  (1 <= step)%nat ->
  In r (chunk rows step (k * step)) <->
  exists j, (j / step = k)%nat /\ nth_error rows j = Some r.
Proof.
  intros Hs. unfold chunk. split.
  - intros H. apply In_nth_error in H. destruct H as [n Hn].
    assert (n < step)%nat as Hlt.
    { assert (nth_error (firstn step (skipn (k * step) rows)) n <> None) as H
        by congruence.
      apply nth_error_Some in H. rewrite List.length_firstn in H. lia. }
    rewrite nth_error_firstn in Hn.
    assert ((n <? step)%nat = true) as E by (apply Nat.ltb_lt; exact Hlt).
    rewrite E in Hn. rewrite nth_error_skipn in Hn.
    exists (k * step + n)%nat. split; [|exact Hn].
    symmetry. apply (Nat.div_unique _ step k n); lia.
  - intros (j & Hj & Hr).
    pose proof (Nat.div_mod_eq j step) as Hd.
    pose proof (Nat.mod_upper_bound j step ltac:(lia)) as Hm.
    apply (nth_error_In _ (j mod step)).
    rewrite nth_error_firstn.
    assert ((j mod step <? step)%nat = true) as E by (apply Nat.ltb_lt; exact Hm).
    rewrite E, nth_error_skipn.
    replace (k * step + j mod step)%nat with j by (subst k; lia). exact Hr.
Qed.

Lemma chart_point_of_row (rows : list (gmap string string)) (step j : nat) :
  (1 <= step)%nat -> (j < length rows)%nat ->
  (j / step < (length rows + step - 1) / step)%nat.
Proof.
  intros Hs Hj.
  apply Nat.Div0.div_lt_upper_bound.
  pose proof (Nat.div_mod_eq (length rows + step - 1) step) as Hd.
  pose proof (Nat.mod_upper_bound (length rows + step - 1) step ltac:(lia)) as Hm.
  lia.
Qed.

Lemma buildChartData_nth (rows : list (gmap string string)) (columns : Columns)
    (isLambdaAfr : bool) (boostUnit : BoostUnit) (maxPoints : nat)
    (thresholds : Thresholds) (timingColumns : list string) (k : nat) :
  let step := chartStep (length rows) maxPoints in
  nth_error (buildChartData rows columns isLambdaAfr boostUnit maxPoints thresholds
               timingColumns) k =
  if (k <? (length rows + step - 1) / step)%nat
  then Some (chartPoint rows columns isLambdaAfr boostUnit thresholds timingColumns
               (worstHpfpRowIdx rows columns) step (k * step))
  else None.
Proof.
  intros step. rewrite buildChartData_unrolled. fold step.
  destruct (k <? (length rows + step - 1) / step)%nat eqn:E.
  - apply Nat.ltb_lt in E.
    rewrite nth_error_map, nth_error_seq.
    assert ((k <? (length rows + step - 1) / step)%nat = true) as ->
      by (apply Nat.ltb_lt; exact E).
    reflexivity.
  - apply Nat.ltb_ge in E. apply nth_error_None.
    rewrite List.length_map, List.length_seq. exact E.
Qed.

(** X14. The chart loses no row to downsampling: every row of the log lies in
    the chunk of exactly one chart point, the point at its index divided by
    the stride.  A point carries the lean marker exactly when one of the rows
    of its chunk is at wide-open throttle with an AFR above the lean-caution
    threshold, and the timing marker exactly when one of them is under load
    (pedal and throttle not both lifted, load from 40 or boost above 2 psi)
    with a timing column reading -3 or lower. *)
Theorem chart_markers_cover_every_row
    (rows : list (gmap string string)) (columns : Columns) (isLambdaAfr : bool)
    (boostUnit : BoostUnit) (maxPoints : nat) (thresholds : Thresholds)
    (timingColumns : list string) :
  let step := chartStep (length rows) maxPoints in
  let points := buildChartData rows columns isLambdaAfr boostUnit maxPoints
                  thresholds timingColumns in
  (forall j r, nth_error rows j = Some r ->
     exists pt, nth_error points (j / step) = Some pt) /\
  (forall k pt, nth_error points k = Some pt ->
     (isLeanWarning pt = true <->
      exists j r, (j / step = k)%nat /\ nth_error rows j = Some r /\
        chartLeanRow columns isLambdaAfr boostUnit thresholds r = true) /\
     (isTimingWarning pt = true <->
      exists j r, (j / step = k)%nat /\ nth_error rows j = Some r /\
        chartTimingRow columns boostUnit timingColumns r = true)).
Proof.
  intros step points.
  pose proof (chartStep_positive (length rows) maxPoints) as Hs. fold step in Hs.
  split.
  - intros j r Hr. unfold points. rewrite buildChartData_nth. fold step.
    assert (j < length rows)%nat as Hj by (apply nth_error_Some; congruence).
    pose proof (chart_point_of_row rows step j Hs Hj) as Hk.
    apply Nat.ltb_lt in Hk. rewrite Hk. eauto.
  - intros k pt Hpt. unfold points in Hpt. rewrite buildChartData_nth in Hpt.
    fold step in Hpt.
    destruct (k <? (length rows + step - 1) / step)%nat; [|discriminate Hpt].
    injection Hpt as <-.
    destruct (chartPoint_flags rows columns isLambdaAfr boostUnit thresholds
                timingColumns (worstHpfpRowIdx rows columns) step (k * step))
      as [-> ->].
    rewrite !existsb_exists. split; split.
    + intros (r & Hin & Hr). apply (chunk_In rows step k r Hs) in Hin.
      destruct Hin as (j & Hj & Hn). exists j, r. auto.
    + intros (j & r & Hj & Hn & Hr). exists r. split; [|exact Hr].
      apply (chunk_In rows step k r Hs). exists j. auto.
    + intros (r & Hin & Hr). apply (chunk_In rows step k r Hs) in Hin.
      destruct Hin as (j & Hj & Hn). exists j, r. auto.
    + intros (j & r & Hj & Hn & Hr). exists r. split; [|exact Hr].
      apply (chunk_In rows step k r Hs). exists j. auto.
Qed.

Section AfrCounts.
Variables (columns : Columns) (isLambdaAfr : bool) (ethanol : value)
          (boostUnit : BoostUnit).

Let thresholds := getAfrThresholds ethanol.
Let classOf := afrClass columns isLambdaAfr thresholds boostUnit.
Let step := afrStep columns isLambdaAfr thresholds boostUnit.

Lemma afrStep_by_class (st : AfrState) (row : gmap string string) :
  let st' := step st row in
  match classOf row with
  | NoEvent =>
      status st' = status st /\ leanEvents st' = leanEvents st /\
      richEvents st' = richEvents st
  | LeanRisk =>
      status st' = "Risk" /\ leanEvents st' = S (leanEvents st) /\
      richEvents st' = richEvents st
  | LeanCaution =>
      if String.eqb (status st) "Risk"
      then status st' = status st /\ leanEvents st' = leanEvents st /\
           richEvents st' = richEvents st
      else status st' = "Caution" /\ leanEvents st' = S (leanEvents st) /\
           richEvents st' = richEvents st
  | RichRisk =>
      status st' = "Risk" /\ leanEvents st' = leanEvents st /\
      richEvents st' = S (richEvents st)
  | RichCaution =>
      if String.eqb (status st) "Risk"
      then status st' = status st /\ leanEvents st' = leanEvents st /\
           richEvents st' = richEvents st
      else status st' = "Caution" /\ leanEvents st' = leanEvents st /\
           richEvents st' = S (richEvents st)
  end.
Proof.
  cbn zeta. unfold classOf, step, afrClass, afrStep.
  destruct (isNaN (num row (afr columns))) eqn:Hn; cbn [orb]; [auto|].
  set (a := toAfr isLambdaAfr (num row (afr columns))).
  destruct (a >=? FUEL_CUT_AFR)%js eqn:Hf; cbn [orb]; [auto|].
  set (st1 := if rowIsDemand columns boostUnit row then _ else st).
  assert (status st1 = status st /\ leanEvents st1 = leanEvents st /\
          richEvents st1 = richEvents st) as (S1 & S2 & S3).
  { unfold st1. destruct (rowIsDemand columns boostUnit row); auto. }
  destruct (rowIsWot columns boostUnit row) eqn:Hw; cbn [negb]; [|auto].
  destruct (thresholds_bands ethanol a) as (B1 & B2 & B3 & _).
  fold thresholds in B1, B2, B3.
  destruct (a >? lean_risk thresholds)%js eqn:E1.
  { cbn [status leanEvents richEvents]. rewrite S2, S3. auto. }
  destruct (a >? lean_caution thresholds)%js eqn:E2.
  { destruct (B2 eq_refl) as [R1 R2]. rewrite S1.
    destruct (String.eqb (status st) "Risk") eqn:Es; cbn [negb andb].
    - rewrite R1, R2. cbn [andb]. auto.
    - cbn [status leanEvents richEvents]. rewrite S2, S3. auto. }
  cbn [andb].
  destruct (a <? rich_risk thresholds)%js eqn:E3.
  { cbn [status leanEvents richEvents]. rewrite S2, S3. auto. }
  destruct (a <? rich_caution thresholds)%js eqn:E4; cbn [andb]; [|auto].
  rewrite S1. destruct (String.eqb (status st) "Risk") eqn:Es; cbn [negb].
  - auto.
  - cbn [status leanEvents richEvents]. rewrite S2, S3. auto.
Qed.

Lemma countClass_cons (c : AfrClass) (r : gmap string string)
    (l : list (gmap string string)) :
  countClass classOf c (r :: l) =
  ((if AfrClass_eqb (classOf r) c then 1 else 0) + countClass classOf c l)%nat.
Proof.
  unfold countClass. cbn [List.filter].
  destruct (AfrClass_eqb (classOf r) c); reflexivity.
Qed.

Lemma afrLoop_by_class (rows : list (gmap string string)) (st : AfrState) :
  let st' := fold_left step rows st in
  let n := fun c => countClass classOf c rows in
  (status st' = "Risk" <->
   status st = "Risk" \/ (0 < n LeanRisk + n RichRisk)%nat) /\
  (status st' = "Safe" <->
   status st = "Safe" /\
   (n LeanRisk + n LeanCaution + n RichRisk + n RichCaution = 0)%nat) /\
  (leanEvents st + n LeanRisk <= leanEvents st'
   <= leanEvents st + n LeanRisk + n LeanCaution)%nat /\
  (richEvents st + n RichRisk <= richEvents st'
   <= richEvents st + n RichRisk + n RichCaution)%nat /\
  (status st' <> "Risk" ->
   leanEvents st' = (leanEvents st + n LeanCaution)%nat /\
   richEvents st' = (richEvents st + n RichCaution)%nat).
Proof.
  revert st. induction rows as [|r rows IH]; intros st; cbn zeta.
  - unfold countClass. cbn. repeat split; try lia; try tauto.
    intros [H | H]; [exact H | lia].
  - cbn [fold_left]. rewrite !countClass_cons.
    specialize (IH (step st r)). cbn zeta in IH.
    destruct IH as (I1 & I2 & I3 & I4 & I5).
    pose proof (afrStep_by_class st r) as Hs. cbn zeta in Hs.
    set (st1 := step st r) in *.
    set (st' := fold_left step rows st1) in *.
    assert ("Risk" = "Risk") as T1 by reflexivity.
    assert ("Caution" <> "Risk") as T2 by discriminate.
    assert ("Caution" <> "Safe") as T3 by discriminate.
    assert ("Risk" <> "Safe") as T4 by discriminate.
    destruct (String.eqb (status st) "Risk") eqn:Es;
      [apply String.eqb_eq in Es | apply String.eqb_neq in Es];
      destruct (classOf r) eqn:Ec; cbn [AfrClass_eqb Nat.add];
      destruct Hs as (S1 & S2 & S3); rewrite S1, S2, S3 in *;
      clearbody st1 st';
      (split; [|split; [|split; [lia|split; [lia|]]]]).
    all: try (rewrite I1; split; intros [Hx | Hx];
              first [left; congruence | right; lia | exfalso; congruence]).
    all: try (rewrite I2; split; intros [Hx Hy];
              first [split; [congruence | lia] | exfalso; congruence | exfalso; lia]).
    all: intros Hr;
      first [destruct (I5 Hr); lia
            | exfalso; apply Hr; apply I1; left; congruence].
Qed.

End AfrCounts.

(** The classes are the bands the thresholds cut out of the readings taken at
    wide-open throttle below the fuel-cut threshold. *)
Lemma afrClass_bands (columns : Columns) (isLambdaAfr : bool) (ethanol : value)
    (boostUnit : BoostUnit) (r : gmap string string) :
  let t := getAfrThresholds ethanol in
  let a := toAfr isLambdaAfr (num r (afr columns)) in
  let counted :=
    negb (isNaN (num r (afr columns))) && negb (a >=? FUEL_CUT_AFR)%js
    && rowIsWot columns boostUnit r in
  let c := afrClass columns isLambdaAfr t boostUnit r in
  (c = LeanRisk <-> counted = true /\ (a >? lean_risk t)%js = true) /\
  (c = LeanCaution <->
   counted = true /\ (a >? lean_caution t)%js = true /\ (a >? lean_risk t)%js = false) /\
  (c = RichRisk <-> counted = true /\ (a <? rich_risk t)%js = true) /\
  (c = RichCaution <->
   counted = true /\ (a <? rich_caution t)%js = true /\ (a <? rich_risk t)%js = false).
Proof.
  cbn zeta. unfold afrClass.
  set (t := getAfrThresholds ethanol).
  set (a := toAfr isLambdaAfr (num r (afr columns))).
  destruct (thresholds_bands ethanol a) as (B1 & B2 & B3 & _).
  fold t in B1, B2, B3.
  destruct (isNaN (num r (afr columns))); cbn [orb negb andb];
    [intuition congruence|].
  destruct (a >=? FUEL_CUT_AFR)%js; cbn [orb negb andb]; [intuition congruence|].
  destruct (rowIsWot columns boostUnit r); cbn [orb negb andb];
    [|intuition congruence].
  destruct (a >? lean_risk t)%js eqn:E1.
  { pose proof (B1 eq_refl) as E2. destruct (B2 E2) as [E3 E4].
    rewrite E2, E3, E4. intuition congruence. }
  destruct (a >? lean_caution t)%js eqn:E2.
  { destruct (B2 eq_refl) as [E3 E4]. rewrite E3, E4. intuition congruence. }
  destruct (a <? rich_risk t)%js eqn:E3.
  { rewrite (B3 eq_refl). intuition congruence. }
  destruct (a <? rich_caution t)%js eqn:E4; intuition congruence.
Qed.

Lemma countClass_none (classOf : gmap string string -> AfrClass) (c : AfrClass)
    (rows : list (gmap string string)) :
  (forall r, AfrClass_eqb (classOf r) c = false) -> countClass classOf c rows = 0%nat.
Proof.
  intros H. unfold countClass. induction rows as [|r l IH]; [reflexivity|].
  cbn [List.filter]. rewrite H. exact IH.
Qed.

(** X15. For every log and ethanol input, the AFR status and event counts
    follow from how many rows fall in each band.  A row counts when it has an
    AFR reading below the fuel-cut threshold and is at wide-open throttle; it
    is lean-risk above the lean-risk threshold, lean-caution above the
    lean-caution threshold only, rich-risk below the rich-risk threshold,
    rich-caution below the rich-caution threshold only.  The status is Risk
    exactly when there is a lean-risk or rich-risk row, and Safe exactly when
    no row is in any band.  Every risk row is an event, and a caution row is
    an event unless the status was Risk already when the loop met it: the lean
    events lie between the lean-risk rows and all the lean rows, likewise the
    rich events, and when the status is not Risk the lean events are exactly
    the lean-caution rows and the rich events exactly the rich-caution rows. *)
Theorem analyzeAfr_counts_rows_by_band
    (rows : list (gmap string string)) (columns : Columns) (isLambdaAfr : bool)
    (ethanol : value) (boostUnit : BoostUnit) :
  let t := getAfrThresholds ethanol in
  let res := analyzeAfr rows columns isLambdaAfr t boostUnit in
  let classOf := afrClass columns isLambdaAfr t boostUnit in
  let n := fun c => countClass classOf c rows in
  (forall r,
     let a := toAfr isLambdaAfr (num r (afr columns)) in
     let counted :=
       negb (isNaN (num r (afr columns))) && negb (a >=? FUEL_CUT_AFR)%js
       && rowIsWot columns boostUnit r in
     (classOf r = LeanRisk <-> counted = true /\ (a >? lean_risk t)%js = true) /\
     (classOf r = LeanCaution <->
      counted = true /\ (a >? lean_caution t)%js = true /\
      (a >? lean_risk t)%js = false) /\
     (classOf r = RichRisk <-> counted = true /\ (a <? rich_risk t)%js = true) /\
     (classOf r = RichCaution <->
      counted = true /\ (a <? rich_caution t)%js = true /\
      (a <? rich_risk t)%js = false)) /\
  (afr_status res = "Risk" <-> (0 < n LeanRisk + n RichRisk)%nat) /\
  (afr_status res = "Safe" <->
   (n LeanRisk + n LeanCaution + n RichRisk + n RichCaution = 0)%nat) /\
  (n LeanRisk <= lean_events res <= n LeanRisk + n LeanCaution)%nat /\
  (n RichRisk <= rich_events res <= n RichRisk + n RichCaution)%nat /\
  (afr_status res <> "Risk" ->
   lean_events res = n LeanCaution /\ rich_events res = n RichCaution).
Proof.
  intros t res classOf n.
  split; [intros r; exact (afrClass_bands columns isLambdaAfr ethanol boostUnit r)|].
  pose proof (afrLoop_by_class columns isLambdaAfr ethanol boostUnit rows afrInit)
    as H. cbn zeta in H. fold t classOf in H.
  change (fold_left (afrStep columns isLambdaAfr t boostUnit) rows afrInit)
    with (afrLoop columns isLambdaAfr t boostUnit rows) in H.
  destruct H as (H1 & H2 & H3 & H4 & H5).
  cbn [afrInit status leanEvents richEvents Nat.add] in H1, H2, H3, H4, H5.
  unfold res, analyzeAfr.
  destruct (missing (afr columns)) eqn:Hc.
  - assert (forall r, classOf r = NoEvent) as Hno.
    { intros r. unfold classOf, afrClass.
      assert (num r (afr columns) = NaN) as ->.
      { unfold missing in Hc. unfold num. destruct (afr columns) as [c|]; [|reflexivity].
        rewrite Hc. reflexivity. }
      reflexivity. }
    assert (forall c, c <> NoEvent -> n c = 0%nat) as Hz.
    { intros c Hne. unfold n. apply countClass_none. intros r. rewrite Hno.
      destruct c; try contradiction; reflexivity. }
    cbn [afr_status lean_events rich_events].
    rewrite (Hz LeanRisk), (Hz LeanCaution), (Hz RichRisk), (Hz RichCaution)
      by discriminate.
    repeat split; try lia; try discriminate; auto.
  - cbn zeta. cbn [afr_status lean_events rich_events].
    set (st := afrLoop columns isLambdaAfr t boostUnit rows) in *.
    split. { rewrite H1. split; [intros [C | C]; [discriminate C | exact C] | auto]. }
    split. { rewrite H2. split; [intros [_ C]; exact C | auto]. }
    split; [exact H3|]. split; [exact H4 | exact H5].
Qed.

(** The event counts depend on the order of the rows: a lean-caution row is
    an event before the first risk row and not after it, whether that risk
    row is lean or rich. *)
Example lean_events_depend_on_row_order :
  let t := getAfrThresholds (VNum 10) in
  lean_events (analyzeAfr [leanCautionRow; pullRow] sampleColumns false t psi) = 2%nat /\
  lean_events (analyzeAfr [pullRow; leanCautionRow] sampleColumns false t psi) = 1%nat /\
  lean_events (analyzeAfr [richRiskRow; leanCautionRow] sampleColumns false t psi) = 0%nat /\
  lean_events (analyzeAfr [leanCautionRow; richRiskRow] sampleColumns false t psi) = 1%nat.
Proof. vm_compute. repeat split; reflexivity. Qed.
Lemma countClass_positive (classOf : gmap string string -> AfrClass) (c : AfrClass)
    (rows : list (gmap string string)) :
  (0 < countClass classOf c rows)%nat -> exists r, In r rows /\ classOf r = c.
Proof.
  unfold countClass. intros H.
  destruct (List.filter (fun r => AfrClass_eqb (classOf r) c) rows) as [|r l] eqn:E;
    [cbn in H; lia|].
  assert (In r (List.filter (fun r => AfrClass_eqb (classOf r) c) rows)) as Hin
    by (rewrite E; left; reflexivity).
  apply List.filter_In in Hin. destruct Hin as [Hin Hc]. exists r. split; [exact Hin|].
  destruct (classOf r), c; try discriminate Hc; reflexivity.
Qed.

Section ChartMarkers.
Variables (rows : list (gmap string string)) (columns : Columns)
          (isLambdaAfr : bool) (boostUnit : BoostUnit) (maxPoints : nat)
          (thresholds : Thresholds) (timingColumns : list string).

Let points :=
  buildChartData rows columns isLambdaAfr boostUnit maxPoints thresholds timingColumns.

Lemma chart_point_for_row (j : nat) :
  (j < length rows)%nat ->
  let step := chartStep (length rows) maxPoints in
  let pt := chartPoint rows columns isLambdaAfr boostUnit thresholds timingColumns
              (worstHpfpRowIdx rows columns) step (j / step * step) in
  In pt points.
Proof.
  intros Hj step pt.
  pose proof (chartStep_positive (length rows) maxPoints) as Hs. fold step in Hs.
  apply (nth_error_In _ (j / step)). unfold points. rewrite buildChartData_nth.
  fold step. pose proof (chart_point_of_row rows step j Hs Hj) as Hk.
  apply Nat.ltb_lt in Hk. rewrite Hk. reflexivity.
Qed.

Lemma lean_row_is_marked (r : gmap string string) :
  In r rows -> chartLeanRow columns isLambdaAfr boostUnit thresholds r = true ->
  exists pt, In pt points /\ isLeanWarning pt = true.
Proof.
  intros Hin Hr. apply In_nth_error in Hin. destruct Hin as [j Hj].
  assert (j < length rows)%nat as Hlt by (apply nth_error_Some; congruence).
  pose proof (chartStep_positive (length rows) maxPoints) as Hs.
  eexists. split; [exact (chart_point_for_row j Hlt)|].
  destruct (chartPoint_flags rows columns isLambdaAfr boostUnit thresholds
              timingColumns (worstHpfpRowIdx rows columns)
              (chartStep (length rows) maxPoints)
              (j / chartStep (length rows) maxPoints
               * chartStep (length rows) maxPoints)) as [-> _].
  apply existsb_exists. exists r. split; [|exact Hr].
  apply chunk_In; [exact Hs|]. exists j. auto.
Qed.

Lemma timing_row_is_marked (r : gmap string string) :
  In r rows -> chartTimingRow columns boostUnit timingColumns r = true ->
  exists pt, In pt points /\ isTimingWarning pt = true.
Proof.
  intros Hin Hr. apply In_nth_error in Hin. destruct Hin as [j Hj].
  assert (j < length rows)%nat as Hlt by (apply nth_error_Some; congruence).
  pose proof (chartStep_positive (length rows) maxPoints) as Hs.
  eexists. split; [exact (chart_point_for_row j Hlt)|].
  destruct (chartPoint_flags rows columns isLambdaAfr boostUnit thresholds
              timingColumns (worstHpfpRowIdx rows columns)
              (chartStep (length rows) maxPoints)
              (j / chartStep (length rows) maxPoints
               * chartStep (length rows) maxPoints)) as [_ ->].
  apply existsb_exists. exists r. split; [|exact Hr].
  apply chunk_In; [exact Hs|]. exists j. auto.
Qed.

Lemma worst_hpfp_row_is_marked (j : nat) :
  worstHpfpRowIdx rows columns = Some j -> (j < length rows)%nat ->
  exists pt, In pt points /\ isHpfpWarning pt = true.
Proof.
  intros Hw Hlt.
  pose proof (chartStep_positive (length rows) maxPoints) as Hs.
  eexists. split; [exact (chart_point_for_row j Hlt)|].
  rewrite chartPoint_isHpfpWarning, Hw.
  rewrite (chunk_of_row _ j _ Hs). apply Nat.eqb_refl.
Qed.

End ChartMarkers.

Lemma js_scanned_pedal (p t : number) :
  (negb (isNaN (if isNaN p then NaN else p))
   && ((if isNaN p then NaN else p) <? 1)%js
   && (if negb (isNaN (if isNaN t then NaN else t))
       then ((if isNaN t then NaN else t) <? 5)%js else true)) = false ->
  (isNaN p || (p >=? 1)%js || (isNaN t || (t >=? 5)%js)) = true.
Proof.
  unfold ge.
  destruct p as [| | |p]; destruct t as [| | |t];
    cbn [isNaN lt le negb andb orb]; unfold Qlt_bool;
    repeat match goal with
           | |- context [Qle_bool ?x ?y] => destruct (Qle_bool x y)
           end; cbn [negb andb orb]; intros H; try reflexivity; discriminate H.
Qed.

Lemma js_scanned_load (l b : number) :
  (((if isNaN l then Fin 0 else l) <? LOAD_TIMING)%js
   && ((if isNaN b then Fin 0 else b) <=? BOOST_DEMAND)%js) = false ->
  ((l >=? LOAD_TIMING)%js || (b >? BOOST_DEMAND)%js) = true.
Proof.
  unfold ge, gt, LOAD_TIMING, BOOST_DEMAND.
  destruct l as [| | |l]; destruct b as [| | |b];
    cbn [isNaN lt le negb andb orb]; unfold Qlt_bool;
    repeat match goal with
           | |- context [Qle_bool ?x ?y] => destruct (Qle_bool x y) eqn:?
           end; cbn [negb andb orb]; intros H; try reflexivity;
    try discriminate H; q_props; lra.
Qed.

Lemma scanned_row_is_chart_timing_row (columns : Columns) (boostUnit : BoostUnit)
    (timingColumns : list string) (r : gmap string string) (c : string) :
  timingScanned columns boostUnit r = true -> In c timingColumns ->
  (num r (Some c) <=? TIMING_RISK_DEG)%js = true ->
  chartTimingRow columns boostUnit timingColumns r = true.
Proof.
  unfold timingScanned, chartTimingRow. intros Hs Hc Hv.
  apply andb_true_iff in Hs. destruct Hs as [H1 H2].
  apply negb_true_iff in H1, H2.
  apply js_scanned_pedal in H1. apply js_scanned_load in H2.
  rewrite H1, H2. cbn [andb].
  apply existsb_exists. exists c. split; [exact Hc|]. cbn zeta.
  unfold TIMING_RISK_DEG in Hv.
  destruct (num r (Some c)) as [| | |q]; cbn in *; try discriminate Hv;
    try reflexivity. q_props. lra.
Qed.

Lemma js_worst_reaches_risk (M W : number) :
  isNaN W = false -> (M >=? HPFP_DROP_RISK_PCT)%js = true -> (M >? W)%js = false ->
  (W <? HPFP_DROP_RISK_PCT)%js = false /\ W <> Fin 0.
Proof.
  unfold HPFP_DROP_RISK_PCT, ge, gt. intros H1 H2 H3.
  destruct M, W; cbn in *; try discriminate; try (split; [reflexivity | discriminate]).
  q_props. split; [q_props; lra|]. intros [= ->]. lra.
Qed.

Lemma targetDrop_is_chartDrop (rows : list (gmap string string)) (columns : Columns)
    (r : gmap string string) (d : number) :
  missing (hpfp_target columns) = false ->
  targetDropOf (hpfp columns) (hpfp_target columns) r = Some d ->
  chartDropOfRow rows columns r = Some d.
Proof.
  intros Ht Hd. unfold chartDropOfRow, chartDropPct. unfold targetDropOf in Hd.
  destruct (isNaN (num r (hpfp columns))); [discriminate Hd|].
  destruct (isNaN (num r (hpfp_target columns))) eqn:Nt; [discriminate Hd|].
  cbn [orb] in Hd |- *.
  destruct (num r (hpfp_target columns) <=? 1000)%js eqn:Lt; [discriminate Hd|].
  destruct (num r (hpfp columns) <=? 0)%js; [discriminate Hd|].
  rewrite Ht. cbn [negb andb].
  assert ((num r (hpfp_target columns) >? 1000)%js = true) as ->.
  { unfold gt. destruct (num r (hpfp_target columns)); cbn in *;
      try discriminate; try reflexivity. q_props. lra. }
  exact Hd.
Qed.

(** X16. In the result of [analyzeLog] the chart never misses what the
    metrics report.  When the AFR metric counts a lean event, some chart
    point carries the lean marker; when the timing status is Risk, some chart
    point carries the timing marker; and when the HPFP status is Risk for a
    log with an HPFP target column, some chart point carries the HPFP
    marker. *)
Theorem analyzeLog_chart_marks_what_metrics_report
    (parsed : ParsedCsv) (ethanol : value) :
  let res := analyzeLog parsed ethanol in
  let m := metrics res in
  ((0 < lean_events (metric_afr m))%nat ->
   exists pt, In pt (chartData res) /\ isLeanWarning pt = true) /\
  (timing_status (timingCorrections m) = "Risk" ->
   exists pt, In pt (chartData res) /\ isTimingWarning pt = true) /\
  (missing (hpfp_target (columns parsed)) = false ->
   hpfp_status (metric_hpfp m) = "Risk" ->
   exists pt, In pt (chartData res) /\ isHpfpWarning pt = true).
Proof.
  intros res m. unfold m, res, analyzeLog. clear m res.
  cbn [metrics chartData metric_afr metric_hpfp timingCorrections].
  destruct parsed as [rs cs tcs bu]. cbn [rows columns timingColumns boostUnit].
  rename rs into rows, cs into columns, tcs into timingColumns, bu into boostUnit.
  set (isLambdaAfr := detectLambda rows (afr columns)).
  set (t := getAfrThresholds ethanol).
  split; [|split].
  - intros Hl.
    unfold analyzeAfr in Hl.
    destruct (missing (afr columns)); [cbn [lean_events] in Hl; lia|].
    cbn zeta in Hl. cbn [lean_events] in Hl. unfold afrLoop in Hl.
    pose proof (afrLoop_by_class columns isLambdaAfr ethanol boostUnit rows afrInit)
      as H. cbn zeta in H. fold t in H.
    destruct H as (_ & _ & [_ H3] & _).
    cbn [afrInit leanEvents Nat.add] in H3.
    set (classOf := afrClass columns isLambdaAfr t boostUnit) in *.
    assert (exists r, In r rows /\ (classOf r = LeanRisk \/ classOf r = LeanCaution))
      as (r & Hin & Hc).
    { destruct (countClass classOf LeanRisk rows) eqn:E1.
      - destruct (countClass_positive classOf LeanCaution rows ltac:(lia))
          as (r & Hin & Hc). eauto.
      - destruct (countClass_positive classOf LeanRisk rows ltac:(lia))
          as (r & Hin & Hc). eauto. }
    apply (lean_row_is_marked rows columns isLambdaAfr boostUnit 150 t timingColumns r Hin).
    destruct (afrClass_bands columns isLambdaAfr ethanol boostUnit r)
      as (B1 & B2 & _). cbn zeta in B1, B2. fold t classOf in B1, B2.
    destruct (thresholds_bands ethanol (toAfr isLambdaAfr (num r (afr columns))))
      as (O1 & _). fold t in O1.
    unfold chartLeanRow.
    destruct Hc as [Hc | Hc].
    + apply B1 in Hc. destruct Hc as [Hc Ha].
      apply andb_true_iff in Hc. destruct Hc as [_ ->]. rewrite (O1 Ha). reflexivity.
    + apply B2 in Hc. destruct Hc as (Hc & Ha & _).
      apply andb_true_iff in Hc. destruct Hc as [_ ->]. rewrite Ha. reflexivity.
  - unfold analyzeTimingCorrections.
    destruct timingColumns as [|c0 cols] eqn:Ecols; [discriminate|].
    rewrite <- Ecols. clear c0 cols Ecols.
    set (scanned := List.filter (timingScanned columns boostUnit) rows).
    assert (timingInvariant scanned timingColumns
              {| worstDeg := 0; worstCyl := None; pullEvents := 0 |}) as H0.
    { unfold timingInvariant. cbn. repeat split; auto; try lia; try discriminate. }
    destruct (timingRows_invariant scanned timingColumns columns boostUnit rows _
                (fun r H1 H2 => proj2 (List.filter_In _ r rows) (conj H1 H2)) H0)
      as [Hinv _].
    cbn zeta in Hinv.
    set (st := fold_left (timingRowStep timingColumns columns boostUnit) rows _) in *.
    destruct Hinv as (I1 & I2 & I3 & I4 & I5).
    cbn zeta. cbn [timing_status].
    destruct (worstDeg st <=? TIMING_RISK_DEG)%js eqn:ER.
    + intros _. destruct (worstCyl st) as [c|] eqn:Ew.
      * destruct (I5 c eq_refl) as (Hc & _ & _ & row & Hrow & Hval).
        apply List.filter_In in Hrow. destruct Hrow as [Hrow Hsc].
        apply (timing_row_is_marked rows columns isLambdaAfr boostUnit 150 t
                 timingColumns row Hrow).
        apply (scanned_row_is_chart_timing_row columns boostUnit timingColumns row c
                 Hsc Hc).
        rewrite Hval. exact ER.
      * rewrite (I4 eq_refl) in ER. discriminate ER.
    + destruct (worstDeg st <=? TIMING_CAUTION_DEG)%js; discriminate.
  - intros Ht Hrisk.
    unfold analyzeHpfp in Hrisk.
    destruct (missing (hpfp columns)) eqn:Hc; [discriminate Hrisk|].
    destruct (positiveReadings (sourceRows rows columns boostUnit) (hpfp columns))
      as [|a0 l0] eqn:Ea; [discriminate Hrisk|].
    cbn zeta in Hrisk. cbn [hpfp_status] in Hrisk.
    unfold hpfpMaxDropPct in Hrisk. rewrite Ht in Hrisk. cbn [negb] in Hrisk.
    apply (proj1 (hpfpStatus_cases _)) in Hrisk.
    rewrite fold_targetDropStep in Hrisk.
    destruct (fold_keepMax_spec (targetDropOf (hpfp columns) (hpfp_target columns))
                rows (Fin 0) eq_refl) as (N & L & _ & HM).
    set (M := fold_left _ rows (Fin 0)) in *.
    destruct HM as [E | (x & Hin & Hx)].
    { rewrite E in Hrisk. discriminate Hrisk. }
    apply (targetDrop_is_chartDrop rows columns x M Ht) in Hx.
    pose proof (worstHpfpSearch_spec rows columns) as HW. cbn zeta in HW.
    destruct HW as (WN & _ & WB & WI).
    apply In_nth_error in Hin. destruct Hin as [k Hk].
    pose proof (WB k x M Hk Hx) as Hle.
    destruct (js_worst_reaches_risk _ _ WN Hrisk Hle) as [Hge Hnz].
    assert (exists j, worstHpfpRowIdx rows columns = Some j /\ (j < length rows)%nat)
      as (j & Hj & Hlt).
    { unfold worstHpfpRowIdx. rewrite Hc. cbn [negb].
      destruct (worstHpfpSearch rows (hpfp columns) (hpfp_target columns))
        as [W idx]. cbn [fst snd] in *. rewrite Hge.
      destruct idx as [j|]; [|contradiction].
      destruct WI as (r & Hr & _). exists j. split; [reflexivity|].
      apply nth_error_Some. congruence. }
    exact (worst_hpfp_row_is_marked rows columns isLambdaAfr boostUnit 150 t
             timingColumns j Hj Hlt).
Qed.

Lemma analyzeAfr_status_note (rows : list (gmap string string)) (columns : Columns)
    (isLambdaAfr : bool) (thresholds : Thresholds) (boostUnit : BoostUnit) :
  let res := analyzeAfr rows columns isLambdaAfr thresholds boostUnit in
  In (afr_status res) STATUSES /\ (afr_status res <> "Safe" -> afr_note res <> None).
Proof.
  intros res. unfold res, analyzeAfr. clear res.
  destruct (missing (afr columns)).
  { cbn. split; [tauto | discriminate]. }
  destruct (afrLoop_invariant columns isLambdaAfr thresholds boostUnit rows afrInit
              (afrInit_invariant thresholds)) as [Hinv _].
  cbn zeta in Hinv. fold (afrLoop columns isLambdaAfr thresholds boostUnit rows) in *.
  set (st := afrLoop columns isLambdaAfr thresholds boostUnit rows) in *.
  destruct Hinv as (I1 & I2 & _).
  cbn zeta. cbn [afr_status afr_note]. split; [exact I1|].
  intros Hs.
  destruct (0 <? leanEvents st)%nat eqn:El; [discriminate|].
  destruct (0 <? richEvents st)%nat eqn:Er; [discriminate|].
  apply Nat.ltb_ge in El, Er. exfalso. apply Hs. apply I2. lia.
Qed.

Lemma analyzeHpfp_status_note (rows : list (gmap string string)) (columns : Columns)
    (boostUnit : BoostUnit) :
  let res := analyzeHpfp rows columns boostUnit in
  In (hpfp_status res) STATUSES /\ (hpfp_status res <> "Safe" -> hpfp_note res <> None).
Proof.
  intros res. unfold res, analyzeHpfp. clear res.
  destruct (missing (hpfp columns)).
  { cbn. split; [tauto | discriminate]. }
  destruct (positiveReadings _ _).
  { cbn. split; [tauto | discriminate]. }
  cbn zeta. cbn [hpfp_status hpfp_note]. unfold hpfpStatus.
  destruct (_ >=? HPFP_DROP_RISK_PCT)%js; [split; [cbn; tauto | discriminate]|].
  destruct (_ >=? HPFP_DROP_CAUTION_PCT)%js; [split; [cbn; tauto | discriminate]|].
  split; [cbn; tauto | intros H; contradiction].
Qed.

Lemma analyzeIat_status_note (rows : list (gmap string string)) (columns : Columns)
    (boostUnit : BoostUnit) :
  let res := analyzeIat rows columns boostUnit in
  In (iat_status res) STATUSES /\ (iat_status res <> "Safe" -> iat_note res <> None).
Proof.
  intros res. unfold res, analyzeIat. clear res.
  destruct (missing (iat columns)).
  { cbn. split; [tauto | discriminate]. }
  destruct (validReadings rows (iat columns)).
  { cbn. split; [tauto | discriminate]. }
  cbn zeta.
  match goal with |- context [match ?s with [] => _ | _ :: _ => _ end] =>
    destruct s end.
  { cbn. split; [tauto | discriminate]. }
  destruct (_ >=? IAT_RISK_F)%js; [cbn; split; [tauto | discriminate]|].
  destruct (_ >=? IAT_CAUTION_F)%js; [cbn; split; [tauto | discriminate]|].
  cbn. split; [tauto | intros H; contradiction].
Qed.

Lemma analyzeTimingCorrections_status_note (rows : list (gmap string string))
    (timingColumns : list string) (columns : Columns) (boostUnit : BoostUnit) :
  let res := analyzeTimingCorrections rows timingColumns columns boostUnit in
  In (timing_status res) STATUSES /\
  (timing_status res <> "Safe" -> timing_note res <> None).
Proof.
  intros res. unfold res, analyzeTimingCorrections. clear res.
  destruct timingColumns.
  { cbn. split; [tauto | intros H; contradiction]. }
  cbn zeta. cbn [timing_status timing_note].
  destruct (_ <=? TIMING_RISK_DEG)%js; [cbn; split; [tauto | discriminate]|].
  destruct (_ <=? TIMING_CAUTION_DEG)%js; [cbn; split; [tauto | discriminate]|].
  cbn. split; [tauto | intros H; contradiction].
Qed.

Lemma worstStatus_of_four (a b c d : string) :
  In a STATUSES -> In b STATUSES -> In c STATUSES -> In d STATUSES ->
  let w := worstStatus [a; b; c; d] in
  In w STATUSES /\
  (w = "Risk" <-> a = "Risk" \/ b = "Risk" \/ c = "Risk" \/ d = "Risk") /\
  (w = "Safe" <-> a = "Safe" /\ b = "Safe" /\ c = "Safe" /\ d = "Safe") /\
  (w = a \/ w = b \/ w = c \/ w = d).
Proof.
  intros Ha Hb Hc Hd.
  destruct Ha as [<- | [<- | [<- | []]]]; destruct Hb as [<- | [<- | [<- | []]]];
    destruct Hc as [<- | [<- | [<- | []]]]; destruct Hd as [<- | [<- | [<- | []]]];
    vm_compute; intuition congruence.
Qed.

Lemma presentNotes_nonempty (ns : list (option Note)) :
  (exists n, In n ns /\ n <> None) -> presentNotes ns <> [].
Proof.
  intros (n & Hin & Hn). unfold presentNotes. intros E.
  destruct n as [x|]; [|contradiction].
  assert (In x (flat_map (fun n => match n with Some x => [x] | None => [] end) ns)) as H.
  { apply in_flat_map. exists (Some x). split; [exact Hin | left; reflexivity]. }
  rewrite E in H. exact H.
Qed.

(** X17. In the result of [analyzeLog] the overall status is one of the four
    metric statuses and the worst of them: it is Risk exactly when some
    metric is Risk and Safe exactly when all four are Safe.  The row count is
    the number of rows of the log; the chart has fewer than 300 points and one
    point per row for a log of fewer than 300 rows; and a result that is not
    Safe carries at least one note. *)
Theorem analyzeLog_overall_result (parsed : ParsedCsv) (ethanol : value) :
  let res := analyzeLog parsed ethanol in
  let a := afr_status (metric_afr (metrics res)) in
  let h := hpfp_status (metric_hpfp (metrics res)) in
  let i := iat_status (metric_iat (metrics res)) in
  let t := timing_status (timingCorrections (metrics res)) in
  row_count res = length (rows parsed) /\
  In (overall_status res) [a; h; i; t] /\
  In (overall_status res) STATUSES /\
  (overall_status res = "Risk" <->
   a = "Risk" \/ h = "Risk" \/ i = "Risk" \/ t = "Risk") /\
  (overall_status res = "Safe" <->
   a = "Safe" /\ h = "Safe" /\ i = "Safe" /\ t = "Safe") /\
  (length (chartData res) < 300)%nat /\
  ((length (rows parsed) < 300)%nat ->
   length (chartData res) = length (rows parsed)) /\
  (overall_status res <> "Safe" -> notes res <> []).
Proof.
  intros res a h i t. unfold a, h, i, t, res, analyzeLog. clear a h i t res.
  cbn [row_count overall_status metrics metric_afr metric_hpfp metric_iat
       timingCorrections chartData notes].
  set (isLambdaAfr := detectLambda (rows parsed) (afr (columns parsed))).
  set (th := getAfrThresholds ethanol).
  destruct (analyzeAfr_status_note (rows parsed) (columns parsed) isLambdaAfr th
              (boostUnit parsed)) as [A1 A2].
  destruct (analyzeHpfp_status_note (rows parsed) (columns parsed) (boostUnit parsed))
    as [H1 H2].
  destruct (analyzeIat_status_note (rows parsed) (columns parsed) (boostUnit parsed))
    as [I1 I2].
  destruct (analyzeTimingCorrections_status_note (rows parsed) (timingColumns parsed)
              (columns parsed) (boostUnit parsed)) as [T1 T2].
  cbn zeta in A1, A2, H1, H2, I1, I2, T1, T2.
  set (ra := analyzeAfr _ _ _ _ _) in *. set (rh := analyzeHpfp _ _ _) in *.
  set (ri := analyzeIat _ _ _) in *. set (rt := analyzeTimingCorrections _ _ _ _) in *.
  destruct (worstStatus_of_four _ _ _ _ A1 H1 I1 T1) as (W1 & W2 & W3 & W4).
  cbn zeta in W1, W2, W3, W4.
  set (w := worstStatus _) in *.
  destruct (buildChartData_length_bound (rows parsed) (columns parsed) isLambdaAfr
              (boostUnit parsed) 150 th (timingColumns parsed) ltac:(lia)) as [L1 L2].
  split; [reflexivity|].
  split; [cbn [In]; destruct W4 as [E | [E | [E | E]]]; symmetry in E; tauto|].
  split; [exact W1|].
  split; [exact W2|]. split; [exact W3|]. split; [exact L1|]. split; [exact L2|].
  intros Hw. apply presentNotes_nonempty.
  destruct (String.eqb (afr_status ra) "Safe") eqn:Ea;
    [apply String.eqb_eq in Ea | apply String.eqb_neq in Ea;
     exists (afr_note ra); split; [cbn; tauto | exact (A2 Ea)]].
  destruct (String.eqb (hpfp_status rh) "Safe") eqn:Eh;
    [apply String.eqb_eq in Eh | apply String.eqb_neq in Eh;
     exists (hpfp_note rh); split; [cbn; tauto | exact (H2 Eh)]].
  destruct (String.eqb (iat_status ri) "Safe") eqn:Ei;
    [apply String.eqb_eq in Ei | apply String.eqb_neq in Ei;
     exists (iat_note ri); split; [cbn; tauto | exact (I2 Ei)]].
  destruct (String.eqb (timing_status rt) "Safe") eqn:Et;
    [apply String.eqb_eq in Et | apply String.eqb_neq in Et;
     exists (timing_note rt); split; [cbn; tauto | exact (T2 Et)]].
  exfalso. apply Hw. apply W3. auto.
Qed.

Lemma filter_index_head {A : Type} (p : nat -> bool) (x : A) (l : list A) (i : nat) :
  p i = true ->
  List.map snd (List.filter (fun ir : nat * A => p (fst ir))
                  (combine (seq i (S (length l))) (x :: l))) =
  x :: List.map snd (List.filter (fun ir : nat * A => p (fst ir))
                       (combine (seq (S i) (length l)) l)).
Proof. intros H. cbn [seq combine List.filter fst]. rewrite H. reflexivity. Qed.

Lemma filter_index_In {A : Type} (p : nat -> bool) (l : list A) (i : nat) (x : A) :
  In x (List.map snd (List.filter (fun ir : nat * A => p (fst ir))
                        (combine (seq i (length l)) l))) -> In x l.
Proof.
  intros H. apply List.in_map_iff in H. destruct H as ([k y] & <- & H).
  apply List.filter_In in H. destruct H as [H _]. apply in_combine_r in H. exact H.
Qed.

(** X18. [downsample] of the log viewer keeps a chart within its budget: for
    a budget of at least one point the result has at most that many rows, all
    of them rows of the log, starting with the first row of the log; a log
    within the budget is returned unchanged, and downsampling the result again
    changes nothing. *)
Theorem downsample_keeps_the_budget {A : Type} (rows : list A) (maxPts : nat) :
  (1 <= maxPts)%nat ->
  let kept := downsample rows maxPts in
  (length kept <= maxPts)%nat /\
  (forall x, In x kept -> In x rows) /\
  hd_error kept = hd_error rows /\
  ((length rows <= maxPts)%nat -> kept = rows) /\
  downsample kept maxPts = kept.
Proof.
  intros Hm kept.
  pose proof (downsample_within_budget rows maxPts Hm) as Hlen. fold kept in Hlen.
  split; [exact Hlen|]. split; [|split; [|split]].
  - intros x. unfold kept, downsample.
    destruct (length rows <=? maxPts)%nat; [auto|].
    apply (filter_index_In
             (fun i => (i mod ((length rows + maxPts - 1) / maxPts) =? 0)%nat)).
  - unfold kept, downsample.
    destruct (length rows <=? maxPts)%nat eqn:E; [reflexivity|].
    destruct rows as [|x l]; [reflexivity|].
    cbn zeta. cbn [length].
    rewrite (filter_index_head
               (fun i => (i mod ((S (length l) + maxPts - 1) / maxPts) =? 0)%nat));
      [reflexivity|].
    apply Nat.eqb_eq. apply Nat.Div0.mod_0_l.
  - intros H. unfold kept, downsample. apply Nat.leb_le in H. rewrite H. reflexivity.
  - unfold downsample at 1. apply Nat.leb_le in Hlen. rewrite Hlen. reflexivity.
Qed.

Lemma downsample_keeps_the_budget_witness :
  (length (downsample (seq 0 299) 150) <= 150)%nat /\
  hd_error (downsample (seq 0 299) 150) = Some 0%nat.
Proof.
  destruct (downsample_keeps_the_budget (seq 0 299) 150 ltac:(lia))
    as (H1 & _ & H2 & _).
  split; [exact H1 | exact H2].
Defined.

Section MarkedPoints.
Variables (rows : list (gmap string string)) (columns : Columns)
          (isLambdaAfr : bool) (boostUnit : BoostUnit) (maxPoints : nat)
          (thresholds : Thresholds) (timingColumns : list string).

Let points :=
  buildChartData rows columns isLambdaAfr boostUnit maxPoints thresholds timingColumns.

Lemma chart_point_is_a_chunk (pt : ChartPoint) :
  In pt points ->
  exists k,
    pt = chartPoint rows columns isLambdaAfr boostUnit thresholds timingColumns
           (worstHpfpRowIdx rows columns) (chartStep (length rows) maxPoints)
           (k * chartStep (length rows) maxPoints).
Proof.
  intros H. apply In_nth_error in H. destruct H as [k Hk]. exists k.
  unfold points in Hk. rewrite buildChartData_nth in Hk.
  destruct (k <? _)%nat; [|discriminate Hk]. injection Hk as <-. reflexivity.
Qed.

Lemma chunk_row_in_log (step k : nat) (r : gmap string string) :
  (1 <= step)%nat -> In r (chunk rows step (k * step)) -> In r rows.
Proof.
  intros Hs H. apply (chunk_In rows step k r Hs) in H. destruct H as (j & _ & Hj).
  exact (nth_error_In _ _ Hj).
Qed.

Lemma lean_marker_has_row (pt : ChartPoint) :
  In pt points -> isLeanWarning pt = true ->
  exists r, In r rows /\
            chartLeanRow columns isLambdaAfr boostUnit thresholds r = true.
Proof.
  intros Hin Hm. destruct (chart_point_is_a_chunk pt Hin) as [k ->].
  destruct (chartPoint_flags rows columns isLambdaAfr boostUnit thresholds
              timingColumns (worstHpfpRowIdx rows columns)
              (chartStep (length rows) maxPoints)
              (k * chartStep (length rows) maxPoints)) as [E _].
  rewrite E in Hm. apply existsb_exists in Hm. destruct Hm as (r & Hr & Hl).
  exists r. split; [|exact Hl].
  exact (chunk_row_in_log _ k r (chartStep_positive _ _) Hr).
Qed.

Lemma timing_marker_has_row (pt : ChartPoint) :
  In pt points -> isTimingWarning pt = true ->
  exists r, In r rows /\ chartTimingRow columns boostUnit timingColumns r = true.
Proof.
  intros Hin Hm. destruct (chart_point_is_a_chunk pt Hin) as [k ->].
  destruct (chartPoint_flags rows columns isLambdaAfr boostUnit thresholds
              timingColumns (worstHpfpRowIdx rows columns)
              (chartStep (length rows) maxPoints)
              (k * chartStep (length rows) maxPoints)) as [_ E].
  rewrite E in Hm. apply existsb_exists in Hm. destruct Hm as (r & Hr & Hl).
  exists r. split; [|exact Hl].
  exact (chunk_row_in_log _ k r (chartStep_positive _ _) Hr).
Qed.

Lemma hpfp_marker_has_row (pt : ChartPoint) :
  In pt points -> isHpfpWarning pt = true ->
  exists j, worstHpfpRowIdx rows columns = Some j.
Proof.
  intros Hin Hm. destruct (chart_point_is_a_chunk pt Hin) as [k ->].
  rewrite chartPoint_isHpfpWarning in Hm.
  destruct (worstHpfpRowIdx rows columns) as [j|]; [eauto | discriminate Hm].
Qed.

End MarkedPoints.

Lemma countClass_of_row (classOf : gmap string string -> AfrClass) (c : AfrClass)
    (rows : list (gmap string string)) (r : gmap string string) :
  In r rows -> classOf r = c -> (0 < countClass classOf c rows)%nat.
Proof.
  intros Hin Hc. unfold countClass.
  assert (In r (List.filter (fun r => AfrClass_eqb (classOf r) c) rows)) as H.
  { apply List.filter_In. split; [exact Hin|]. rewrite Hc. destruct c; reflexivity. }
  destruct (List.filter _ rows); [destruct H | cbn; lia].
Qed.

Lemma timingColStep_pullEvents (row : gmap string string) (st : TimingState)
    (col : string) :
  (pullEvents st <= pullEvents (timingColStep row st col))%nat /\
  (isNaN (num row (Some col)) = false ->
   (num row (Some col) <=? TIMING_CAUTION_DEG)%js = true ->
   (pullEvents st < pullEvents (timingColStep row st col))%nat).
Proof.
  unfold timingColStep.
  destruct (isNaN (num row (Some col))); [split; [lia | discriminate]|].
  destruct (num row (Some col) <? worstDeg st)%js;
    destruct (num row (Some col) <=? TIMING_CAUTION_DEG)%js;
    cbn [pullEvents]; split; try lia; intros _ H; try discriminate H; lia.
Qed.

Lemma timingCols_pullEvents (row : gmap string string) (cols : list string)
    (st : TimingState) :
  (pullEvents st <= pullEvents (fold_left (timingColStep row) cols st))%nat /\
  (forall c, In c cols -> isNaN (num row (Some c)) = false ->
     (num row (Some c) <=? TIMING_CAUTION_DEG)%js = true ->
     (pullEvents st < pullEvents (fold_left (timingColStep row) cols st))%nat).
Proof.
  revert st. induction cols as [|c cols IH]; intros st; cbn [fold_left].
  - split; [lia | intros c []].
  - destruct (timingColStep_pullEvents row st c) as [M1 M2].
    destruct (IH (timingColStep row st c)) as [N1 N2].
    split; [lia|]. intros c' [<- | Hin] Hn Hv.
    + specialize (M2 Hn Hv). lia.
    + specialize (N2 c' Hin Hn Hv). lia.
Qed.

Lemma timingRows_pullEvents (timingColumns : list string) (columns : Columns)
    (boostUnit : BoostUnit) (rows : list (gmap string string)) (st : TimingState) :
  let st' := fold_left (timingRowStep timingColumns columns boostUnit) rows st in
  (pullEvents st <= pullEvents st')%nat /\
  (forall r c, In r rows -> timingScanned columns boostUnit r = true ->
     In c timingColumns -> isNaN (num r (Some c)) = false ->
     (num r (Some c) <=? TIMING_CAUTION_DEG)%js = true ->
     (pullEvents st < pullEvents st')%nat).
Proof.
  revert st. induction rows as [|r rows IH]; intros st; cbn zeta; cbn [fold_left].
  - split; [lia | intros r c []].
  - destruct (IH (timingRowStep timingColumns columns boostUnit st r)) as [N1 N2].
    cbn zeta in N1, N2.
    assert (pullEvents st
            <= pullEvents (timingRowStep timingColumns columns boostUnit st r))%nat
      as M1.
    { rewrite timingRowStep_scanned.
      destruct (timingScanned columns boostUnit r); [|lia].
      apply timingCols_pullEvents. }
    split; [lia|]. intros r' c [<- | Hin] Hs Hc Hn Hv.
    + assert (pullEvents st
              < pullEvents (timingRowStep timingColumns columns boostUnit st r))%nat.
      { rewrite timingRowStep_scanned, Hs.
        exact (proj2 (timingCols_pullEvents r timingColumns st) c Hc Hn Hv). }
      lia.
    + specialize (N2 r' c Hin Hs Hc Hn Hv). lia.
Qed.

Lemma chart_timing_row_cases (columns : Columns) (boostUnit : BoostUnit)
    (timingColumns : list string) (r : gmap string string) :
  chartTimingRow columns boostUnit timingColumns r = true ->
  (timingScanned columns boostUnit r = true \/
   ((num r (pedal columns) <? 1)%js = true /\
    isNaN (num r (throttle columns)) = true)) /\
  exists c, In c timingColumns /\ isNaN (num r (Some c)) = false /\
            (num r (Some c) <=? TIMING_CAUTION_DEG)%js = true.
Proof.
  unfold chartTimingRow. intros H.
  apply andb_true_iff in H. destruct H as [H H3].
  apply andb_true_iff in H. destruct H as [H1 H2].
  split.
  - unfold timingScanned.
    assert (negb (((if isNaN (num r (load columns)) then Fin 0
                    else num r (load columns)) <? LOAD_TIMING)%js
                  && ((if isNaN (normalizeBoostToPsi (num r (boost columns)) boostUnit)
                       then Fin 0
                       else normalizeBoostToPsi (num r (boost columns)) boostUnit)
                      <=? BOOST_DEMAND)%js) = true) as ->.
    { revert H2. unfold ge, gt, LOAD_TIMING, BOOST_DEMAND.
      destruct (num r (load columns)) as [| | |l];
        destruct (normalizeBoostToPsi (num r (boost columns)) boostUnit) as [| | |b];
        cbn [isNaN lt le negb andb orb]; unfold Qlt_bool;
        repeat match goal with
               | |- context [Qle_bool ?x ?y] => destruct (Qle_bool x y) eqn:?
               end; cbn [negb andb orb]; intros H; try reflexivity;
        try discriminate H; q_props; lra. }
    rewrite andb_true_r. revert H1. unfold ge.
    destruct (num r (pedal columns)) as [| | |p];
      destruct (num r (throttle columns)) as [| | |t];
      cbn [isNaN lt le negb andb orb]; unfold Qlt_bool;
      repeat match goal with
             | |- context [Qle_bool ?x ?y] => destruct (Qle_bool x y) eqn:?
             end; cbn [negb andb orb]; intros H; auto; try discriminate H.
  - apply existsb_exists in H3. destruct H3 as (c & Hc & Hv). cbn zeta in Hv.
    apply andb_true_iff in Hv. destruct Hv as [Hn Hv]. apply negb_true_iff in Hn.
    exists c. split; [exact Hc|]. split; [exact Hn|].
    unfold TIMING_CAUTION_DEG.
    destruct (num r (Some c)) as [| | |q]; cbn in *; try discriminate; try reflexivity.
    q_props. lra.
Qed.

Lemma chartLeanRow_reading (columns : Columns) (isLambdaAfr : bool)
    (boostUnit : BoostUnit) (thresholds : Thresholds) (r : gmap string string) :
  chartLeanRow columns isLambdaAfr boostUnit thresholds r = true ->
  isNaN (num r (afr columns)) = false.
Proof.
  unfold chartLeanRow. intros H. apply andb_true_iff in H. destruct H as [_ H].
  unfold gt in H. apply js_lt_not_NaN in H. destruct H as [_ H].
  destruct (num r (afr columns)); try reflexivity.
  unfold toAfr, lambdaToAfr in H. destruct isLambdaAfr; discriminate H.
Qed.

Lemma chart_lean_row_class (columns : Columns) (isLambdaAfr : bool)
    (ethanol : value) (boostUnit : BoostUnit) (r : gmap string string) :
  let t := getAfrThresholds ethanol in
  chartLeanRow columns isLambdaAfr boostUnit t r = true ->
  isFuelCut columns isLambdaAfr r = false ->
  afrClass columns isLambdaAfr t boostUnit r = LeanRisk \/
  afrClass columns isLambdaAfr t boostUnit r = LeanCaution.
Proof.
  intros t H Hf. pose proof (chartLeanRow_reading _ _ _ _ _ H) as Hn.
  unfold chartLeanRow in H. apply andb_true_iff in H.
  destruct H as [Hw Ha]. unfold isFuelCut in Hf.
  destruct (afrClass_bands columns isLambdaAfr ethanol boostUnit r) as (B1 & B2 & _).
  cbn zeta in B1, B2. fold t in B1, B2.
  assert (negb (isNaN (num r (afr columns)))
          && negb (toAfr isLambdaAfr (num r (afr columns)) >=? FUEL_CUT_AFR)%js
          && rowIsWot columns boostUnit r = true) as Hcounted.
  { rewrite Hn, Hf, Hw. reflexivity. }
  destruct (toAfr isLambdaAfr (num r (afr columns)) >? lean_risk t)%js eqn:E.
  - left. apply B1. auto.
  - right. apply B2. auto.
Qed.

(** X19. In the result of [analyzeLog] a chart marker is explained by the
    metrics, with two exceptions the code leaves open.  A lean marker means
    that the AFR status is not Safe, unless a row at wide-open throttle reads
    at or above the fuel-cut threshold (the chart does not skip such rows, the
    metric does).  A timing marker means that the timing status is not Safe,
    unless a row has the pedal below 1 and no throttle reading (the chart
    scans such rows, the metric does not).  With an HPFP target column an
    HPFP marker means that the HPFP status is Risk, unless the metric found no
    valid reading. *)
Theorem analyzeLog_metrics_explain_chart_markers
    (parsed : ParsedCsv) (ethanol : value) :
  let res := analyzeLog parsed ethanol in
  let m := metrics res in
  let cols := columns parsed in
  let isLambdaAfr := detectLambda (rows parsed) (afr cols) in
  forall pt, In pt (chartData res) ->
    (isLeanWarning pt = true ->
     afr_status (metric_afr m) <> "Safe" \/
     exists r, In r (rows parsed) /\ rowIsWot cols (boostUnit parsed) r = true /\
               isFuelCut cols isLambdaAfr r = true) /\
    (isTimingWarning pt = true ->
     timing_status (timingCorrections m) <> "Safe" \/
     exists r, In r (rows parsed) /\ (num r (pedal cols) <? 1)%js = true /\
               isNaN (num r (throttle cols)) = true) /\
    (isHpfpWarning pt = true -> missing (hpfp_target cols) = false ->
     hpfp_status (metric_hpfp m) = "Risk" \/ hpfp_actual (metric_hpfp m) = None).
Proof.
  intros res m cols isLambdaAfr pt. subst m res cols isLambdaAfr.
  unfold analyzeLog.
  cbn [metrics chartData metric_afr metric_hpfp timingCorrections].
  destruct parsed as [rs cs tcs bu]. cbn [rows columns timingColumns boostUnit] in *.
  set (isLambdaAfr := detectLambda rs (afr cs)).
  set (t := getAfrThresholds ethanol).
  intros Hpt. split; [|split].
  - intros Hm.
    destruct (lean_marker_has_row rs cs isLambdaAfr bu 150 t tcs pt Hpt Hm)
      as (r & Hin & Hr).
    destruct (isFuelCut cs isLambdaAfr r) eqn:Hf.
    { right. exists r. split; [exact Hin|]. split; [|exact Hf].
      unfold chartLeanRow in Hr. apply andb_true_iff in Hr. tauto. }
    left.
    destruct (chart_lean_row_class cs isLambdaAfr ethanol bu r Hr Hf) as [Hc | Hc];
      apply (countClass_of_row _ _ rs r Hin) in Hc.
    + pose proof (afrLoop_by_class cs isLambdaAfr ethanol bu rs afrInit) as H.
      cbn zeta in H. fold t in H. destruct H as (_ & H2 & _).
      cbn [afrInit status] in H2.
      unfold analyzeAfr.
      destruct (missing (afr cs)) eqn:Hmiss.
      { exfalso. apply chartLeanRow_reading in Hr.
        assert (num r (afr cs) = NaN) as E.
        { unfold missing in Hmiss. unfold num. destruct (afr cs) as [c|]; [|reflexivity].
          rewrite Hmiss. reflexivity. }
        rewrite E in Hr. discriminate Hr. }
      cbn zeta. cbn [afr_status]. unfold afrLoop. intros Hs.
      apply H2 in Hs. fold t in Hc. lia.
    + pose proof (afrLoop_by_class cs isLambdaAfr ethanol bu rs afrInit) as H.
      cbn zeta in H. fold t in H. destruct H as (_ & H2 & _).
      cbn [afrInit status] in H2.
      unfold analyzeAfr.
      destruct (missing (afr cs)) eqn:Hmiss.
      { exfalso. apply chartLeanRow_reading in Hr.
        assert (num r (afr cs) = NaN) as E.
        { unfold missing in Hmiss. unfold num. destruct (afr cs) as [c|]; [|reflexivity].
          rewrite Hmiss. reflexivity. }
        rewrite E in Hr. discriminate Hr. }
      cbn zeta. cbn [afr_status]. unfold afrLoop. intros Hs.
      apply H2 in Hs. fold t in Hc. lia.
  - intros Hm.
    destruct (timing_marker_has_row rs cs isLambdaAfr bu 150 t tcs pt Hpt Hm)
      as (r & Hin & Hr).
    destruct (chart_timing_row_cases cs bu tcs r Hr)
      as [[Hs | Hx] (c & Hc & Hn & Hv)].
    2: { right. exists r. split; [exact Hin | exact Hx]. }
    left. unfold analyzeTimingCorrections.
    destruct tcs as [|c0 cols] eqn:Ecols; [destruct Hc|].
    rewrite <- Ecols in *. clear c0 cols Ecols.
    set (scanned := List.filter (timingScanned cs bu) rs).
    assert (timingInvariant scanned tcs
              {| worstDeg := 0; worstCyl := None; pullEvents := 0 |}) as H0.
    { unfold timingInvariant. cbn. repeat split; auto; try lia; try discriminate. }
    destruct (timingRows_invariant scanned tcs cs bu rs _
                (fun r H1 H2 => proj2 (List.filter_In _ r rs) (conj H1 H2)) H0)
      as [Hinv _].
    destruct (timingRows_pullEvents tcs cs bu rs
                {| worstDeg := 0; worstCyl := None; pullEvents := 0 |}) as [_ Hp].
    cbn zeta in Hinv, Hp. specialize (Hp r c Hin Hs Hc Hn Hv).
    cbn [pullEvents] in Hp.
    set (st := fold_left (timingRowStep tcs cs bu) rs _) in *.
    destruct Hinv as (_ & _ & I3 & _).
    cbn zeta. cbn [timing_status].
    apply I3 in Hp.
    destruct (worstDeg st <=? TIMING_RISK_DEG)%js; [discriminate|].
    rewrite Hp. discriminate.
  - intros Hm Ht.
    destruct (hpfp_marker_has_row rs cs isLambdaAfr bu 150 t tcs pt Hpt Hm) as [j Hj].
    unfold worstHpfpRowIdx in Hj.
    destruct (missing (hpfp cs)) eqn:Hc; [discriminate Hj|]. cbn [negb] in Hj.
    pose proof (worstHpfpSearch_spec rs cs) as HW. cbn zeta in HW.
    destruct (worstHpfpSearch rs (hpfp cs) (hpfp_target cs)) as [W idx].
    cbn [fst snd] in HW. destruct HW as (WN & _ & _ & WI).
    destruct (W <? HPFP_DROP_RISK_PCT)%js eqn:EW; [discriminate Hj|].
    subst idx. destruct WI as (r & Hr & Hd & Hpos & _).
    unfold analyzeHpfp. rewrite Hc.
    destruct (positiveReadings (sourceRows rs cs bu) (hpfp cs)) as [|a0 l0] eqn:Ea;
      [right; reflexivity|].
    left. cbn zeta. cbn [hpfp_status].
    apply (proj1 (hpfpStatus_cases _)).
    unfold hpfpMaxDropPct. rewrite Ht. cbn [negb]. rewrite fold_targetDropStep.
    destruct (fold_keepMax_spec (targetDropOf (hpfp cs) (hpfp_target cs))
                rs (Fin 0) eq_refl) as (N & _ & HB & _).
    set (M := fold_left _ rs (Fin 0)) in *.
    assert (targetDropOf (hpfp cs) (hpfp_target cs) r = Some W) as Hd'.
    { unfold chartDropOfRow, chartDropPct in Hd. unfold targetDropOf.
      destruct (isNaN (num r (hpfp cs)) || (num r (hpfp cs) <=? 0)%js) eqn:E1;
        [discriminate Hd|].
      rewrite Ht in Hd. cbn [negb] in Hd.
      apply orb_false_iff in E1. destruct E1 as [E1 E2]. rewrite E1, E2.
      destruct (isNaN (num r (hpfp_target cs))) eqn:E3; cbn [negb andb orb] in Hd |- *.
      { injection Hd as <-. discriminate Hpos. }
      destruct (num r (hpfp_target cs) >? 1000)%js eqn:E4.
      - assert ((num r (hpfp_target cs) <=? 1000)%js = false) as ->.
        { unfold gt in E4. destruct (num r (hpfp_target cs)); cbn in *;
            try discriminate; try reflexivity. q_props. lra. }
        cbn [orb]. exact Hd.
      - injection Hd as <-. discriminate Hpos. }
    pose proof (HB r W (nth_error_In _ _ Hr) Hd') as Hle.
    unfold ge, gt, HPFP_DROP_RISK_PCT in *.
    destruct M, W; cbn in *; try discriminate; try reflexivity.
    q_props. lra.
Qed.

(** The two exceptions occur: a fuel-cut row at wide-open throttle is marked
    lean on the chart while the AFR status is Safe, and a pull on a row with
    the pedal released and no throttle reading is marked on the chart while
    the timing status is Safe. *)
Example chart_markers_the_metrics_pass_over :
  (let res := analyzeLog fuelCutLog (VNum 10) in
   List.map isLeanWarning (chartData res) = [true] /\
   afr_status (metric_afr (metrics res)) = "Safe" /\
   lean_events (metric_afr (metrics res)) = 0%nat) /\
  (let res := analyzeLog liftedPullLog (VNum 10) in
   List.map isTimingWarning (chartData res) = [true] /\
   timing_status (timingCorrections (metrics res)) = "Safe" /\
   pull_events (timingCorrections (metrics res)) = 0%nat).
Proof. vm_compute. repeat split; reflexivity. Qed.

Lemma add_below (strict : bool) (acc x : number) (b c : Q) :
  sumBelow strict acc b -> (x <? Fin c)%js = true -> sumBelow true (acc + x)%js (b + c).
Proof.
  intros Ha Hx.
  destruct acc as [| | |s]; cbn in Ha; try contradiction;
    destruct x as [| | |q]; cbn in Hx; try discriminate Hx; cbn; auto.
  q_props. destruct strict; lra.
Qed.

Lemma sum_below (xs : list number) (c : Q) (strict : bool) (acc : number) (b : Q) :
  (forall x, In x xs -> (x <? Fin c)%js = true) ->
  sumBelow strict acc b ->
  sumBelow (strict || (0 <? length xs)%nat) (fold_left add xs acc)
    (b + inject_Z (Z.of_nat (length xs)) * c).
Proof.
  revert strict acc b. induction xs as [|x xs IH]; intros strict acc b Hxs Ha.
  - cbn [fold_left length Nat.ltb Nat.leb]. rewrite orb_false_r.
    change (inject_Z (Z.of_nat 0)) with 0.
    destruct acc; cbn [sumBelow] in *; auto. destruct strict; lra.
  - cbn [fold_left]. 
    pose proof (add_below strict acc x b c Ha (Hxs x (or_introl eq_refl))) as H1.
    specialize (IH true (acc + x)%js (b + c) (fun y Hy => Hxs y (or_intror Hy)) H1).
    cbn [orb] in IH. replace (strict || (0 <? length (x :: xs))%nat) with true
      by (cbn; rewrite orb_true_r; reflexivity).
    cbn [length]. rewrite Nat2Z.inj_succ, <- Z.add_1_r, inject_Z_plus.
    change (inject_Z 1) with 1.
    destruct (fold_left add xs (acc + x)%js); cbn [sumBelow] in *; auto. lra.
Qed.

Lemma average_below (xs : list number) (c : Q) :
  (forall x, In x xs -> (x <? Fin c)%js = true) ->
  forall v, average xs = Some v -> (v <? Fin c)%js = true.
Proof.
  intros Hxs v Hv. destruct xs as [|x xs]; [discriminate Hv|].
  unfold average in Hv. injection Hv as <-.
  pose proof (sum_below (x :: xs) c false (Fin 0) 0 Hxs ltac:(cbn; lra)) as H.
  cbn [orb] in H. fold (sum (x :: xs)) in H.
  replace (0 <? length (x :: xs))%nat with true in H by reflexivity.
  cbn [length] in H |- *.
  assert (0 < inject_Z (Z.of_nat (S (length xs)))) as Hn.
  { change 0 with (inject_Z 0). rewrite <- Zlt_Qlt. lia. }
  unfold ofNat. set (d := inject_Z (Z.of_nat (S (length xs)))) in *. clearbody d.
  assert (Qeq_bool d 0 = false) as Ed.
  { apply not_true_iff_false. intros E. apply Qeq_bool_iff in E. lra. }
  assert (Qlt_bool d 0 = false) as El by (q_props; lra).
  destruct (sum (x :: xs)) as [| | |s]; cbn in H; try contradiction.
  - cbn [div]. rewrite El. reflexivity.
  - cbn [div]. rewrite Ed. cbn [lt]. q_props.
    apply Qlt_shift_div_r; [exact Hn|]. lra.
Qed.

Lemma roundN_below_fuel_cut (v : number) :
  (v <? FUEL_CUT_AFR)%js = true -> (roundN v 2 <=? FUEL_CUT_AFR)%js = true.
Proof.
  unfold FUEL_CUT_AFR. destruct v as [| | |q]; cbn; try discriminate; try reflexivity.
  intros H. q_props.
  destruct (Qlt_le_dec q 0) as [Hq | Hq].
  - pose proof (toFixedQ_nonpos q 2 ltac:(lra)). lra.
  - pose proof (toFixedQ_mono q 16.5 Hq ltac:(lra)) as Hm.
    assert (toFixedQ 16.5 2 == 16.5) as E by reflexivity. lra.
Qed.

(** X20. The AFR value of the result never passes the fuel-cut threshold of
    16.5, whatever the log, the unit of the readings and the thresholds: it is
    the rounded worst lean reading when a lean event was counted and the
    rounded mean of the Demand samples otherwise, and both only take readings
    below the fuel-cut threshold. *)
Theorem analyzeAfr_value_is_below_fuel_cut
    (rows : list (gmap string string)) (columns : Columns) (isLambdaAfr : bool)
    (thresholds : Thresholds) (boostUnit : BoostUnit) :
  let res := analyzeAfr rows columns isLambdaAfr thresholds boostUnit in
  let st := afrLoop columns isLambdaAfr thresholds boostUnit rows in
  forall v, afr_actual res = Some v ->
    (v <=? FUEL_CUT_AFR)%js = true /\
    ((lean_events res = 0)%nat ->
     exists mean, average (demandAfrSamples st) = Some mean /\ v = roundN mean 2 /\
                  (mean <? FUEL_CUT_AFR)%js = true) /\
    ((0 < lean_events res)%nat ->
     exists w, worstLean st = Some w /\ v = roundN w 2 /\
               (w <? FUEL_CUT_AFR)%js = true).
Proof.
  intros res st v. unfold res, analyzeAfr. clear res.
  destruct (missing (afr columns)); [discriminate|].
  destruct (afrLoop_invariant columns isLambdaAfr thresholds boostUnit rows afrInit
              (afrInit_invariant thresholds)) as [Hinv _].
  cbn zeta in Hinv. fold (afrLoop columns isLambdaAfr thresholds boostUnit rows) in Hinv.
  fold st in Hinv. fold st.
  destruct Hinv as (_ & _ & _ & _ & I5 & I6 & I7).
  cbn zeta. cbn [afr_actual lean_events].
  destruct (worstLean st) as [w|] eqn:Ew.
  - intros [= <-]. destruct (I7 w eq_refl) as [_ Hw].
    split; [exact (roundN_below_fuel_cut w Hw)|]. split.
    + intros H0. apply I5 in H0. discriminate H0.
    + intros _. exists w. auto.
  - destruct (average (demandAfrSamples st)) as [mean|] eqn:Ea; [|discriminate].
    intros [= <-].
    pose proof (average_below (demandAfrSamples st) 16.5 I6 mean Ea) as Hm.
    split; [exact (roundN_below_fuel_cut mean Hm)|]. split.
    + intros _. exists mean. auto.
    + intros H0. assert (leanEvents st = 0)%nat by (apply I5; reflexivity). lia.
Qed.

Lemma analyzeLog_metrics_explain_chart_markers_witness :
  exists pt,
    In pt (chartData (analyzeLog fuelCutLog (VNum 10))) /\
    isLeanWarning pt = true /\
    (afr_status (metric_afr (metrics (analyzeLog fuelCutLog (VNum 10)))) <> "Safe" \/
     exists r, In r (rows fuelCutLog) /\
               rowIsWot (columns fuelCutLog) (boostUnit fuelCutLog) r = true /\
               isFuelCut (columns fuelCutLog)
                 (detectLambda (rows fuelCutLog) (afr (columns fuelCutLog))) r = true).
Proof.
  exists (nth 0 (chartData (analyzeLog fuelCutLog (VNum 10)))
            (mkChartPoint (TimeIndex 0) None None None false false false)).
  assert (In (nth 0 (chartData (analyzeLog fuelCutLog (VNum 10)))
                (mkChartPoint (TimeIndex 0) None None None false false false))
             (chartData (analyzeLog fuelCutLog (VNum 10)))) as Hin
    by (vm_compute; left; reflexivity).
  split; [exact Hin|]. split; [vm_compute; reflexivity|].
  exact (proj1 (analyzeLog_metrics_explain_chart_markers fuelCutLog (VNum 10) _ Hin)
           ltac:(vm_compute; reflexivity)).
Defined.

Lemma analyzeAfr_value_is_below_fuel_cut_witness :
  afr_actual (analyzeAfr [pullRow] sampleColumns false (getAfrThresholds (VNum 10)) psi)
  = Some (Fin 15) /\
  (Fin 15 <=? FUEL_CUT_AFR)%js = true.
Proof.
  assert (afr_actual
            (analyzeAfr [pullRow] sampleColumns false (getAfrThresholds (VNum 10)) psi)
          = Some (Fin 15)) as H by (vm_compute; reflexivity).
  split; [exact H|].
  exact (proj1 (analyzeAfr_value_is_below_fuel_cut [pullRow] sampleColumns false
                  (getAfrThresholds (VNum 10)) psi (Fin 15) H)).
Defined.








